(** * Classroom/Drive synchronisation and submission workflow

    A shallow embedding of the reconciliation routes
    (backend/app/routes/classroom.py), the submission and generation routes
    (backend/app/routes/assignments.py) and the service wrappers they call
    (backend/app/services/google_drive.py, google_classroom.py,
    pdf_generator.py), followed by the properties of the specification.

    Python values are embedded as a small dynamically typed universe, Python
    exceptions as an explicit result type, the relational store as lists of
    rows in insertion order, and every remote service as a script of the
    answers it gives. *)

From Stdlib Require Import ZArith String Ascii List Bool Lia.
From stdpp Require Import base option list strings gmap.

Local Open Scope string_scope.
Local Open Scope list_scope.
Local Open Scope Z_scope.

(* ===================================================================== *)
(** * Part I. The embedding                                               *)
(* ===================================================================== *)

(** ** Python values, exceptions and the small monad used by the routes *)
Module Py.

(** The JSON-shaped values the Google client libraries hand back. A dict
    keeps its items in insertion order; a lookup takes the first item
    with the key. *)
#[warnings="-register-all"]
Inductive pyval : Type :=
| PNone
| PBool (b : bool)
| PInt (z : Z)
| PStr (s : string)
| PList (l : list pyval)
| PDict (kvs : list (string * pyval)).

Definition dict : Type := list (string * pyval).

Inductive exn_kind : Type :=
| KeyError | TypeError | AttributeError | ValueError | OverflowError
| UnicodeDecodeError | HttpError | OSError | StatementError | OtherError.

#[global] Instance exn_kind_eq_dec : EqDecision exn_kind.
Proof. solve_decision. Defined.

(** [HTTPException] is fastapi's; every other exception is a kind and a
    message. *)
Inductive exn : Type :=
| Exn (kind : exn_kind) (msg : string)
| HTTPException (status_code : Z) (detail : string).

Inductive result (A : Type) : Type :=
| Ok (a : A)
| Raise (e : exn).
Arguments Ok {A} a.
Arguments Raise {A} e.

Definition rbind {A B} (r : result A) (k : A -> result B) : result B :=
  match r with Ok a => k a | Raise e => Raise e end.

(** [except kind:] *)
Definition is_kind (k : exn_kind) (e : exn) : bool :=
  match e with
  | Exn k' _ => if decide (k = k') then true else false
  | HTTPException _ _ => false
  end.

(** Decimal rendering of a status code, for [str] of an HTTPException. *)
Definition digit_string (d : Z) : string :=
  String (ascii_of_nat (48 + Z.to_nat d)) EmptyString.

Fixpoint decimal_fuel (fuel : nat) (n : Z) : string :=
  match fuel with
  | O => ""
  | S fuel' =>
      if n <? 10 then digit_string n
      else decimal_fuel fuel' (n / 10) +:+ digit_string (n mod 10)
  end.

Definition decimal (n : Z) : string := decimal_fuel 20 n.

(** [str(e)] *)
Definition str_exn (e : exn) : string :=
  match e with
  | Exn _ msg => msg
  | HTTPException code detail => decimal code +:+ ": " +:+ detail
  end.

(** [type(v).__name__], as exception messages quote it. *)
Definition type_name (v : pyval) : string :=
  match v with
  | PNone => "NoneType"
  | PBool _ => "bool"
  | PInt _ => "int"
  | PStr _ => "str"
  | PList _ => "list"
  | PDict _ => "dict"
  end.

(** [sub in s] on two strings. *)
Fixpoint contains (sub s : string) : bool :=
  String.prefix sub s ||
  match s with
  | EmptyString => false
  | String _ s' => contains sub s'
  end.

Fixpoint dict_lookup (k : string) (d : dict) : option pyval :=
  match d with
  | [] => None
  | (k', v) :: d' => if decide (k = k') then Some v else dict_lookup k d'
  end.

(** Truth value of an object in [if x:] and [not x]. *)
Definition truthy (v : pyval) : bool :=
  match v with
  | PNone => false
  | PBool b => b
  | PInt z => negb (z =? 0)
  | PStr s => negb (String.eqb s "")
  | PList l => match l with [] => false | _ => true end
  | PDict d => match d with [] => false | _ => true end
  end.

Definition is_str (s : string) (v : pyval) : bool :=
  match v with PStr s' => String.eqb s s' | _ => false end.

(** ["key" in x]: key membership on a dict, substring on a string,
    element membership on a list, [TypeError] on anything else. *)
Definition py_in (k : string) (v : pyval) : result bool :=
  match v with
  | PDict d => Ok (bool_decide (is_Some (dict_lookup k d)))
  | PStr s => Ok (contains k s)
  | PList l => Ok (existsb (is_str k) l)
  | _ => Raise (Exn TypeError
                  ("argument of type '" +:+ type_name v +:+ "' is not iterable"))
  end.

(** [x["key"]]. The message of a [KeyError] is the [repr] of the key. *)
Definition py_getitem (v : pyval) (k : string) : result pyval :=
  match v with
  | PDict d =>
      match dict_lookup k d with
      | Some x => Ok x
      | None => Raise (Exn KeyError ("'" +:+ k +:+ "'"))
      end
  | PStr _ => Raise (Exn TypeError "string indices must be integers")
  | PList _ =>
      Raise (Exn TypeError "list indices must be integers or slices, not str")
  | _ => Raise (Exn TypeError
                  ("'" +:+ type_name v +:+ "' object is not subscriptable"))
  end.

(** [x.get("key", default)] *)
Definition py_get (v : pyval) (k : string) (default : pyval) : result pyval :=
  match v with
  | PDict d => Ok (from_option id default (dict_lookup k d))
  | _ => Raise (Exn AttributeError
                  ("'" +:+ type_name v +:+ "' object has no attribute 'get'"))
  end.

(** [for x in v] *)
Fixpoint chars (s : string) : list pyval :=
  match s with
  | EmptyString => []
  | String c s' => PStr (String c EmptyString) :: chars s'
  end.

Definition py_iter (v : pyval) : result (list pyval) :=
  match v with
  | PList l => Ok l
  | PDict d => Ok (map (fun kv => PStr (fst kv)) d)
  | PStr s => Ok (chars s)
  | _ => Raise (Exn TypeError
                  ("'" +:+ type_name v +:+ "' object is not iterable"))
  end.

(** A value bound to a [String]/[Text] column: text or NULL. Any other
    object makes the statement fail, as on a backend that checks the type
    of what it binds. (SQLite, which binds an integer and reads it back as
    text, is not modelled, nor is the session that a failed flush leaves
    in need of a rollback; the properties below that depend on a bound
    value assume that it is text or NULL.) *)
Definition to_text (v : pyval) : result (option string) :=
  match v with
  | PNone => Ok None
  | PStr s => Ok (Some s)
  | _ => Raise (Exn StatementError "unsupported bind parameter")
  end.

Definition of_text (t : option string) : pyval :=
  match t with Some s => PStr s | None => PNone end.

(** Integer arguments ([bool] is a subclass of [int]). *)
Definition as_int (v : pyval) : result Z :=
  match v with
  | PInt z => Ok z
  | PBool b => Ok (Z.b2z b)
  | _ => Raise (Exn TypeError
                  ("'" +:+ type_name v +:+
                   "' object cannot be interpreted as an integer"))
  end.

(** The range of a C [int]. *)
Definition c_int (z : Z) : bool :=
  (-2147483648 <=? z) && (z <=? 2147483647).

(** An argument that a C implementation reads as a C [int]: an integer
    outside that range is an [OverflowError], not a [ValueError]. *)
Definition as_c_int (v : pyval) : result Z :=
  rbind (as_int v) (fun z =>
    if c_int z then Ok z
    else Raise (Exn OverflowError
           (if (z <? -9223372036854775808) || (9223372036854775807 <? z)
            then "Python int too large to convert to C long"
            else if z <? 0 then "signed integer is less than minimum"
            else "signed integer is greater than maximum"))).

(** *** [datetime.datetime] *)
Record datetime : Type := Datetime {
  year : Z; month : Z; day : Z; hour : Z; minute : Z
}.

Definition is_leap (y : Z) : bool :=
  (y mod 4 =? 0) && (negb (y mod 100 =? 0) || (y mod 400 =? 0)).

Definition days_in_month (y m : Z) : Z :=
  if m =? 2 then (if is_leap y then 29 else 28)
  else if (m =? 4) || (m =? 6) || (m =? 9) || (m =? 11) then 30
  else 31.

Definition valid_datetime (y m d h mi : Z) : bool :=
  (1 <=? y) && (y <=? 9999) && (1 <=? m) && (m <=? 12) &&
  (1 <=? d) && (d <=? days_in_month y m) &&
  (0 <=? h) && (h <=? 23) && (0 <=? mi) && (mi <=? 59).

Definition decimal_signed (n : Z) : string :=
  if n <? 0 then "-" +:+ decimal (- n) else decimal n.

(** The message of the first range check that fails. *)
Definition range_error (y m d h mi : Z) : string :=
  if negb ((1 <=? y) && (y <=? 9999)) then
    "year " +:+ decimal_signed y +:+ " is out of range"
  else if negb ((1 <=? m) && (m <=? 12)) then "month must be in 1..12"
  else if negb ((1 <=? d) && (d <=? days_in_month y m)) then
    "day is out of range for month"
  else if negb ((0 <=? h) && (h <=? 23)) then "hour must be in 0..23"
  else "minute must be in 0..59".

(** [datetime(year=, month=, day=, hour=, minute=)] on Python values. The
    arguments are read as C ints, in this order: one that is no integer is
    a [TypeError], an integer that does not fit a C int an
    [OverflowError]. The components are then checked against their
    ranges: [ValueError] when one is out of range. *)
Definition mk_datetime (vy vm vd vh vmi : pyval) : result datetime :=
  rbind (as_c_int vy) (fun y =>
  rbind (as_c_int vm) (fun m =>
  rbind (as_c_int vd) (fun d =>
  rbind (as_c_int vh) (fun h =>
  rbind (as_c_int vmi) (fun mi =>
    if valid_datetime y m d h mi then Ok (Datetime y m d h mi)
    else Raise (Exn ValueError (range_error y m d h mi))))))).

(** *** State and exceptions

    A computation of a route reads and writes a state and may raise; the
    state reached when it raises is kept (a commit is not undone by a
    later exception). *)
Definition M (St A : Type) : Type := St -> result A * St.

Definition ret {St A} (a : A) : M St A := fun s => (Ok a, s).

Definition raise {St A} (e : exn) : M St A := fun s => (Raise e, s).

Definition bind {St A B} (c : M St A) (k : A -> M St B) : M St B :=
  fun s =>
    match c s with
    | (Ok a, s') => k a s'
    | (Raise e, s') => (Raise e, s')
    end.

Definition lift {St A} (r : result A) : M St A := fun s => (r, s).

Definition get {St} : M St St := fun s => (Ok s, s).

Definition modify {St} (f : St -> St) : M St unit := fun s => (Ok tt, f s).

(** [try: c  except Exception as e: h e] *)
Definition try_except {St A} (c : M St A) (h : exn -> M St A) : M St A :=
  fun s =>
    match c s with
    | (Ok a, s') => (Ok a, s')
    | (Raise e, s') => h e s'
    end.

(** [for x in xs: body x], collecting what each iteration appends: the
    value as it stands when the iteration ends. The sync routes append
    the ORM object of the row, which stays live: when a listing names one
    remote id twice, the caller sees at both positions the row as the last
    write left it. The store is the same either way, and so are the
    primary key, the remote id and the owner of every collected row, which
    no later iteration changes. *)
Fixpoint for_each {St X R} (body : X -> M St R) (xs : list X)
  : M St (list R) :=
  match xs with
  | [] => ret []
  | x :: xs' =>
      bind (body x) (fun r =>
      bind (for_each body xs') (fun rs => ret (r :: rs)))
  end.

End Py.

Declare Scope py_scope.
Delimit Scope py_scope with py.
Notation "'let*' x := c 'in' k" := (Py.bind c (fun x => k))
  (at level 10, x name, c at level 200, k at level 200) : py_scope.
Notation "'let?' x := r 'in' k" := (Py.rbind r (fun x => k))
  (at level 10, x name, r at level 200, k at level 200) : py_scope.
Local Open Scope py_scope.

(** ** The persisted entities (backend/app/models/models.py)

    Every [String], [Text] and [DateTime] column is nullable; the
    [created_at]/[updated_at] stamps, which no route here reads, are left
    out. *)
Module UserModel.
Record t : Type := mk {
  id : Z;
  email : option string;
  full_name : option string;
  google_access_token : option string;
  google_refresh_token : option string;
  token_expiry : option Py.datetime
}.
End UserModel.

Module CourseModel.
Record t : Type := mk {
  id : Z;
  google_course_id : option string;
  name : option string;
  section : option string;
  description : option string;
  room : option string;
  user_id : Z
}.
End CourseModel.

Module AssignmentModel.
Record t : Type := mk {
  id : Z;
  google_assignment_id : option string;
  title : option string;
  description : option string;
  due_date : option Py.datetime;
  course_id : Z;
  user_id : Z
}.
End AssignmentModel.

Module DraftModel.
Record t : Type := mk {
  id : Z;
  content : option string;
  status : option string;
  feedback : option string;
  submission_date : option Py.datetime;
  user_id : Z;
  assignment_id : Z
}.
End DraftModel.

Module MaterialModel.
Record t : Type := mk {
  id : Z;
  google_material_id : option string;
  title : option string;
  type : option string;
  url : option string;
  content : option string;
  processed_content : option string;
  assignment_id : Z
}.
End MaterialModel.

(** ** The request bodies of the draft routes
    (backend/app/models/schemas.py) *)
Module DraftCreate.
Record t : Type := mk {
  content : string;
  status : string;
  feedback : option string;
  user_id : Z;
  assignment_id : Z
}.
End DraftCreate.

Module DraftUpdate.
Record t : Type := mk {
  content : string;
  status : string;
  feedback : option string;
  submission_date : option Py.datetime
}.
End DraftUpdate.

(** ** The session, the local disk and the remote calls made so far *)
Module World.
Import Py.

Record Db : Type := mkDb {
  courses : list CourseModel.t;
  assignments : list AssignmentModel.t;
  materials : list MaterialModel.t;
  drafts : list DraftModel.t
}.

(** A media request of the Drive client. *)
Inductive request : Type :=
| ExportMedia (fileId : pyval) (mimeType : string)
| GetMedia (fileId : pyval).

(** Every remote call that reaches the network, in the order made. *)
Inductive call : Type :=
| DriveFilesGet (fileId : pyval)
| DriveNextChunk (rq : request)
| DriveFilesList (q : string)
| DriveFilesCreate (body : pyval)
| ClassroomCoursesList
| ClassroomCourseWorkList (courseId : pyval)
| SubmissionsCreate (courseId courseWorkId : pyval)
| SubmissionsModifyAttachments (courseId courseWorkId id body : pyval)
| SubmissionsTurnIn (courseId courseWorkId id : pyval).

Record t : Type := mk {
  db : Db;
  fs : gset string;          (* the paths that exist on the local disk *)
  calls : list call
}.

Definition set_db (f : Db -> Db) (w : t) : t :=
  mk (f (db w)) (fs w) (calls w).
Definition set_fs (f : gset string -> gset string) (w : t) : t :=
  mk (db w) (f (fs w)) (calls w).
Definition log (c : call) : M t unit :=
  modify (fun w => mk (db w) (fs w) (calls w ++ [c])).

(** *** Queries and commits *)

(** [query.filter(...).first()]: the first row, in insertion order, that
    satisfies the criteria. *)
Definition first {A} (p : A -> bool) (rows : list A) : option A :=
  List.find p rows.

(** The key a freshly added row receives on commit. *)
Definition next_id {A} (pk : A -> Z) (rows : list A) : Z :=
  1 + foldr Z.max 0 (map pk rows).

(** [db.add(row); db.commit()] *)
Definition add_row {A} (rows : list A) (row : A) : list A := rows ++ [row].

(** [db.commit()] after attribute assignments on a loaded row: the row
    with that primary key is replaced. *)
Definition commit_row {A} (pk : A -> Z) (row : A) (rows : list A) : list A :=
  map (fun r => if decide (pk r = pk row) then row else r) rows.

Definition with_courses (f : list CourseModel.t -> list CourseModel.t)
  : M t unit :=
  modify (set_db (fun d =>
    mkDb (f (courses d)) (assignments d) (materials d) (drafts d))).
Definition with_assignments
  (f : list AssignmentModel.t -> list AssignmentModel.t) : M t unit :=
  modify (set_db (fun d =>
    mkDb (courses d) (f (assignments d)) (materials d) (drafts d))).
Definition with_materials
  (f : list MaterialModel.t -> list MaterialModel.t) : M t unit :=
  modify (set_db (fun d =>
    mkDb (courses d) (assignments d) (f (materials d)) (drafts d))).
Definition with_drafts (f : list DraftModel.t -> list DraftModel.t)
  : M t unit :=
  modify (set_db (fun d =>
    mkDb (courses d) (assignments d) (materials d) (f (drafts d)))).

End World.

(** ** The local disk *)
Module os.
Import Py World.

(** What the operating system answers: the name [tempfile] hands out (or
    the error creating the file), and the message of the [OSError], if
    any, that removing a path meets. *)
Record script : Type := mk {
  named_temporary_file : result string;
  remove_error : string -> option string
}.

(** [os.path.exists(path)] *)
Definition path_exists (path : string) : M World.t bool :=
  let* w := get in ret (bool_decide (path ∈ fs w)).

(** [os.remove(path)] *)
Definition remove (disk : script) (path : string) : M World.t unit :=
  let* w := get in
  if bool_decide (path ∈ fs w) then
    match remove_error disk path with
    | Some msg => raise (Exn OSError msg)
    | None => modify (set_fs (fun files => files ∖ {[path]}))
    end
  else raise (Exn OSError "No such file or directory").

(** [tempfile.NamedTemporaryFile(delete=False, suffix=".pdf")], closed at
    once: the file stays on disk. *)
Definition NamedTemporaryFile (disk : script) : M World.t string :=
  let* name := lift (named_temporary_file disk) in
  let* _ := modify (set_fs (fun files => {[name]} ∪ files)) in
  ret name.
End os.

(** ** backend/app/services/google_drive.py *)
Module google_drive.
Import Py World.

(** One media transfer, as the successive answers of
    [downloader.next_chunk()]: the chunk that completes it, a chunk with
    more to come, or a transport error. *)
Inductive transfer : Type :=
| Done (data : list Byte.byte)
| More (data : list Byte.byte) (rest : transfer)
| Fails (e : exn).

(** The Drive API as the answers it gives. *)
Record api : Type := mkApi {
  files_get : pyval -> result pyval;
  files_media : request -> transfer;
  files_list : string -> result pyval;
  files_create : pyval -> result pyval
}.

Record BytesIO : Type := mkBytesIO {
  buffer : list Byte.byte;
  position : nat
}.

Definition write (fh : BytesIO) (data : list Byte.byte) : BytesIO :=
  let p := position fh in
  mkBytesIO (take p (buffer fh) ++ data ++ drop (p + length data) (buffer fh))
            (p + length data).

Definition seek (fh : BytesIO) (p : nat) : BytesIO :=
  mkBytesIO (buffer fh) p.

(** [fh.read()]: what lies between the position and the end. *)
Definition read (fh : BytesIO) : list Byte.byte :=
  drop (position fh) (buffer fh).

(** [while not done: status, done = downloader.next_chunk()] *)
Fixpoint next_chunks (rq : request) (tr : transfer) (fh : BytesIO)
  {struct tr} : M World.t BytesIO :=
  let* _ := log (DriveNextChunk rq) in
  match tr with
  | Done data => ret (write fh data)
  | More data rest => next_chunks rq rest (write fh data)
  | Fails e => raise e
  end.

(** [download_file(self, file_id) -> Optional[BytesIO]] *)
Definition download_file (drive : api) (file_id : pyval)
  : M World.t (option BytesIO) :=
  try_except
    (let* _ := log (DriveFilesGet file_id) in
     let* file_metadata := lift (files_get drive file_id) in
     let* mime_type := lift (py_get file_metadata "mimeType" PNone) in
     let* native := lift (py_in "google-apps" mime_type) in
     let* request :=
       (if native : bool then
          let* document := lift (py_in "document" mime_type) in
          if document : bool then
            ret (Some (ExportMedia file_id "text/plain"))
          else
            let* spreadsheet := lift (py_in "spreadsheet" mime_type) in
            if spreadsheet : bool then
              ret (Some (ExportMedia file_id "text/csv"))
            else ret None
        else ret (Some (GetMedia file_id))) in
     match request with
     | Some rq =>
         let* fh := next_chunks rq (files_media drive rq) (mkBytesIO [] 0) in
         ret (Some (seek fh 0))
     | None => ret None
     end)
    (fun e => if is_kind HttpError e then ret None else ret None).

(** [upload_file(self, file_path, file_name, mime_type, folder_id)]: the
    descriptor the API returns, or [None]. *)
Definition upload_file (drive : api) (file_path file_name mime_type : string)
  (folder_id : pyval) : M World.t pyval :=
  try_except
    (let file_metadata :=
       PDict (("name", PStr file_name) ::
              (if truthy folder_id then [("parents", PList [folder_id])]
               else [])) in
     let* readable := os.path_exists file_path in
     let* _ := (if readable : bool then ret tt
                else raise (Exn OSError "No such file or directory")) in
     let* _ := log (DriveFilesCreate file_metadata) in
     let* file := lift (files_create drive file_metadata) in
     let* _ := lift (py_get file "name" PNone) in
     ret file)
    (fun e => if is_kind HttpError e then ret PNone else ret PNone).

(** [items[0]] *)
Definition item0 (items : pyval) : result pyval :=
  match items with
  | PList (x :: _) => Ok x
  | PStr (String c _) => Ok (PStr (String c EmptyString))
  | PDict _ => Raise (Exn KeyError "0")
  | _ => Raise (Exn TypeError "object is not subscriptable")
  end.

(** [find_or_create_folder(self, folder_name) -> Optional[str]] *)
Definition find_or_create_folder (drive : api) (folder_name : string)
  : M World.t pyval :=
  try_except
    (let query :=
       "mimeType='application/vnd.google-apps.folder' and name='" +:+
       folder_name +:+ "' and trashed=false" in
     let* _ := log (DriveFilesList query) in
     let* results := lift (files_list drive query) in
     let* items := lift (py_get results "files" (PList [])) in
     if truthy items then
       let* found := lift (item0 items) in
       lift (py_getitem found "id")
     else
       let file_metadata :=
         PDict [("name", PStr folder_name);
                ("mimeType", PStr "application/vnd.google-apps.folder")] in
       let* _ := log (DriveFilesCreate file_metadata) in
       let* folder := lift (files_create drive file_metadata) in
       lift (py_get folder "id" PNone))
    (fun e => if is_kind HttpError e then ret PNone else ret PNone).

End google_drive.

(** ** backend/app/services/google_classroom.py *)
Module google_classroom.
Import Py World.

(** The Classroom API as the answers it gives. *)
Record api : Type := mkApi {
  courses_list : result pyval;
  courseWork_list : pyval -> result pyval;
  studentSubmissions_create : pyval -> pyval -> result pyval;
  studentSubmissions_modifyAttachments :
    pyval -> pyval -> pyval -> pyval -> result pyval;
  studentSubmissions_turnIn : pyval -> pyval -> pyval -> result pyval
}.

(** [get_courses(self, page_size=100)] *)
Definition get_courses (classroom : api) : M World.t pyval :=
  try_except
    (let* _ := log ClassroomCoursesList in
     let* results := lift (courses_list classroom) in
     lift (py_get results "courses" (PList [])))
    (fun e => if is_kind HttpError e then ret (PList []) else raise e).

(** [get_assignments(self, course_id, page_size=100)] *)
Definition get_assignments (classroom : api) (course_id : pyval)
  : M World.t pyval :=
  try_except
    (let* _ := log (ClassroomCourseWorkList course_id) in
     let* results := lift (courseWork_list classroom course_id) in
     lift (py_get results "courseWork" (PList [])))
    (fun e => if is_kind HttpError e then ret (PList []) else raise e).

(** [create_submission(self, course_id, coursework_id, file_data)]: the
    three calls of one turn-in. *)
Definition create_submission (classroom : api)
  (course_id coursework_id file_data : pyval) : M World.t pyval :=
  try_except
    (let* _ := log (SubmissionsCreate course_id coursework_id) in
     let* student_submission :=
       lift (studentSubmissions_create classroom course_id coursework_id) in
     let* submission_id := lift (py_get student_submission "id" PNone) in
     let attachment := PDict [("addAttachments", PList [file_data])] in
     let* _ := log (SubmissionsModifyAttachments
                      course_id coursework_id submission_id attachment) in
     let* updated_submission :=
       lift (studentSubmissions_modifyAttachments classroom
               course_id coursework_id submission_id attachment) in
     let* _ := log (SubmissionsTurnIn course_id coursework_id submission_id) in
     let* final_submission :=
       lift (studentSubmissions_turnIn classroom
               course_id coursework_id submission_id) in
     ret final_submission)
    (fun e => if is_kind HttpError e then ret (PDict []) else raise e).

(** The single-record endpoints, which only read. Each wrapper makes one
    call and has no other effect, so it is given as the value it
    returns. *)
Record lookups : Type := mkLookups {
  courses_get : pyval -> result pyval;
  courseWork_get : pyval -> pyval -> result pyval;
  announcements_list : pyval -> result pyval
}.

(** [try: r  except HttpError: return fallback] *)
Definition except_http (r : result pyval) (fallback : pyval) : result pyval :=
  match r with
  | Ok v => Ok v
  | Raise e => if is_kind HttpError e then Ok fallback else Raise e
  end.

(** [get_course(self, course_id)] *)
Definition get_course (classroom : lookups) (course_id : pyval)
  : result pyval :=
  except_http (courses_get classroom course_id) (PDict []).

(** [get_assignment(self, course_id, assignment_id)] *)
Definition get_assignment (classroom : lookups)
  (course_id assignment_id : pyval) : result pyval :=
  except_http (courseWork_get classroom course_id assignment_id) (PDict []).

(** [get_materials(self, course_id, assignment_id)], under
    [except Exception]. *)
Definition get_materials (classroom : lookups)
  (course_id assignment_id : pyval) : result pyval :=
  match (let? assignment := get_assignment classroom course_id assignment_id in
         py_get assignment "materials" (PList [])) with
  | Ok materials => Ok materials
  | Raise _ => Ok (PList [])
  end.

(** [get_announcements(self, course_id, page_size=100)] *)
Definition get_announcements (classroom : lookups) (course_id : pyval)
  : result pyval :=
  except_http
    (let? results := announcements_list classroom course_id in
     py_get results "announcements" (PList []))
    (PList []).

End google_classroom.

(** ** backend/app/services/pdf_generator.py *)
Module pdf_generator.
Import Py World.

(** What reportlab does with a content and its metadata: building the
    flowables ([SimpleDocTemplate], the style sheet, every [Paragraph])
    and [doc.build(story)] each either pass or raise. *)
Record reportlab : Type := mk {
  flowables : string -> dict -> option exn;
  build : string -> dict -> option exn
}.

Definition run (outcome : option exn) : M World.t unit :=
  match outcome with
  | Some e => raise e
  | None => ret tt
  end.

(** [PDFGenerator.generate_pdf(content, metadata) -> str]. A null
    content raises at [content.split], with the file already on disk and
    before [doc.build]; the source reaches that line after the metadata
    paragraphs, so that with a null content an error of those paragraphs
    would be raised in its place, with the same effect on the disk. *)
Definition generate_pdf (disk : os.script) (rl : reportlab)
  (content : option string) (metadata : dict) : M World.t string :=
  let* pdf_path := os.NamedTemporaryFile disk in
  let* text :=
    match content with
    | Some text => ret text
    | None =>
        raise (Exn AttributeError "'NoneType' object has no attribute 'split'")
    end in
  let* _ := run (flowables rl text metadata) in
  let* _ :=
    try_except (run (build rl text metadata))
      (fun e =>
         let* present := os.path_exists pdf_path in
         let* _ := (if present : bool then os.remove disk pdf_path
                    else ret tt) in
         raise e) in
  ret pdf_path.

End pdf_generator.

(** ** backend/app/routes/classroom.py *)
Module classroom.
Import Py World.

(** A column compared with a bound value: [col == v] is [col IS NULL]
    when [v] is [None]. *)
Definition sql_eq (col v : option string) : bool := bool_decide (col = v).

(** One positional criterion of [filter(...)]. The source writes
    [Model.col == v if v else None]. A conditional expression binds more
    loosely than [==], so this reads [(Model.col == v) if v else None]:
    the comparison when [v] is truthy, the Python object [None] otherwise.
    [filter] coerces [None] to the SQL constant NULL, and a conjunction
    with NULL selects no row. *)
Definition criterion (c : option (option string)) (col : option string)
  : bool :=
  match c with
  | Some v => sql_eq col v
  | None => false
  end.

(** [d.get(key, default)] bound to a text column. *)
Definition get_text (d : pyval) (key : string) (default : option string)
  : result (option string) :=
  let? v := py_get d key (of_text default) in to_text v.

Definition truthy_text (t : option string) : bool := truthy (of_text t).

(** *** [get_courses] *)

(** The body of [for google_course in google_courses]. *)
Definition get_courses_body (current_user : UserModel.t)
  (google_course : pyval) : M World.t CourseModel.t :=
  let* google_id := lift (py_getitem google_course "id") in
  let* google_id := lift (to_text google_id) in
  let* w := get in
  let db_course :=
    first (fun c => sql_eq (CourseModel.google_course_id c) google_id &&
                    (CourseModel.user_id c =? UserModel.id current_user))
          (courses (db w)) in
  match db_course with
  | None =>
      let* name := lift (get_text google_course "name" (Some "Unnamed Course")) in
      let* section := lift (get_text google_course "section" None) in
      let* description := lift (get_text google_course "description" None) in
      let* room := lift (get_text google_course "room" None) in
      let db_course :=
        CourseModel.mk (next_id CourseModel.id (courses (db w)))
          google_id name section description room
          (UserModel.id current_user) in
      let* _ := with_courses (fun rows => add_row rows db_course) in
      ret db_course
  | Some old =>
      let* name := lift (get_text google_course "name" (CourseModel.name old)) in
      let* section :=
        lift (get_text google_course "section" (CourseModel.section old)) in
      let* description :=
        lift (get_text google_course "description"
                (CourseModel.description old)) in
      let* room := lift (get_text google_course "room" (CourseModel.room old)) in
      let db_course :=
        CourseModel.mk (CourseModel.id old) (CourseModel.google_course_id old)
          name section description room (CourseModel.user_id old) in
      let* _ := with_courses (commit_row CourseModel.id db_course) in
      ret db_course
  end.

(** [GET /courses] *)
Definition get_courses (classroom_service : google_classroom.api)
  (current_user : UserModel.t) : M World.t (list CourseModel.t) :=
  if negb (truthy_text (UserModel.google_access_token current_user)) then
    raise (HTTPException 403 "Google authentication required")
  else
    let* google_courses := google_classroom.get_courses classroom_service in
    let* google_courses := lift (py_iter google_courses) in
    for_each (get_courses_body current_user) google_courses.

(** *** [process_materials] *)

(** The local variables of one iteration, after classification. *)
Record classified : Type := mkClassified {
  material_type : string;
  url : pyval;
  content : option string;
  title : pyval;
  google_material_id : pyval
}.

Definition unknown : classified :=
  mkClassified "unknown" PNone None (PStr "Untitled Material") PNone.

Section materials.
(** [bytes.decode('utf-8')] *)
Variable utf_8 : list Byte.byte -> result string.
Variable drive_service : google_drive.api.

(** The [if "driveFile" in material: ... elif ...] chain. *)
Definition classify (material : pyval) : M World.t classified :=
  let* is_drive_file := lift (py_in "driveFile" material) in
  if is_drive_file : bool then
    let* shared := lift (py_getitem material "driveFile") in
    let* drive_file := lift (py_get shared "driveFile" (PDict [])) in
    let* title := lift (py_get drive_file "title" (PStr "Drive File")) in
    let* url := lift (py_get drive_file "alternateLink" PNone) in
    let* google_material_id := lift (py_get drive_file "id" PNone) in
    let* content :=
      (if truthy google_material_id then
         let* downloaded_content_stream :=
           google_drive.download_file drive_service google_material_id in
         match downloaded_content_stream with
         | Some fh =>
             match utf_8 (google_drive.read fh) with
             | Ok text => ret (Some text)
             | Raise _ => ret (Some "[Error decoding content]")
             end
         | None => ret (Some "[Content download failed]")
         end
       else ret None) in
    ret (mkClassified "drive_file" url content title google_material_id)
  else
    let* is_video := lift (py_in "youtubeVideo" material) in
    if is_video : bool then
      let* video := lift (py_getitem material "youtubeVideo") in
      let* title := lift (py_get video "title" (PStr "YouTube Video")) in
      let* url := lift (py_get video "alternateLink" PNone) in
      let* google_material_id := lift (py_get video "id" PNone) in
      ret (mkClassified "youtube" url None title google_material_id)
    else
      let* is_link := lift (py_in "link" material) in
      if is_link : bool then
        let* link := lift (py_getitem material "link") in
        let* title := lift (py_get link "title" (PStr "Link")) in
        let* url := lift (py_get link "url" PNone) in
        ret (mkClassified "link" url None title PNone)
      else
        let* is_form := lift (py_in "form" material) in
        if is_form : bool then
          let* form := lift (py_getitem material "form") in
          let* title := lift (py_get form "title" (PStr "Form")) in
          let* url := lift (py_get form "formUrl" PNone) in
          let* google_material_id := lift (py_get form "id" PNone) in
          ret (mkClassified "form" url None title google_material_id)
        else ret unknown.

(** [Model.col == v if v else None] *)
Definition conditional (v : pyval) : result (option (option string)) :=
  if truthy v then (let? t := to_text v in Ok (Some t)) else Ok None.

(** The query of "Check if material already exists". *)
Definition existing_material (assignment_id : Z)
  (by_id by_url : option (option string)) (rows : list MaterialModel.t)
  : option MaterialModel.t :=
  first (fun r => criterion by_id (MaterialModel.google_material_id r) &&
                  (MaterialModel.assignment_id r =? assignment_id) &&
                  criterion by_url (MaterialModel.url r)) rows.

(** [if content: db_material.content = content] *)
Definition updated_content (content stored : option string)
  : option string :=
  if truthy_text content then content else stored.

(** Create-or-update with the classified values. *)
Definition save_material (assignment_id : Z) (c : classified)
  : M World.t MaterialModel.t :=
  let* by_id := lift (conditional (google_material_id c)) in
  let* by_url := lift (conditional (url c)) in
  let* w := get in
  match existing_material assignment_id by_id by_url (materials (db w)) with
  | None =>
      let* google_id := lift (to_text (google_material_id c)) in
      let* title_text := lift (to_text (title c)) in
      let* url_text := lift (to_text (url c)) in
      let db_material :=
        MaterialModel.mk (next_id MaterialModel.id (materials (db w)))
          google_id title_text (Some (material_type c)) url_text
          (content c) None assignment_id in
      let* _ := with_materials (fun rows => add_row rows db_material) in
      ret db_material
  | Some old =>
      let* title_text := lift (to_text (title c)) in
      let* url_text := lift (to_text (url c)) in
      let db_material :=
        MaterialModel.mk (MaterialModel.id old)
          (MaterialModel.google_material_id old)
          title_text (Some (material_type c)) url_text
          (updated_content (content c) (MaterialModel.content old))
          (MaterialModel.processed_content old)
          (MaterialModel.assignment_id old) in
      let* _ := with_materials (commit_row MaterialModel.id db_material) in
      ret db_material
  end.

(** The body of [for material in google_materials]. *)
Definition process_materials_body (assignment_id : Z) (material : pyval)
  : M World.t MaterialModel.t :=
  let* c := classify material in
  save_material assignment_id c.

(** [process_materials(db, google_materials, assignment_id, ...)] *)
Definition process_materials (google_materials : pyval) (assignment_id : Z)
  : M World.t unit :=
  let* google_materials := lift (py_iter google_materials) in
  let* _ := for_each (process_materials_body assignment_id) google_materials in
  ret tt.

End materials.
(** *** [get_assignments] *)

(** "Parse due date if present": the two components are composed only
    when both keys are there; a [ValueError] of the constructor is
    swallowed, any other exception is not. *)
Definition parse_due_date (google_assignment : pyval)
  : result (option datetime) :=
  let? has_date := py_in "dueDate" google_assignment in
  let? has_both :=
    (if has_date : bool then py_in "dueTime" google_assignment
     else Ok false) in
  if has_both : bool then
    let? due_info := py_getitem google_assignment "dueDate" in
    let? time_info := py_getitem google_assignment "dueTime" in
    let composed :=
      let? y := py_get due_info "year" (PInt 1970) in
      let? m := py_get due_info "month" (PInt 1) in
      let? d := py_get due_info "day" (PInt 1) in
      let? h := py_get time_info "hours" (PInt 0) in
      let? mi := py_get time_info "minutes" (PInt 0) in
      mk_datetime y m d h mi in
    match composed with
    | Ok due_date => Ok (Some due_date)
    | Raise e => if is_kind ValueError e then Ok None else Raise e
    end
  else Ok None.

(** [if due_date: db_assignment.due_date = due_date] *)
Definition updated_due_date (due_date stored : option datetime)
  : option datetime :=
  match due_date with
  | Some d => Some d
  | None => stored
  end.

(** Create-or-update of one assignment, given the row the query found
    and the parsed due date. *)
Definition save_assignment (db_course : CourseModel.t)
  (current_user : UserModel.t) (google_assignment : pyval)
  (google_id : option string) (db_assignment : option AssignmentModel.t)
  (due_date : option datetime) : M World.t AssignmentModel.t :=
  match db_assignment with
  | None =>
      let* title :=
        lift (get_text google_assignment "title" (Some "Untitled Assignment")) in
      let* description :=
        lift (get_text google_assignment "description" (Some "")) in
      let* w := get in
      let db_assignment :=
        AssignmentModel.mk (next_id AssignmentModel.id (assignments (db w)))
          google_id title description due_date
          (CourseModel.id db_course) (UserModel.id current_user) in
      let* _ := with_assignments (fun rows => add_row rows db_assignment) in
      ret db_assignment
  | Some old =>
      let* title :=
        lift (get_text google_assignment "title" (AssignmentModel.title old)) in
      let* description :=
        lift (get_text google_assignment "description"
                (AssignmentModel.description old)) in
      let db_assignment :=
        AssignmentModel.mk (AssignmentModel.id old)
          (AssignmentModel.google_assignment_id old) title description
          (updated_due_date due_date (AssignmentModel.due_date old))
          (AssignmentModel.course_id old) (AssignmentModel.user_id old) in
      let* _ := with_assignments (commit_row AssignmentModel.id db_assignment) in
      ret db_assignment
  end.

Section assignments.
Variable utf_8 : list Byte.byte -> result string.
Variable drive_service : google_drive.api.

(** The query of "Check if assignment already exists". *)
Definition existing_assignment (db_course : CourseModel.t)
  (google_id : option string) (rows : list AssignmentModel.t)
  : option AssignmentModel.t :=
  first (fun a => sql_eq (AssignmentModel.google_assignment_id a) google_id &&
                  (AssignmentModel.course_id a =? CourseModel.id db_course))
        rows.

(** The body of [for google_assignment in google_assignments]. *)
Definition get_assignments_body (db_course : CourseModel.t)
  (current_user : UserModel.t) (google_assignment : pyval)
  : M World.t AssignmentModel.t :=
  let* google_id := lift (py_getitem google_assignment "id") in
  let* google_id := lift (to_text google_id) in
  let* w := get in
  let db_assignment :=
    existing_assignment db_course google_id (assignments (db w)) in
  let* due_date := lift (parse_due_date google_assignment) in
  let* db_assignment :=
    save_assignment db_course current_user google_assignment google_id
      db_assignment due_date in
  let* has_materials := lift (py_in "materials" google_assignment) in
  let* _ :=
    (if has_materials : bool then
       let* google_materials :=
         lift (py_getitem google_assignment "materials") in
       process_materials utf_8 drive_service google_materials
         (AssignmentModel.id db_assignment)
     else ret tt) in
  ret db_assignment.

(** [GET /courses/{course_id}/assignments] *)
Definition get_assignments (classroom_service : google_classroom.api)
  (course_id : Z) (current_user : UserModel.t)
  : M World.t (list AssignmentModel.t) :=
  if negb (truthy_text (UserModel.google_access_token current_user)) then
    raise (HTTPException 403 "Google authentication required")
  else
    let* w := get in
    match first (fun c => (CourseModel.id c =? course_id) &&
                          (CourseModel.user_id c =? UserModel.id current_user))
                (courses (db w)) with
    | None => raise (HTTPException 404 "Course not found")
    | Some db_course =>
        let* google_assignments :=
          google_classroom.get_assignments classroom_service
            (of_text (CourseModel.google_course_id db_course)) in
        let* google_assignments := lift (py_iter google_assignments) in
        for_each (get_assignments_body db_course current_user)
          google_assignments
    end.

End assignments.
(** *** The read routes *)

(** [GET /courses/{course_id}] *)
Definition get_course (course_id : Z) (current_user : UserModel.t)
  : M World.t CourseModel.t :=
  let* w := get in
  match first (fun c => (CourseModel.id c =? course_id) &&
                        (CourseModel.user_id c =? UserModel.id current_user))
              (courses (db w)) with
  | None => raise (HTTPException 404 "Course not found")
  | Some db_course => ret db_course
  end.

(** [GET /assignments/{assignment_id}] *)
Definition get_assignment (assignment_id : Z) (current_user : UserModel.t)
  : M World.t AssignmentModel.t :=
  let* w := get in
  match first (fun a => (AssignmentModel.id a =? assignment_id) &&
                        (AssignmentModel.user_id a =? UserModel.id current_user))
              (assignments (db w)) with
  | None => raise (HTTPException 404 "Assignment not found")
  | Some db_assignment => ret db_assignment
  end.

(** [GET /assignments/{assignment_id}/materials] *)
Definition get_materials (assignment_id : Z) (current_user : UserModel.t)
  : M World.t (list MaterialModel.t) :=
  let* w := get in
  match first (fun a => (AssignmentModel.id a =? assignment_id) &&
                        (AssignmentModel.user_id a =? UserModel.id current_user))
              (assignments (db w)) with
  | None => raise (HTTPException 404 "Assignment not found")
  | Some db_assignment =>
      ret (List.filter
             (fun m => MaterialModel.assignment_id m =?
                       AssignmentModel.id db_assignment)
             (materials (db w)))
  end.

End classroom.

(** ** backend/app/routes/assignments.py *)
Module assignments.
Import Py World.

(** The wall clock: [datetime.utcnow()] and
    [datetime.now().strftime("%B %d, %Y")]. *)
Record clock : Type := mkClock {
  utcnow : datetime;
  today : string
}.

(** [title.replace(' ', '_')] *)
Fixpoint replace_spaces (s : string) : string :=
  match s with
  | EmptyString => EmptyString
  | String c s' =>
      String (if Ascii.eqb c " "%char then "_"%char else c) (replace_spaces s')
  end.

(** The body returned on success. *)
Record submitted : Type := mkSubmitted {
  message : string;
  submission_date : option datetime;
  classroom_submission_id : pyval;
  drive_file_id : pyval
}.

(** [c] followed by the [finally] block [f], whatever [c] did; an
    exception of [f] replaces the outcome of [c]. *)
Definition finally {A} (c : M World.t A) (f : M World.t unit)
  : M World.t A :=
  fun w =>
    let '(r, w1) := c w in
    match f w1 with
    | (Ok _, w2) => (r, w2)
    | (Raise e, w2) => (Raise e, w2)
    end.

(** A [try] whose first statement binds the local [pdf_path] that the
    [finally] block reads: [None] as long as [render] has not returned. *)
Definition try_with_path {A} (render : M World.t string)
  (rest : string -> M World.t A) (handler : exn -> M World.t A)
  (cleanup : option string -> M World.t unit) : M World.t A :=
  fun w =>
    match render w with
    | (Ok pdf_path, w1) =>
        finally (try_except (rest pdf_path) handler) (cleanup (Some pdf_path)) w1
    | (Raise e, w1) => finally (handler e) (cleanup None) w1
    end.

(** [not x or 'id' not in x] *)
Definition lacks_id (x : pyval) : result bool :=
  if negb (truthy x) then Ok true
  else let? present := py_in "id" x in Ok (negb present).

Section submit.
Variable disk : os.script.
Variable rl : pdf_generator.reportlab.
Variable now : clock.
Variable drive_service : google_drive.api.
Variable classroom_service : google_classroom.api.

(** Step 9, the [finally] block. *)
Definition cleanup (pdf_path : option string) : M World.t unit :=
  match pdf_path with
  | Some path =>
      if truthy (PStr path) then
        let* present := os.path_exists path in
        if present : bool then
          try_except (os.remove disk path)
            (fun e => if is_kind OSError e then ret tt else raise e)
        else ret tt
      else ret tt
  | None => ret tt
  end.

(** Steps 2 to 8, once the PDF is rendered. *)
Definition upload_and_submit (draft : DraftModel.t)
  (assignment : AssignmentModel.t) (course : CourseModel.t)
  (pdf_path : string) : M World.t submitted :=
  let* assignment_title :=
    match AssignmentModel.title assignment with
    | Some t => ret t
    | None =>
        raise (Exn AttributeError
                 "'NoneType' object has no attribute 'replace'")
    end in
  let pdf_filename := replace_spaces assignment_title +:+ "_submission.pdf" in
  let submission_folder_name := "OpenCoder Submissions" in
  let* folder_id :=
    google_drive.find_or_create_folder drive_service submission_folder_name in
  let* uploaded_file :=
    google_drive.upload_file drive_service pdf_path pdf_filename
      "application/pdf" folder_id in
  let* no_file := lift (lacks_id uploaded_file) in
  if no_file : bool then
    raise (HTTPException 500 "Failed to upload PDF to Google Drive")
  else
    let* drive_file_id := lift (py_getitem uploaded_file "id") in
    let attachment_data := PDict [("driveFile", PDict [("id", drive_file_id)])] in
    let* submission_result :=
      google_classroom.create_submission classroom_service
        (of_text (CourseModel.google_course_id course))
        (of_text (AssignmentModel.google_assignment_id assignment))
        attachment_data in
    let* no_submission := lift (lacks_id submission_result) in
    if no_submission : bool then
      raise (HTTPException 500
               "Failed to submit assignment to Google Classroom")
    else
      let* submission_id := lift (py_getitem submission_result "id") in
      let draft :=
        DraftModel.mk (DraftModel.id draft) (DraftModel.content draft)
          (Some "submitted") (DraftModel.feedback draft)
          (Some (utcnow now)) (DraftModel.user_id draft)
          (DraftModel.assignment_id draft) in
      let* _ := with_drafts (commit_row DraftModel.id draft) in
      ret (mkSubmitted "Draft submitted successfully to Google Classroom"
             (DraftModel.submission_date draft) submission_id drive_file_id).

(** The [pdf_metadata] dict of step 1. *)
Definition pdf_metadata (assignment : AssignmentModel.t)
  (current_user : UserModel.t) (course : CourseModel.t) : dict :=
  [("title", of_text (AssignmentModel.title assignment));
   ("author", of_text (UserModel.full_name current_user));
   ("course", of_text (CourseModel.name course));
   ("date", PStr (today now))].

(** The [try: ... except Exception as e: ... finally: ...] statement. *)
Definition submission (draft : DraftModel.t) (assignment : AssignmentModel.t)
  (course : CourseModel.t) (current_user : UserModel.t)
  : M World.t submitted :=
  try_with_path
    (pdf_generator.generate_pdf disk rl (DraftModel.content draft)
       (pdf_metadata assignment current_user course))
    (upload_and_submit draft assignment course)
    (fun e =>
       raise (HTTPException 500
                ("An error occurred during submission: " +:+ str_exn e)))
    cleanup.

(** [POST /drafts/{draft_id}/submit] *)
Definition submit_draft_to_classroom (draft_id : Z)
  (current_user : UserModel.t) : M World.t submitted :=
  let* w := get in
  match first (fun d => (DraftModel.id d =? draft_id) &&
                        (DraftModel.user_id d =? UserModel.id current_user))
              (drafts (db w)) with
  | None => raise (HTTPException 404 "Draft not found")
  | Some draft =>
      if bool_decide (DraftModel.status draft = Some "submitted") then
        raise (HTTPException 400 "Draft already submitted")
      else
        match first (fun a => AssignmentModel.id a =? DraftModel.assignment_id draft)
                    (assignments (db w)) with
        | None => raise (HTTPException 404 "Associated assignment not found")
        | Some assignment =>
            match first (fun c => CourseModel.id c =?
                                  AssignmentModel.course_id assignment)
                        (courses (db w)) with
            | None => raise (HTTPException 404 "Associated course not found")
            | Some course =>
                if negb (classroom.truthy_text
                           (UserModel.google_access_token current_user)) then
                  raise (HTTPException 403
                           "Google authentication required for submission")
                else submission draft assignment course current_user
            end
        end
  end.

End submit.

(** [generate_draft_content(db, draft_id, assignment_context, parameters)],
    the background task. [generation] is what awaiting
    [AIGenerationService.generate_assignment_solution] gives: a result
    dict, or the exception it raises. *)
Definition generate_draft_content (generation : result pyval) (draft_id : Z)
  : M World.t unit :=
  try_except
    (let* generation_result := lift generation in
     let* w := get in
     match first (fun d => DraftModel.id d =? draft_id) (drafts (db w)) with
     | Some draft =>
         let* content := lift (py_getitem generation_result "content") in
         let* content := lift (to_text content) in
         with_drafts (commit_row DraftModel.id
           (DraftModel.mk (DraftModel.id draft) content (Some "draft")
              (DraftModel.feedback draft) (DraftModel.submission_date draft)
              (DraftModel.user_id draft) (DraftModel.assignment_id draft)))
     | None => ret tt
     end)
    (fun e =>
       let* w := get in
       match first (fun d => DraftModel.id d =? draft_id) (drafts (db w)) with
       | Some draft =>
           with_drafts (commit_row DraftModel.id
             (DraftModel.mk (DraftModel.id draft)
                (Some ("Error generating content: " +:+ str_exn e))
                (Some "error")
                (DraftModel.feedback draft) (DraftModel.submission_date draft)
                (DraftModel.user_id draft) (DraftModel.assignment_id draft)))
       | None => ret tt
       end).

(** *** The draft routes *)

(** [POST /drafts] *)
Definition create_draft (draft_in : DraftCreate.t) (current_user : UserModel.t)
  : M World.t DraftModel.t :=
  let* w := get in
  match first (fun a => (AssignmentModel.id a =?
                         DraftCreate.assignment_id draft_in) &&
                        (AssignmentModel.user_id a =? UserModel.id current_user))
              (assignments (db w)) with
  | None => raise (HTTPException 404 "Assignment not found")
  | Some assignment =>
      let db_draft :=
        DraftModel.mk (next_id DraftModel.id (drafts (db w)))
          (Some (DraftCreate.content draft_in))
          (Some (DraftCreate.status draft_in))
          (DraftCreate.feedback draft_in) None
          (UserModel.id current_user) (DraftCreate.assignment_id draft_in) in
      let* _ := with_drafts (fun rows => add_row rows db_draft) in
      ret db_draft
  end.

(** [GET /assignments/{assignment_id}/drafts] *)
Definition get_drafts (assignment_id : Z) (current_user : UserModel.t)
  : M World.t (list DraftModel.t) :=
  let* w := get in
  match first (fun a => (AssignmentModel.id a =? assignment_id) &&
                        (AssignmentModel.user_id a =? UserModel.id current_user))
              (assignments (db w)) with
  | None => raise (HTTPException 404 "Assignment not found")
  | Some assignment =>
      ret (List.filter
             (fun d => (DraftModel.assignment_id d =? assignment_id) &&
                       (DraftModel.user_id d =? UserModel.id current_user))
             (drafts (db w)))
  end.

(** [GET /drafts/{draft_id}] *)
Definition get_draft (draft_id : Z) (current_user : UserModel.t)
  : M World.t DraftModel.t :=
  let* w := get in
  match first (fun d => (DraftModel.id d =? draft_id) &&
                        (DraftModel.user_id d =? UserModel.id current_user))
              (drafts (db w)) with
  | None => raise (HTTPException 404 "Draft not found")
  | Some draft => ret draft
  end.

(** [PUT /drafts/{draft_id}] *)
Definition update_draft (draft_id : Z) (draft_in : DraftUpdate.t)
  (current_user : UserModel.t) : M World.t DraftModel.t :=
  let* w := get in
  match first (fun d => (DraftModel.id d =? draft_id) &&
                        (DraftModel.user_id d =? UserModel.id current_user))
              (drafts (db w)) with
  | None => raise (HTTPException 404 "Draft not found")
  | Some draft =>
      let draft :=
        DraftModel.mk (DraftModel.id draft)
          (Some (DraftUpdate.content draft_in))
          (Some (DraftUpdate.status draft_in))
          (DraftUpdate.feedback draft_in)
          (match DraftUpdate.submission_date draft_in with
           | Some d => Some d
           | None => DraftModel.submission_date draft
           end)
          (DraftModel.user_id draft) (DraftModel.assignment_id draft) in
      let* _ := with_drafts (commit_row DraftModel.id draft) in
      ret draft
  end.

(** What [FileResponse(path=, filename=, media_type=)] is built from. *)
Record FileResponse : Type := mkFileResponse {
  path : string;
  filename : string;
  media_type : string
}.

Section export.
Variable disk : os.script.
Variable rl : pdf_generator.reportlab.
Variable now : clock.

(** [POST /drafts/{draft_id}/export-pdf] *)
Definition export_draft_to_pdf (draft_id : Z) (current_user : UserModel.t)
  : M World.t FileResponse :=
  let* w := get in
  match first (fun d => (DraftModel.id d =? draft_id) &&
                        (DraftModel.user_id d =? UserModel.id current_user))
              (drafts (db w)) with
  | None => raise (HTTPException 404 "Draft not found")
  | Some draft =>
      match first (fun a => AssignmentModel.id a =? DraftModel.assignment_id draft)
                  (assignments (db w)) with
      | None => raise (HTTPException 404 "Assignment not found")
      | Some assignment =>
          let pdf_metadata :=
            [("title", of_text (AssignmentModel.title assignment));
             ("author", of_text (UserModel.full_name current_user));
             ("date", PStr (today now))] in
          let* pdf_path :=
            pdf_generator.generate_pdf disk rl (DraftModel.content draft)
              pdf_metadata in
          let* assignment_title :=
            match AssignmentModel.title assignment with
            | Some t => ret t
            | None =>
                raise (Exn AttributeError
                         "'NoneType' object has no attribute 'replace'")
            end in
          ret (mkFileResponse pdf_path
                 (replace_spaces assignment_title +:+ ".pdf")
                 "application/pdf")
      end
  end.

End export.

End assignments.

(** ** Vocabulary of the properties *)
Module Vocabulary.
Import Py World.

(** What a whole transfer delivers: the chunks put end to end, or the
    transport error that interrupts it. *)
Fixpoint transfer_data (tr : google_drive.transfer)
  : result (list Byte.byte) :=
  match tr with
  | google_drive.Done data => Ok data
  | google_drive.More data rest =>
      let? more := transfer_data rest in Ok (data ++ more)
  | google_drive.Fails e => Raise e
  end.

(** The [next_chunk] calls a transfer takes. *)
Fixpoint transfer_calls (rq : request) (tr : google_drive.transfer)
  : list call :=
  DriveNextChunk rq ::
  match tr with
  | google_drive.More _ rest => transfer_calls rq rest
  | _ => []
  end.

(** The stream handed back for a request: the whole content, positioned
    at its start, or nothing if the transfer fails. *)
Definition fetched (drive : google_drive.api) (rq : request)
  : option google_drive.BytesIO :=
  match transfer_data (google_drive.files_media drive rq) with
  | Ok data => Some (google_drive.mkBytesIO data 0)
  | Raise _ => None
  end.

(** The request the media type selects, [None] where the client gives
    up before any download. *)
Definition chosen_request (file_id mime_type : pyval)
  : result (option request) :=
  let? native := py_in "google-apps" mime_type in
  if native : bool then
    let? document := py_in "document" mime_type in
    if document : bool then Ok (Some (ExportMedia file_id "text/plain"))
    else
      let? spreadsheet := py_in "spreadsheet" mime_type in
      if spreadsheet : bool then Ok (Some (ExportMedia file_id "text/csv"))
      else Ok None
  else Ok (Some (GetMedia file_id)).

(** The due date five integer components stand for, if any. *)
Definition composed_date (y m d h mi : Z) : option datetime :=
  if valid_datetime y m d h mi then Some (Datetime y m d h mi) else None.

(** All five components fit a C int. *)
Definition fit_c_int (y m d h mi : Z) : bool :=
  c_int y && c_int m && c_int d && c_int h && c_int mi.

(** How a run ended, apart from what it returned. *)
Definition outcome {A} (r : result A) : option exn :=
  match r with Ok _ => None | Raise e => Some e end.

(** A text taken from the remote record, or the value kept where the
    record has none. *)
Definition or_kept (remote kept : option string) : option string :=
  match remote with Some s => Some s | None => kept end.

(** The row an assignment sync writes for a record without a parsed due
    date, given the text id, the title and the description of the record
    ([None] where the record has none) and the row the lookup found: a new
    row without a due date, or the stored row with its due date kept. *)
Definition synced_without_due (db_course : CourseModel.t)
  (current_user : UserModel.t) (google_id otitle odescription : option string)
  (stored : option AssignmentModel.t) (rows : list AssignmentModel.t)
  : AssignmentModel.t :=
  match stored with
  | None =>
      AssignmentModel.mk (next_id AssignmentModel.id rows) google_id
        (or_kept otitle (Some "Untitled Assignment"))
        (or_kept odescription (Some "")) None
        (CourseModel.id db_course) (UserModel.id current_user)
  | Some old =>
      AssignmentModel.mk (AssignmentModel.id old)
        (AssignmentModel.google_assignment_id old)
        (or_kept otitle (AssignmentModel.title old))
        (or_kept odescription (AssignmentModel.description old))
        (AssignmentModel.due_date old)
        (AssignmentModel.course_id old) (AssignmentModel.user_id old)
  end.

(** The assignments table after the commit of a row: appended when the
    lookup found nothing, written over the stored row otherwise. *)
Definition saved_rows (stored : option AssignmentModel.t)
  (row : AssignmentModel.t) (rows : list AssignmentModel.t)
  : list AssignmentModel.t :=
  match stored with
  | None => rows ++ [row]
  | Some _ => commit_row AssignmentModel.id row rows
  end.

Definition with_assignment_rows (rows : list AssignmentModel.t) (w : World.t)
  : World.t :=
  World.mk (mkDb (courses (db w)) rows (materials (db w)) (drafts (db w)))
           (fs w) (calls w).

(** A dict with one key taken out. *)
Definition without_key (k : string) (d : dict) : dict :=
  List.filter (fun kv => negb (String.eqb k (fst kv))) d.

(** A coursework record stripped of its due date. *)
Definition without_due (ga : dict) : dict :=
  without_key "dueTime" (without_key "dueDate" ga).

(** The three calls of one turn-in. *)
Definition is_submission_call (c : call) : bool :=
  match c with
  | SubmissionsCreate _ _ => true
  | SubmissionsModifyAttachments _ _ _ _ => true
  | SubmissionsTurnIn _ _ _ => true
  | _ => false
  end.

(** A computation that leaves the store and the disk alone and makes
    remote calls of one sort only. *)
Definition only_calls {A} (P : call -> Prop) (c : M World.t A) : Prop :=
  forall w,
    db (snd (c w)) = db w /\
    fs (snd (c w)) = fs w /\
    exists made, calls (snd (c w)) = calls w ++ made /\ Forall P made.

(** A computation that leaves one view of the store as it was. *)
Definition keeps {A B} (view : Db -> B) (c : M World.t A) : Prop :=
  forall w, view (db (snd (c w))) = view (db w).

(** A computation that touches the disk at most. *)
Definition disk_only {A} (c : M World.t A) : Prop :=
  forall w, db (snd (c w)) = db w /\ calls (snd (c w)) = calls w.

Definition not_submission (c : call) : Prop := is_submission_call c = false.

(** The draft as step 8 of the submission writes it. *)
Definition marked (now : assignments.clock) (draft : DraftModel.t)
  : DraftModel.t :=
  DraftModel.mk (DraftModel.id draft) (DraftModel.content draft)
    (Some "submitted") (DraftModel.feedback draft)
    (Some (assignments.utcnow now))
    (DraftModel.user_id draft) (DraftModel.assignment_id draft).

Definition with_marked (now : assignments.clock) (draft : DraftModel.t)
  (d : Db) : Db :=
  mkDb (courses d) (assignments d) (materials d)
       (commit_row DraftModel.id (marked now draft) (drafts d)).

(** The natural key of a stored course and the key a remote course record
    is looked up by. *)
Definition course_key (c : CourseModel.t) : option string * Z :=
  (CourseModel.google_course_id c, CourseModel.user_id c).

Definition remote_course_key (current_user : UserModel.t) (google_course : pyval)
  : option (option string * Z) :=
  match (let? v := py_getitem google_course "id" in to_text v) with
  | Ok google_id => Some (google_id, UserModel.id current_user)
  | Raise _ => None
  end.

(** The natural key of a stored assignment and the key a remote coursework
    record is looked up by. *)
Definition assignment_key (a : AssignmentModel.t) : option string * Z :=
  (AssignmentModel.google_assignment_id a, AssignmentModel.course_id a).

Definition remote_assignment_key (db_course : CourseModel.t)
  (google_assignment : pyval) : option (option string * Z) :=
  match (let? v := py_getitem google_assignment "id" in to_text v) with
  | Ok google_id => Some (google_id, CourseModel.id db_course)
  | Raise _ => None
  end.

(** What [GoogleClassroomService.get_courses] returns: the listed courses,
    nothing on an [HttpError]. *)
Definition fetched_courses (classroom : google_classroom.api) : result pyval :=
  match (let? results := google_classroom.courses_list classroom in
         py_get results "courses" (PList [])) with
  | Ok courses => Ok courses
  | Raise e => if is_kind HttpError e then Ok (PList []) else Raise e
  end.

(** What [GoogleClassroomService.get_assignments] returns for a course. *)
Definition fetched_coursework (classroom : google_classroom.api)
  (course_id : pyval) : result pyval :=
  match (let? results := google_classroom.courseWork_list classroom course_id in
         py_get results "courseWork" (PList [])) with
  | Ok coursework => Ok coursework
  | Raise e => if is_kind HttpError e then Ok (PList []) else Raise e
  end.

(** What identifies a stored course, and a stored assignment, for good:
    the primary key, the remote id and the owner (the user of a course,
    the course of an assignment). *)
Definition course_identity (c : CourseModel.t) : Z * option string * Z :=
  (CourseModel.id c, CourseModel.google_course_id c, CourseModel.user_id c).

Definition assignment_identity (a : AssignmentModel.t)
  : Z * option string * Z :=
  (AssignmentModel.id a, AssignmentModel.google_assignment_id a,
   AssignmentModel.course_id a).

(** The stored courses of everybody but one user, and the stored
    assignments of every course but one. *)
Definition courses_of_others (user_id : Z) (rows : list CourseModel.t)
  : list CourseModel.t :=
  List.filter (fun c => negb (CourseModel.user_id c =? user_id)) rows.

Definition assignments_elsewhere (course_id : Z)
  (rows : list AssignmentModel.t) : list AssignmentModel.t :=
  List.filter (fun a => negb (AssignmentModel.course_id a =? course_id)) rows.

(** A world after some more remote calls and nothing else. *)
Definition logged (w : World.t) (made : list call) : World.t :=
  World.mk (db w) (fs w) (calls w ++ made).

(** The calls that only read from Drive or Classroom. *)
Definition is_read_call (c : call) : bool :=
  match c with
  | DriveFilesGet _ | DriveNextChunk _ | DriveFilesList _
  | ClassroomCoursesList | ClassroomCourseWorkList _ => true
  | _ => false
  end.

Definition read_call (c : call) : Prop := is_read_call c = true.

(** A computation that leaves the disk alone and makes remote calls of
    one sort only; what it does to the store is left open. *)
Definition reaches {A} (P : call -> Prop) (c : M World.t A) : Prop :=
  forall w,
    fs (snd (c w)) = fs w /\
    exists made, calls (snd (c w)) = calls w ++ made /\ Forall P made.

(** No stored row with primary key [k] belongs to user [uid]. *)
Definition not_owned {A} (pk owner : A -> Z) (k uid : Z) (rows : list A)
  : Prop :=
  forall r, r ∈ rows -> pk r = k -> owner r <> uid.

(** A stored draft with its content and status rewritten, and the store
    after the commit of a draft. *)
Definition draft_with (content : option string) (status : string)
  (draft : DraftModel.t) : DraftModel.t :=
  DraftModel.mk (DraftModel.id draft) content (Some status)
    (DraftModel.feedback draft) (DraftModel.submission_date draft)
    (DraftModel.user_id draft) (DraftModel.assignment_id draft).

Definition commit_draft (row : DraftModel.t) (w : World.t) : World.t :=
  World.mk (mkDb (courses (db w)) (assignments (db w)) (materials (db w))
                 (commit_row DraftModel.id row (drafts (db w))))
           (fs w) (calls w).

(** The store after a commit to the materials table. *)
Definition with_material_rows (rows : list MaterialModel.t) (w : World.t)
  : World.t :=
  World.mk (mkDb (courses (db w)) (assignments (db w)) rows (drafts (db w)))
           (fs w) (calls w).

(** A generation whose content, when it has one, can be bound to the
    text column of a draft. *)
Definition text_content (generation : result pyval) : Prop :=
  forall generation_result v,
    generation = Ok generation_result ->
    py_getitem generation_result "content" = Ok v ->
    exists t, to_text v = Ok t.

End Vocabulary.

(** ** Concrete worlds and scripts on which the properties are exercised *)
Module Examples.
Import Py World.

Definition empty_world : World.t := World.mk (mkDb [] [] [] []) ∅ [].

Definition unavailable {A} : result A := Raise (Exn HttpError "unavailable").

(** A Drive holding one native document, delivered in two chunks. *)
Definition notes_drive : google_drive.api :=
  google_drive.mkApi
    (fun _ => Ok (PDict [("mimeType", PStr "application/vnd.google-apps.document");
                         ("name", PStr "Notes")]))
    (fun _ => google_drive.More [Byte.x68] (google_drive.Done [Byte.x69]))
    (fun _ => unavailable)
    (fun _ => unavailable).

(** A decoder that accepts the 7-bit characters only. *)
Definition seven_bit (data : list Byte.byte) : result string :=
  if forallb (fun b => Nat.ltb (Byte.to_nat b) 128) data
  then Ok (string_of_list_byte data)
  else Raise (Exn UnicodeDecodeError "invalid start byte").

(** A stored video material and the same video fetched again under a new
    title. *)
Definition stored_video : MaterialModel.t :=
  MaterialModel.mk 1 (Some "v1") (Some "Old title") (Some "youtube")
    (Some "https://video.example/1") (Some "stored text") None 7.

Definition video_world : World.t :=
  World.mk (mkDb [] [] [stored_video] []) ∅ [].

Definition video_again : classroom.classified :=
  classroom.mkClassified "youtube" (PStr "https://video.example/1") None
    (PStr "New title") (PStr "v1").

(** Coursework carrying a date without a time, and coursework whose date
    and time are both present but sparse. *)
Definition date_only : dict :=
  [("id", PStr "cw1");
   ("dueDate", PDict [("year", PInt 2024); ("month", PInt 5); ("day", PInt 17)])].

Definition sparse_pair : dict :=
  [("id", PStr "cw2");
   ("dueDate", PDict [("month", PInt 5)]);
   ("dueTime", PDict [("hours", PInt 9)])].

(** Coursework due on a February 30, with the course and user it is synced
    for. *)
Definition february_30 : dict :=
  [("id", PStr "cw3"); ("title", PStr "Essay");
   ("dueDate", PDict [("year", PInt 2024); ("month", PInt 2); ("day", PInt 30)]);
   ("dueTime", PDict [("hours", PInt 23); ("minutes", PInt 59)])].

(** The stored essay listed again, now due on a February 30; and
    coursework whose year does not fit a C int. *)
Definition february_30_again : dict :=
  [("id", PStr "cw1"); ("title", PStr "Essay, second version");
   ("dueDate", PDict [("year", PInt 2024); ("month", PInt 2); ("day", PInt 30)]);
   ("dueTime", PDict [("hours", PInt 23); ("minutes", PInt 59)])].

Definition year_overflow : dict :=
  [("id", PStr "cw4"); ("title", PStr "Far future");
   ("dueDate", PDict [("year", PInt 2147483648); ("month", PInt 1);
                      ("day", PInt 1)]);
   ("dueTime", PDict [("hours", PInt 0)])].

Definition algebra : CourseModel.t :=
  CourseModel.mk 1 (Some "c1") (Some "Algebra") None None None 1.

Definition student : UserModel.t :=
  UserModel.mk 1 (Some "ada@example.org") (Some "Ada") (Some "token") None None.

(** The essay as stored by an earlier sync, due on 17 May 2024 at 09:00. *)
Definition stored_essay : AssignmentModel.t :=
  AssignmentModel.mk 1 (Some "cw1") (Some "Essay") (Some "")
    (Some (Datetime 2024 5 17 9 0)) 1 1.

Definition essay_world : World.t :=
  World.mk (mkDb [algebra] [stored_essay] [] []) ∅ [].

(** A draft whose generation is under way. *)
Definition generating_draft : DraftModel.t :=
  DraftModel.mk 4 (Some "Generating content...") (Some "generating") None None
    1 1.

Definition generating_world : World.t :=
  World.mk (mkDb [algebra] [stored_essay] [] [generating_draft]) ∅ [].

(** A draft ready to be submitted, and services that all answer. *)
Definition essay_draft : DraftModel.t :=
  DraftModel.mk 5 (Some "My essay") (Some "draft") None None 1 1.

Definition essay_ready : World.t :=
  World.mk (mkDb [algebra] [stored_essay] [] [essay_draft]) ∅ [].

Definition reportlab_fine : pdf_generator.reportlab :=
  pdf_generator.mk (fun _ _ => None) (fun _ _ => None).

Definition noon : assignments.clock :=
  assignments.mkClock (Datetime 2024 5 16 12 0) "May 16, 2024".

Definition willing_drive : google_drive.api :=
  google_drive.mkApi
    (fun _ => unavailable)
    (fun _ => google_drive.Fails (Exn HttpError "unavailable"))
    (fun _ => Ok (PDict [("files", PList [PDict [("id", PStr "folder-1")]])]))
    (fun _ => Ok (PDict [("id", PStr "file-1");
                         ("name", PStr "Essay_submission.pdf")])).

Definition willing_classroom : google_classroom.api :=
  google_classroom.mkApi unavailable (fun _ => unavailable)
    (fun _ _ => Ok (PDict [("id", PStr "sub-1")]))
    (fun _ _ _ _ => Ok (PDict [("id", PStr "sub-1")]))
    (fun _ _ _ => Ok (PDict [("id", PStr "sub-1")])).

(** A Classroom that accepts the creation and the attachment and refuses
    the turn-in. *)
Definition late_classroom : google_classroom.api :=
  google_classroom.mkApi unavailable (fun _ => unavailable)
    (fun _ _ => Ok (PDict [("id", PStr "sub-1")]))
    (fun _ _ _ _ => Ok (PDict [("id", PStr "sub-1")]))
    (fun _ _ _ => unavailable).

(** A Drive on which every upload is refused. *)
Definition refusing_drive : google_drive.api :=
  google_drive.mkApi
    (fun _ => unavailable)
    (fun _ => google_drive.Fails (Exn HttpError "unavailable"))
    (fun _ => Ok (PDict [("files", PList [PDict [("id", PStr "folder-1")]])]))
    (fun _ => unavailable).

Definition temp_pdf : string := "/tmp/tmpq7k2.pdf".

(** A disk that removes what it is asked to, and one on which removal is
    denied. *)
Definition plain_disk : os.script := os.mk (Ok temp_pdf) (fun _ => None).

Definition stubborn_disk : os.script :=
  os.mk (Ok temp_pdf) (fun _ => Some "Permission denied").

(** The materials of one coursework: a single link. *)
Definition reading_url : string := "https://example.org/reading".

Definition reading_list : pyval :=
  PList [PDict [("link", PDict [("url", PStr reading_url);
                                ("title", PStr "Reading")])]].

(** A Classroom that lists two courses, and one piece of coursework with a
    video attached for each course asked about. *)
Definition two_courses : google_classroom.api :=
  google_classroom.mkApi
    (Ok (PDict [("courses",
                 PList [PDict [("id", PStr "c1"); ("name", PStr "Algebra")];
                        PDict [("id", PStr "c2"); ("room", PStr "B12")]])]))
    (fun _ =>
       Ok (PDict [("courseWork",
                   PList [PDict [("id", PStr "cw1"); ("title", PStr "Essay");
                                 ("materials",
                                  PList [PDict [("youtubeVideo",
                                    PDict [("id", PStr "v1");
                                           ("title", PStr "Lecture");
                                           ("alternateLink",
                                            PStr "https://video.example/1")])]])]])]))
    (fun _ _ => unavailable)
    (fun _ _ _ _ => unavailable)
    (fun _ _ _ => unavailable).

(** A store holding the algebra course only. *)
Definition algebra_world : World.t :=
  World.mk (mkDb [algebra] [] [] []) ∅ [].

(** A second user, and a store in which both users follow the course
    that Classroom knows as c1. *)
Definition other_student : UserModel.t :=
  UserModel.mk 2 (Some "bob@example.org") (Some "Bob") (Some "token-2") None
    None.

Definition their_algebra : CourseModel.t :=
  CourseModel.mk 2 (Some "c1") (Some "Algebra, evening class") None None None 2.

Definition shared_world : World.t :=
  World.mk (mkDb [algebra; their_algebra] [] [] []) ∅ [].

(** A listing whose second record has lost its id. *)
Definition broken_listing : google_classroom.api :=
  google_classroom.mkApi
    (Ok (PDict [("courses",
                 PList [PDict [("id", PStr "c1"); ("name", PStr "Algebra")];
                        PDict [("name", PStr "Nameless")];
                        PDict [("id", PStr "c3"); ("name", PStr "Chemistry")]])]))
    (fun _ => unavailable)
    (fun _ _ => unavailable)
    (fun _ _ _ _ => unavailable)
    (fun _ _ _ => unavailable).

(** The essay with its stored row, next to an assignment of another
    course. *)
Definition stored_lab : AssignmentModel.t :=
  AssignmentModel.mk 2 (Some "cw1") (Some "Lab report") None None 2 2.

Definition two_assignments_world : World.t :=
  World.mk (mkDb [algebra; their_algebra] [stored_essay; stored_lab] [] [])
    ∅ [].

(** A reportlab that lays the story out but fails to build the
    document, and one that rejects the story itself. *)
Definition reportlab_build_fails : pdf_generator.reportlab :=
  pdf_generator.mk (fun _ _ => None)
    (fun _ _ => Some (Exn OtherError "layout error")).

Definition reportlab_story_fails : pdf_generator.reportlab :=
  pdf_generator.mk (fun _ _ => Some (Exn ValueError "bad markup"))
    (fun _ _ => None).

(** A request body that names another user as the owner of the draft, and
    an update that brings no submission date and no feedback. *)
Definition forged_draft : DraftCreate.t :=
  DraftCreate.mk "Notes" "draft" None 2 1.

Definition revision : DraftUpdate.t :=
  DraftUpdate.mk "My essay, revised" "draft" None None.

(** A draft that was submitted, with feedback. *)
Definition graded_draft : DraftModel.t :=
  DraftModel.mk 6 (Some "My essay") (Some "submitted") (Some "Well argued")
    (Some (Datetime 2024 5 16 12 0)) 1 1.

Definition graded_world : World.t :=
  World.mk (mkDb [algebra] [stored_essay] [] [essay_draft; graded_draft]) ∅ [].

(** A Drive whose only file is not valid text, and a material that is at
    once a shared Drive file and a link. *)
Definition binary_drive : google_drive.api :=
  google_drive.mkApi
    (fun _ => Ok (PDict [("mimeType", PStr "image/png"); ("name", PStr "Scan")]))
    (fun _ => google_drive.Done [Byte.xff; Byte.xd8])
    (fun _ => unavailable)
    (fun _ => unavailable).

Definition scan_and_link : dict :=
  [("link", PDict [("url", PStr reading_url); ("title", PStr "Reading")]);
   ("driveFile",
    PDict [("driveFile",
            PDict [("id", PStr "f1"); ("title", PStr "Scan")])])].

(** A Classroom whose single-record endpoints fail outside HTTP. *)
Definition timing_out : google_classroom.lookups :=
  google_classroom.mkLookups
    (fun _ => Raise (Exn OtherError "timed out"))
    (fun _ _ => Raise (Exn OtherError "timed out"))
    (fun _ => Raise (Exn OtherError "timed out")).

(** A Classroom that answers every call with an HTTP error. *)
Definition classroom_down : google_classroom.api :=
  google_classroom.mkApi unavailable (fun _ => unavailable)
    (fun _ _ => unavailable) (fun _ _ _ _ => unavailable)
    (fun _ _ _ => unavailable).

End Examples.

(* ===================================================================== *)
(** * Part II. Properties                                                 *)
(* ===================================================================== *)

Import Py World Vocabulary.

(** ** Generic facts *)

Lemma bind_ok {St A B} (c : M St A) (k : A -> M St B) s a s' :
  c s = (Ok a, s') -> bind c k s = k a s'.
Proof. intros H. unfold bind. rewrite H. reflexivity. Qed.

Lemma bind_ret {St A B} (a : A) (k : A -> M St B) s :
  bind (ret a) k s = k a s.
Proof. reflexivity. Qed.

Lemma bind_lift {St A B} (r : result A) (k : A -> M St B) s :
  bind (lift r) k s =
    match r with Ok a => k a s | Raise e => (Raise e, s) end.
Proof. destruct r; reflexivity. Qed.

Lemma bind_get {St B} (k : St -> M St B) s : bind get k s = k s s.
Proof. reflexivity. Qed.

Lemma bind_log {B} (c : call) (k : unit -> M World.t B) w :
  bind (log c) k w = k tt (World.mk (db w) (fs w) (calls w ++ [c])).
Proof. reflexivity. Qed.

Lemma bind_assoc {St A B C} (c : M St A) (f : A -> M St B) (k : B -> M St C) s :
  bind (bind c f) k s = bind c (fun a => bind (f a) k) s.
Proof. unfold bind. destruct (c s) as [[a | e] s']; reflexivity. Qed.

(** ** The remote file client *)
Section DownloadFile.
Import google_drive.

Lemma write_at_end fh data :
  position fh = length (buffer fh) ->
  write fh data = mkBytesIO (buffer fh ++ data) (length (buffer fh ++ data)).
Proof.
  intros Hp. unfold write. rewrite Hp.
  rewrite firstn_all, drop_ge by lia.
  rewrite app_nil_r, length_app. reflexivity.
Qed.

Lemma next_chunks_spec rq tr : forall fh w,
  position fh = length (buffer fh) ->
  next_chunks rq tr fh w =
    (match transfer_data tr with
     | Ok data => Ok (mkBytesIO (buffer fh ++ data)
                                (length (buffer fh ++ data)))
     | Raise e => Raise e
     end,
     World.mk (db w) (fs w) (calls w ++ transfer_calls rq tr)).
Proof.
  induction tr as [data | data rest IH | e]; intros fh w Hp;
    cbn [next_chunks transfer_data transfer_calls];
    unfold bind at 1; unfold log, modify; cbn [fst snd].
  - unfold ret. rewrite write_at_end by assumption. reflexivity.
  - rewrite write_at_end by assumption.
    rewrite IH by reflexivity. cbn [buffer db fs calls].
    rewrite <- (app_assoc (calls w)). cbn [app].
    destruct (transfer_data rest); cbn [rbind].
    + rewrite <- app_assoc. reflexivity.
    + reflexivity.
  - reflexivity.
Qed.

(** The download of one request, started on an empty buffer. *)
Lemma download_request drive rq w :
  bind (next_chunks rq (files_media drive rq) (mkBytesIO [] 0))
       (fun fh => ret (Some (seek fh 0))) w =
    (match transfer_data (files_media drive rq) with
     | Ok data => Ok (Some (mkBytesIO data 0))
     | Raise e => Raise e
     end,
     World.mk (db w) (fs w)
       (calls w ++ transfer_calls rq (files_media drive rq))).
Proof.
  unfold bind. rewrite next_chunks_spec by reflexivity.
  cbn [buffer app].
  destruct (transfer_data (files_media drive rq)); reflexivity.
Qed.

(** [download_file] in one equation: the request is chosen from the
    metadata, then fetched. *)
Lemma download_file_eq drive file_id w :
  download_file drive file_id w =
    let w1 := World.mk (db w) (fs w) (calls w ++ [DriveFilesGet file_id]) in
    match (let? file_metadata := files_get drive file_id in
           let? mime_type := py_get file_metadata "mimeType" PNone in
           chosen_request file_id mime_type) with
    | Ok (Some rq) =>
        (Ok (fetched drive rq),
         World.mk (db w) (fs w)
           (calls w1 ++ transfer_calls rq (files_media drive rq)))
    | Ok None => (Ok None, w1)
    | Raise _ => (Ok None, w1)
    end.
Proof.
  assert (Hh : forall e (s : World.t),
            (if is_kind HttpError e then ret None else ret None) s =
            (Ok (@None BytesIO), s))
    by (intros e s; destruct (is_kind HttpError e); reflexivity).
  assert (Hfetch : forall rq (s : World.t),
            (let (r, s') :=
               bind (next_chunks rq (files_media drive rq) (mkBytesIO [] 0))
                    (fun fh => ret (Some (seek fh 0))) s in
             match r with
             | Ok a => (Ok a, s')
             | Raise e => (if is_kind HttpError e then ret None else ret None) s'
             end) =
            (Ok (fetched drive rq),
             World.mk (db s) (fs s)
               (calls s ++ transfer_calls rq (files_media drive rq)))).
  { intros rq s. rewrite download_request. unfold fetched.
    destruct (transfer_data (files_media drive rq)); [reflexivity | apply Hh]. }
  unfold download_file, try_except. cbv zeta.
  rewrite bind_log, bind_lift.
  destruct (files_get drive file_id) as [meta | e]; cbn [rbind]; [| apply Hh].
  rewrite bind_lift.
  destruct (py_get meta "mimeType" PNone) as [mime | e]; cbn [rbind];
    [| apply Hh].
  unfold chosen_request. rewrite bind_lift.
  destruct (py_in "google-apps" mime) as [[|] | e]; cbn [rbind]; [| | apply Hh].
  - rewrite bind_assoc, bind_lift.
    destruct (py_in "document" mime) as [[|] | e]; cbn [rbind]; [| | apply Hh].
    + rewrite bind_ret, Hfetch. reflexivity.
    + rewrite bind_assoc, bind_lift.
      destruct (py_in "spreadsheet" mime) as [[|] | e]; cbn [rbind];
        [| | apply Hh].
      * rewrite bind_ret, Hfetch. reflexivity.
      * reflexivity.
  - rewrite bind_ret, Hfetch. reflexivity.
Qed.

(** C8. Fetching a file by id. The call never lets an exception out and
    leaves the local store and disk alone. When the metadata lookup
    fails the result is [None]. Otherwise the media type decides the
    request: a google-apps type naming a document is exported as
    text/plain, one naming a spreadsheet as text/csv, any other
    google-apps type gives [None] without a download being attempted,
    and every other type is fetched raw. What a request gives back is
    [None] when a chunk of the transfer fails, and otherwise the whole
    content in a stream positioned at 0. *)
Theorem download_file_outcomes (drive : api) (file_id : pyval) (w : World.t) :
  (exists r w', download_file drive file_id w = (Ok r, w') /\
                db w' = db w /\ fs w' = fs w) /\
  (forall e, files_get drive file_id = Raise e ->
     fst (download_file drive file_id w) = Ok None) /\
  (forall meta mime,
     files_get drive file_id = Ok (PDict meta) ->
     dict_lookup "mimeType" meta = Some (PStr mime) ->
     (contains "google-apps" mime = true ->
      contains "document" mime = true ->
      fst (download_file drive file_id w) =
        Ok (fetched drive (ExportMedia file_id "text/plain"))) /\
     (contains "google-apps" mime = true ->
      contains "document" mime = false ->
      contains "spreadsheet" mime = true ->
      fst (download_file drive file_id w) =
        Ok (fetched drive (ExportMedia file_id "text/csv"))) /\
     (contains "google-apps" mime = true ->
      contains "document" mime = false ->
      contains "spreadsheet" mime = false ->
      download_file drive file_id w =
        (Ok None,
         World.mk (db w) (fs w) (calls w ++ [DriveFilesGet file_id]))) /\
     (contains "google-apps" mime = false ->
      fst (download_file drive file_id w) =
        Ok (fetched drive (GetMedia file_id)))) /\
  (forall rq e, transfer_data (files_media drive rq) = Raise e ->
     fetched drive rq = None) /\
  (forall rq data, transfer_data (files_media drive rq) = Ok data ->
     fetched drive rq = Some (mkBytesIO data 0)).
Proof.
  split; [| split; [| split; [| split]]].
  - rewrite download_file_eq. cbv zeta.
    match goal with
    | |- context [match ?r with _ => _ end] => destruct r as [[rq |] | e]
    end; eauto.
  - intros e He. rewrite download_file_eq, He. reflexivity.
  - intros meta mime Hmeta Hmime.
    rewrite download_file_eq, Hmeta. cbn. rewrite Hmime. cbn.
    unfold chosen_request. cbn.
    repeat split; intros;
      repeat match goal with
        | H : contains _ mime = _ |- _ => rewrite H; clear H; cbn
        end; reflexivity.
  - intros rq e H. unfold fetched. rewrite H. reflexivity.
  - intros rq data H. unfold fetched. rewrite H. reflexivity.
Qed.

Lemma download_file_outcomes_witness :
  fst (download_file Examples.notes_drive (PStr "file-1") Examples.empty_world) =
  Ok (Some (mkBytesIO [Byte.x68; Byte.x69] 0)).
Proof.
  destruct (download_file_outcomes Examples.notes_drive (PStr "file-1")
              Examples.empty_world) as (_ & _ & H & _).
  destruct (H _ _ eq_refl eq_refl) as (Hdocument & _).
  exact (Hdocument eq_refl eq_refl).
Defined.

End DownloadFile.

(** ** Dictionaries *)

Lemma py_in_absent k d : dict_lookup k d = None -> py_in k (PDict d) = Ok false.
Proof. intros H. unfold py_in. rewrite H. reflexivity. Qed.

Lemma py_in_present k d v :
  dict_lookup k d = Some v -> py_in k (PDict d) = Ok true.
Proof.
  intros H. unfold py_in. rewrite H.
  rewrite bool_decide_eq_true_2 by eauto. reflexivity.
Qed.

Lemma py_getitem_present k d v :
  dict_lookup k d = Some v -> py_getitem (PDict d) k = Ok v.
Proof. intros H. unfold py_getitem. rewrite H. reflexivity. Qed.

(** ** Queries *)

Lemma first_none {A} (p : A -> bool) rows :
  (forall r, p r = false) -> first p rows = None.
Proof.
  intros H. unfold first. induction rows as [| r rows IH]; simpl.
  - reflexivity.
  - rewrite H. exact IH.
Qed.

Lemma first_some_elem {A} (p : A -> bool) rows r :
  first p rows = Some r -> r ∈ rows /\ p r = true.
Proof.
  unfold first. intros H. apply find_some in H as [Hin Hp].
  split; [apply list_elem_of_In; exact Hin | exact Hp].
Qed.

Lemma first_none_elem {A} (p : A -> bool) rows r :
  first p rows = None -> r ∈ rows -> p r = false.
Proof.
  unfold first. intros H Hin. apply list_elem_of_In in Hin.
  exact (find_none _ _ H _ Hin).
Qed.

(** ** Material sync *)
Section Materials.
Import classroom.
Variable utf_8 : list Byte.byte -> result string.
Variable drive_service : google_drive.api.

Lemma classify_unknown (payload : dict) (w : World.t) :
  dict_lookup "driveFile" payload = None ->
  dict_lookup "youtubeVideo" payload = None ->
  dict_lookup "link" payload = None ->
  dict_lookup "form" payload = None ->
  classify utf_8 drive_service (PDict payload) w = (Ok unknown, w).
Proof.
  intros Hd Hy Hl Hf. unfold classify.
  rewrite bind_lift, (py_in_absent _ _ Hd).
  rewrite bind_lift, (py_in_absent _ _ Hy).
  rewrite bind_lift, (py_in_absent _ _ Hl).
  rewrite bind_lift, (py_in_absent _ _ Hf).
  reflexivity.
Qed.

(** C5. A material payload that carries none of the four variant keys is
    classified, without any exception, as type "unknown" with title
    "Untitled Material" and no url, content or remote id; the row stored
    for it has exactly these values. *)
Theorem unknown_material_defaults (payload : dict) (assignment_id : Z)
  (w : World.t) :
  dict_lookup "driveFile" payload = None ->
  dict_lookup "youtubeVideo" payload = None ->
  dict_lookup "link" payload = None ->
  dict_lookup "form" payload = None ->
  classify utf_8 drive_service (PDict payload) w =
    (Ok (mkClassified "unknown" PNone None (PStr "Untitled Material") PNone), w) /\
  let row :=
    MaterialModel.mk (next_id MaterialModel.id (materials (db w)))
      None (Some "Untitled Material") (Some "unknown") None None None
      assignment_id in
  process_materials_body utf_8 drive_service assignment_id (PDict payload) w =
    (Ok row,
     World.mk (mkDb (courses (db w)) (assignments (db w))
                    (materials (db w) ++ [row]) (drafts (db w)))
              (fs w) (calls w)).
Proof.
  intros Hd Hy Hl Hf.
  pose proof (classify_unknown payload w Hd Hy Hl Hf) as Hc.
  split; [exact Hc |].
  cbv zeta. unfold process_materials_body.
  rewrite (bind_ok _ _ _ _ _ Hc).
  unfold save_material, unknown, conditional. cbn.
  unfold existing_material, criterion.
  rewrite first_none by reflexivity.
  reflexivity.
Qed.

End Materials.

Lemma unknown_material_defaults_witness :
  fst (classroom.process_materials_body Examples.seven_bit Examples.notes_drive 7
         (PDict [("shareMode", PStr "VIEW")]) Examples.empty_world) =
  Ok (MaterialModel.mk 1 None (Some "Untitled Material") (Some "unknown")
        None None None 7).
Proof.
  destruct (unknown_material_defaults Examples.seven_bit Examples.notes_drive
              [("shareMode", PStr "VIEW")] 7
              Examples.empty_world eq_refl eq_refl eq_refl eq_refl) as [_ H].
  cbv zeta in H. rewrite H. reflexivity.
Defined.

Lemma conditional_some v t :
  classroom.conditional v = Ok (Some t) -> to_text v = Ok t.
Proof.
  unfold classroom.conditional. destruct (truthy v); [| discriminate].
  destruct (to_text v); cbn; congruence.
Qed.

(** C6. The update path of material sync. For a material the query finds
    already stored, with a title that is text, the row is rewritten with
    the new title, url and type; its content is replaced by the newly
    fetched content when that content is a non-empty text, and is left as
    stored when the new content is absent or empty. *)
Theorem material_update_keeps_content (assignment_id : Z)
  (c : classroom.classified) (w : World.t) (old : MaterialModel.t)
  (by_id by_url : option (option string)) (title_text : option string) :
  classroom.conditional (classroom.google_material_id c) = Ok by_id ->
  classroom.conditional (classroom.url c) = Ok by_url ->
  classroom.existing_material assignment_id by_id by_url (materials (db w))
    = Some old ->
  to_text (classroom.title c) = Ok title_text ->
  exists row,
    classroom.save_material assignment_id c w =
      (Ok row,
       World.mk (mkDb (courses (db w)) (assignments (db w))
                      (commit_row MaterialModel.id row (materials (db w)))
                      (drafts (db w)))
                (fs w) (calls w)) /\
    MaterialModel.id row = MaterialModel.id old /\
    MaterialModel.title row = title_text /\
    to_text (classroom.url c) = Ok (MaterialModel.url row) /\
    MaterialModel.type row = Some (classroom.material_type c) /\
    (classroom.content c = None \/ classroom.content c = Some "" ->
     MaterialModel.content row = MaterialModel.content old) /\
    (forall text, classroom.content c = Some text -> text <> "" ->
     MaterialModel.content row = Some text).
Proof.
  intros Hid Hurl Hold Htitle.
  assert (Hu : exists url_text, by_url = Some url_text).
  { apply first_some_elem in Hold as [_ Hold].
    destruct by_url as [u |]; [eauto |].
    cbn in Hold. rewrite andb_false_r in Hold. discriminate. }
  destruct Hu as [url_text ->].
  pose proof (conditional_some _ _ Hurl) as Hurl_text.
  eexists. split; [| split; [| split; [| split; [| split; [| split]]]]].
  - unfold classroom.save_material.
    rewrite bind_lift, Hid, bind_lift, Hurl, bind_get, Hold.
    rewrite bind_lift, Htitle, bind_lift, Hurl_text.
    reflexivity.
  - reflexivity.
  - reflexivity.
  - exact Hurl_text.
  - reflexivity.
  - intros [Hc | Hc]; cbn; rewrite Hc; reflexivity.
  - intros text Hc Hne. cbn. rewrite Hc.
    unfold classroom.updated_content, classroom.truthy_text. cbn.
    destruct (String.eqb_spec text ""); [contradiction | reflexivity].
Qed.

Lemma material_update_keeps_content_witness :
  exists row,
    fst (classroom.save_material 7 Examples.video_again Examples.video_world)
      = Ok row /\
    MaterialModel.title row = Some "New title" /\
    MaterialModel.content row = Some "stored text".
Proof.
  destruct (material_update_keeps_content 7 Examples.video_again
              Examples.video_world Examples.stored_video
              (Some (Some "v1")) (Some (Some "https://video.example/1"))
              (Some "New title") eq_refl eq_refl eq_refl eq_refl)
    as (row & Hsave & _ & Htitle & _ & _ & Hkeep & _).
  exists row. split; [rewrite Hsave; reflexivity |].
  split; [exact Htitle |].
  rewrite Hkeep by (left; reflexivity). reflexivity.
Defined.

(** ** Assignment sync *)
Section DueDate.
Import classroom.

Lemma as_c_int_int (o : option Z) (dflt : Z) :
  c_int (default dflt o) = true ->
  as_c_int (from_option id (PInt dflt) (PInt <$> o)) = Ok (default dflt o).
Proof. unfold as_c_int. destruct o; cbn; intros ->; reflexivity. Qed.

Lemma as_c_int_overflow (o : option Z) (dflt : Z) :
  c_int (default dflt o) = false ->
  exists msg,
    as_c_int (from_option id (PInt dflt) (PInt <$> o)) =
      Raise (Exn OverflowError msg).
Proof. unfold as_c_int. destruct o; cbn; intros ->; eauto. Qed.

(** The parse, once both keys are known to carry dicts of integers that
    fit a C int. *)
Lemma parse_due_date_components (ga due_info time_info : dict)
  (oy om od oh omi : option Z) :
  dict_lookup "dueDate" ga = Some (PDict due_info) ->
  dict_lookup "dueTime" ga = Some (PDict time_info) ->
  dict_lookup "year" due_info = PInt <$> oy ->
  dict_lookup "month" due_info = PInt <$> om ->
  dict_lookup "day" due_info = PInt <$> od ->
  dict_lookup "hours" time_info = PInt <$> oh ->
  dict_lookup "minutes" time_info = PInt <$> omi ->
  fit_c_int (default 1970 oy) (default 1 om) (default 1 od)
            (default 0 oh) (default 0 omi) = true ->
  parse_due_date (PDict ga) =
    Ok (composed_date (default 1970 oy) (default 1 om) (default 1 od)
                      (default 0 oh) (default 0 omi)).
Proof.
  intros Hd Ht Hy Hm Hday Hh Hmi Hfit. unfold parse_due_date.
  rewrite (py_in_present _ _ _ Hd), (py_in_present _ _ _ Ht). cbn [rbind].
  rewrite (py_getitem_present _ _ _ Hd), (py_getitem_present _ _ _ Ht).
  cbn [rbind]. unfold py_get. rewrite Hy, Hm, Hday, Hh, Hmi. cbn [rbind].
  unfold fit_c_int in Hfit. rewrite !andb_true_iff in Hfit.
  destruct Hfit as [[[[Fy Fm] Fd] Fh] Fmi].
  unfold mk_datetime.
  rewrite (as_c_int_int oy 1970 Fy), (as_c_int_int om 1 Fm),
    (as_c_int_int od 1 Fd), (as_c_int_int oh 0 Fh), (as_c_int_int omi 0 Fmi).
  cbn [rbind]. unfold composed_date.
  destruct (valid_datetime _ _ _ _ _); reflexivity.
Qed.

(** The parse when a component does not fit a C int: the constructor's
    [OverflowError], which [except ValueError] does not catch. *)
Lemma parse_due_date_overflow (ga due_info time_info : dict)
  (oy om od oh omi : option Z) :
  dict_lookup "dueDate" ga = Some (PDict due_info) ->
  dict_lookup "dueTime" ga = Some (PDict time_info) ->
  dict_lookup "year" due_info = PInt <$> oy ->
  dict_lookup "month" due_info = PInt <$> om ->
  dict_lookup "day" due_info = PInt <$> od ->
  dict_lookup "hours" time_info = PInt <$> oh ->
  dict_lookup "minutes" time_info = PInt <$> omi ->
  fit_c_int (default 1970 oy) (default 1 om) (default 1 od)
            (default 0 oh) (default 0 omi) = false ->
  exists msg, parse_due_date (PDict ga) = Raise (Exn OverflowError msg).
Proof.
  intros Hd Ht Hy Hm Hday Hh Hmi Hfit. unfold parse_due_date.
  rewrite (py_in_present _ _ _ Hd), (py_in_present _ _ _ Ht). cbn [rbind].
  rewrite (py_getitem_present _ _ _ Hd), (py_getitem_present _ _ _ Ht).
  cbn [rbind]. unfold py_get. rewrite Hy, Hm, Hday, Hh, Hmi. cbn [rbind].
  unfold fit_c_int in Hfit. unfold mk_datetime.
  destruct (c_int (default 1970 oy)) eqn:Fy.
  2: { destruct (as_c_int_overflow oy 1970 Fy) as [msg ->]. eauto. }
  rewrite (as_c_int_int oy 1970 Fy). cbn [rbind].
  destruct (c_int (default 1 om)) eqn:Fm.
  2: { destruct (as_c_int_overflow om 1 Fm) as [msg ->]. eauto. }
  rewrite (as_c_int_int om 1 Fm). cbn [rbind].
  destruct (c_int (default 1 od)) eqn:Fd.
  2: { destruct (as_c_int_overflow od 1 Fd) as [msg ->]. eauto. }
  rewrite (as_c_int_int od 1 Fd). cbn [rbind].
  destruct (c_int (default 0 oh)) eqn:Fh.
  2: { destruct (as_c_int_overflow oh 0 Fh) as [msg ->]. eauto. }
  rewrite (as_c_int_int oh 0 Fh). cbn [rbind].
  destruct (c_int (default 0 omi)) eqn:Fmi; [discriminate Hfit |].
  destruct (as_c_int_overflow omi 0 Fmi) as [msg ->]. eauto.
Qed.

(** C9. A due date is composed only when the record carries both the
    "dueDate" and the "dueTime" key: with either key missing the parsed
    due date is null, whatever the other key holds. With both keys
    present and integer components that fit a C int, a component missing
    from its dict counts as year 1970, month 1, day 1, hour 0, minute 0.
    (With a component that does not fit a C int nothing is composed: the
    constructor's [OverflowError] escapes the parse.) *)
Theorem due_date_needs_both_keys (ga : dict) :
  (dict_lookup "dueDate" ga = None \/ dict_lookup "dueTime" ga = None ->
   parse_due_date (PDict ga) = Ok None) /\
  (forall (due_info time_info : dict) (oy om od oh omi : option Z),
     dict_lookup "dueDate" ga = Some (PDict due_info) ->
     dict_lookup "dueTime" ga = Some (PDict time_info) ->
     dict_lookup "year" due_info = PInt <$> oy ->
     dict_lookup "month" due_info = PInt <$> om ->
     dict_lookup "day" due_info = PInt <$> od ->
     dict_lookup "hours" time_info = PInt <$> oh ->
     dict_lookup "minutes" time_info = PInt <$> omi ->
     (fit_c_int (default 1970 oy) (default 1 om) (default 1 od)
                (default 0 oh) (default 0 omi) = true ->
      parse_due_date (PDict ga) =
        Ok (composed_date (default 1970 oy) (default 1 om) (default 1 od)
                          (default 0 oh) (default 0 omi))) /\
     (fit_c_int (default 1970 oy) (default 1 om) (default 1 od)
                (default 0 oh) (default 0 omi) = false ->
      exists msg,
        parse_due_date (PDict ga) = Raise (Exn OverflowError msg))).
Proof.
  split.
  - intros [Hd | Ht]; unfold parse_due_date.
    + rewrite (py_in_absent _ _ Hd). reflexivity.
    + destruct (dict_lookup "dueDate" ga) as [v |] eqn:Hd.
      * rewrite (py_in_present _ _ _ Hd). cbn [rbind].
        rewrite (py_in_absent _ _ Ht). reflexivity.
      * rewrite (py_in_absent _ _ Hd). reflexivity.
  - intros. split; intros Hfit.
    + eapply parse_due_date_components; eassumption.
    + eapply parse_due_date_overflow; eassumption.
Qed.

End DueDate.

Lemma due_date_needs_both_keys_witness :
  classroom.parse_due_date (PDict Examples.date_only) = Ok None /\
  classroom.parse_due_date (PDict Examples.sparse_pair) =
    Ok (Some (Datetime 1970 5 1 9 0)).
Proof.
  split.
  - apply due_date_needs_both_keys. right. reflexivity.
  - exact (proj1 (proj2 (due_date_needs_both_keys Examples.sparse_pair)
                    [("month", PInt 5)] [("hours", PInt 9)]
                    None (Some 5) None (Some 9) None
                    eq_refl eq_refl eq_refl eq_refl eq_refl eq_refl eq_refl)
             eq_refl).
Defined.

Lemma dict_lookup_without_ne k k' d :
  k <> k' -> dict_lookup k (without_key k' d) = dict_lookup k d.
Proof.
  intros Hne. induction d as [| [k0 v] d IH]; simpl; [reflexivity |].
  destruct (String.eqb_spec k' k0) as [-> | Hk0]; simpl.
  - rewrite decide_False by assumption. exact IH.
  - rewrite IH. reflexivity.
Qed.

Lemma dict_lookup_without_eq k d : dict_lookup k (without_key k d) = None.
Proof.
  induction d as [| [k0 v] d IH]; simpl; [reflexivity |].
  destruct (String.eqb_spec k k0) as [-> | Hk0]; simpl.
  - exact IH.
  - rewrite decide_False by assumption. exact IH.
Qed.

Lemma dict_lookup_without_due k ga :
  k <> "dueDate" -> k <> "dueTime" ->
  dict_lookup k (without_due ga) = dict_lookup k ga.
Proof.
  intros H1 H2. unfold without_due.
  rewrite !dict_lookup_without_ne by assumption. reflexivity.
Qed.

Lemma to_text_of_text t : to_text (of_text t) = Ok t.
Proof. destruct t; reflexivity. Qed.

(** A text item overrides the default; a missing item leaves it. *)
Lemma get_text_text (d : dict) k (o : option string) dflt :
  dict_lookup k d = PStr <$> o ->
  classroom.get_text (PDict d) k dflt =
    Ok (match o with Some s => Some s | None => dflt end).
Proof.
  intros H. unfold classroom.get_text, py_get. rewrite H.
  destruct o; cbn; [reflexivity | apply to_text_of_text].
Qed.

Section AssignmentSync.
Import classroom.
Variable utf_8 : list Byte.byte -> result string.
Variable drive_service : google_drive.api.
Variable db_course : CourseModel.t.
Variable current_user : UserModel.t.

Local Abbreviation body :=
  (get_assignments_body utf_8 drive_service db_course current_user).

(** A record is read through its "id", "title", "description" and
    "materials" items and through its parsed due date only. *)
Lemma get_assignments_body_ext (ga ga' : dict) (w : World.t) :
  (forall k, k <> "dueDate" -> k <> "dueTime" ->
             dict_lookup k ga' = dict_lookup k ga) ->
  parse_due_date (PDict ga') = parse_due_date (PDict ga) ->
  body (PDict ga') w = body (PDict ga) w.
Proof.
  intros Hk Hparse. unfold get_assignments_body, save_assignment.
  rewrite Hparse.
  unfold get_text, py_getitem, py_get, py_in.
  rewrite !(Hk "id"), !(Hk "title"), !(Hk "description"), !(Hk "materials")
    by discriminate.
  reflexivity.
Qed.

Lemma for_each_cons {X R} (f : X -> M World.t R) x xs w :
  for_each f (x :: xs) w =
    match f x w with
    | (Ok r, w1) =>
        let '(rs, w2) := for_each f xs w1 in
        (match rs with Ok rows => Ok (r :: rows) | Raise e => Raise e end, w2)
    | (Raise e, w1) => (Raise e, w1)
    end.
Proof.
  cbn [for_each]. unfold bind at 1.
  destruct (f x w) as [[r | e] w1]; [| reflexivity].
  unfold bind, ret. destruct (for_each f xs w1) as [[rows | e] w2]; reflexivity.
Qed.

(** The update path leaves the stored due date in place unless a new one
    was parsed. *)
Lemma save_assignment_update (ga : pyval) google_id old due_date w row w' :
  save_assignment db_course current_user ga google_id (Some old) due_date w
    = (Ok row, w') ->
  AssignmentModel.id row = AssignmentModel.id old /\
  AssignmentModel.due_date row =
    updated_due_date due_date (AssignmentModel.due_date old) /\
  get_text ga "title" (AssignmentModel.title old)
    = Ok (AssignmentModel.title row) /\
  get_text ga "description" (AssignmentModel.description old)
    = Ok (AssignmentModel.description row) /\
  assignments (db w') = commit_row AssignmentModel.id row (assignments (db w)).
Proof.
  unfold save_assignment. rewrite bind_lift.
  destruct (get_text ga "title" _) as [title |]; [| discriminate].
  rewrite bind_lift.
  destruct (get_text ga "description" _) as [description |]; [| discriminate].
  cbn. intros H. injection H as <- <-. cbn. auto.
Qed.

(** C10. The update path of assignment sync with a null parsed due date.
    For a record whose title and description are text where present, the
    stored row keeps its due date while its title and description take
    the remote values (or stay as stored where the record has none).
    Whatever the parsed due date, a stored due date is never replaced by
    null; and the row a whole iteration returns for an already stored
    assignment whose due date parses to null carries the stored due
    date. *)
Theorem null_due_date_keeps_stored (ga : dict) (old : AssignmentModel.t) :
  (forall (google_id otitle odescription : option string) (w : World.t),
     dict_lookup "title" ga = PStr <$> otitle ->
     dict_lookup "description" ga = PStr <$> odescription ->
     let row :=
       AssignmentModel.mk (AssignmentModel.id old)
         (AssignmentModel.google_assignment_id old)
         (match otitle with
          | Some t => Some t
          | None => AssignmentModel.title old
          end)
         (match odescription with
          | Some d => Some d
          | None => AssignmentModel.description old
          end)
         (AssignmentModel.due_date old)
         (AssignmentModel.course_id old) (AssignmentModel.user_id old) in
     save_assignment db_course current_user (PDict ga) google_id (Some old)
       None w =
       (Ok row,
        World.mk (mkDb (courses (db w))
                       (commit_row AssignmentModel.id row (assignments (db w)))
                       (materials (db w)) (drafts (db w)))
                 (fs w) (calls w))) /\
  (forall google_id due_date w row w',
     save_assignment db_course current_user (PDict ga) google_id (Some old)
       due_date w = (Ok row, w') ->
     is_Some (AssignmentModel.due_date old) ->
     is_Some (AssignmentModel.due_date row)) /\
  (forall id_value google_id w row w',
     dict_lookup "id" ga = Some id_value ->
     to_text id_value = Ok google_id ->
     existing_assignment db_course google_id (assignments (db w)) = Some old ->
     parse_due_date (PDict ga) = Ok None ->
     body (PDict ga) w = (Ok row, w') ->
     AssignmentModel.due_date row = AssignmentModel.due_date old).
Proof.
  split; [| split].
  - intros google_id otitle odescription w Htitle Hdesc. cbv zeta.
    unfold save_assignment.
    rewrite bind_lift, (get_text_text _ _ _ _ Htitle).
    rewrite bind_lift, (get_text_text _ _ _ _ Hdesc).
    reflexivity.
  - intros google_id due_date w row w' Hsave Hstored.
    apply save_assignment_update in Hsave as (_ & Hdue & _).
    rewrite Hdue. destruct due_date; [eauto | exact Hstored].
  - intros id_value google_id w row w' Hid Htext Hold Hparse Hrun.
    unfold get_assignments_body in Hrun.
    rewrite bind_lift, (py_getitem_present _ _ _ Hid) in Hrun.
    rewrite bind_lift, Htext, bind_get, Hold in Hrun.
    rewrite bind_lift, Hparse in Hrun.
    unfold bind at 1 in Hrun.
    destruct (save_assignment _ _ _ _ _ _ w) as [[saved | e] w1] eqn:Hsave;
      [| discriminate].
    apply save_assignment_update in Hsave as (_ & Hdue & _).
    assert (row = saved) as ->.
    { rewrite bind_lift in Hrun.
      destruct (py_in "materials" (PDict ga)) as [has |]; [| discriminate].
      unfold bind at 1 in Hrun.
      match type of Hrun with
      | (let (_, _) := ?c in _) = _ => destruct c as [[[] | e] w2]
      end; [| discriminate].
      unfold ret in Hrun. congruence. }
    exact Hdue.
Qed.

End AssignmentSync.

Lemma null_due_date_keeps_stored_witness :
  (exists row,
     fst (classroom.save_assignment Examples.algebra Examples.student
            (PDict Examples.date_only) (Some "cw1")
            (Some Examples.stored_essay) None Examples.essay_world) = Ok row /\
     AssignmentModel.due_date row = Some (Datetime 2024 5 17 9 0)) /\
  (exists row w',
     classroom.get_assignments_body Examples.seven_bit Examples.notes_drive
       Examples.algebra Examples.student (PDict Examples.date_only)
       Examples.essay_world = (Ok row, w') /\
     AssignmentModel.due_date row = Some (Datetime 2024 5 17 9 0)).
Proof.
  destruct (null_due_date_keeps_stored Examples.seven_bit Examples.notes_drive
              Examples.algebra Examples.student Examples.date_only
              Examples.stored_essay) as (Hupdate & _ & Hbody).
  split.
  - specialize (Hupdate (Some "cw1") None None Examples.essay_world
                  eq_refl eq_refl).
    cbv zeta in Hupdate.
    eexists. split; [rewrite Hupdate; reflexivity | reflexivity].
  - assert (Hrun :
      classroom.get_assignments_body Examples.seven_bit Examples.notes_drive
        Examples.algebra Examples.student (PDict Examples.date_only)
        Examples.essay_world =
      (Ok Examples.stored_essay, Examples.essay_world))
      by (vm_compute; reflexivity).
    exists Examples.stored_essay, Examples.essay_world.
    split; [exact Hrun |].
    exact (Hbody (PStr "cw1") (Some "cw1") Examples.essay_world _ _
             eq_refl eq_refl eq_refl eq_refl Hrun).
Defined.

(** ** The content-generation task *)
Section Generation.
Import assignments.

(** After a commit, a query that found the row before its attributes were
    assigned, and that the rewritten row still satisfies, finds the
    rewritten row. *)
Lemma first_commit_row {A} (pk : A -> Z) (p : A -> bool) (row old : A) rows :
  first p rows = Some old ->
  pk row = pk old ->
  p row = true ->
  first p (commit_row pk row rows) = Some row.
Proof.
  unfold first, commit_row. intros Hfind Hpk Hrow.
  induction rows as [| r rows IH]; simpl in *; [discriminate |].
  destruct (p r) eqn:Hr.
  - injection Hfind as ->.
    rewrite decide_True by congruence. rewrite Hrow. reflexivity.
  - destruct (decide (pk r = pk row)).
    + rewrite Hrow. reflexivity.
    + rewrite Hr. apply IH. exact Hfind.
Qed.

(** C7. When the generator raises, the task ends normally having written
    to the targeted draft the status "error" and, as content, the text of
    the error after the prefix "Error generating content: ". A draft that
    was "generating" is therefore found in status "error" afterwards, not
    "generating". *)
Theorem generation_failure_marks_error (e : exn) (draft_id : Z)
  (w : World.t) (draft : DraftModel.t) :
  first (fun d => DraftModel.id d =? draft_id) (drafts (db w)) = Some draft ->
  DraftModel.status draft = Some "generating" ->
  let failed :=
    DraftModel.mk (DraftModel.id draft)
      (Some ("Error generating content: " +:+ str_exn e)) (Some "error")
      (DraftModel.feedback draft) (DraftModel.submission_date draft)
      (DraftModel.user_id draft) (DraftModel.assignment_id draft) in
  let w' :=
    World.mk (mkDb (courses (db w)) (assignments (db w)) (materials (db w))
                   (commit_row DraftModel.id failed (drafts (db w))))
             (fs w) (calls w) in
  generate_draft_content (Raise e) draft_id w = (Ok tt, w') /\
  first (fun d => DraftModel.id d =? draft_id) (drafts (db w')) = Some failed /\
  DraftModel.status failed <> Some "generating".
Proof.
  intros Hfind Hstatus. cbv zeta. split; [| split].
  - unfold generate_draft_content, try_except.
    rewrite bind_lift, bind_get, Hfind. reflexivity.
  - cbn [db drafts].
    apply (first_commit_row _ _ _ draft); [exact Hfind | reflexivity |].
    apply first_some_elem in Hfind as [_ Hid]. exact Hid.
  - discriminate.
Qed.

End Generation.

Lemma generation_failure_marks_error_witness :
  DraftModel.status <$>
    first (fun d => DraftModel.id d =? 4)
      (drafts (db (snd (assignments.generate_draft_content
                          (Raise (Exn OtherError "model unavailable")) 4
                          Examples.generating_world))))
  = Some (Some "error").
Proof.
  destruct (generation_failure_marks_error
              (Exn OtherError "model unavailable") 4
              Examples.generating_world Examples.generating_draft
              eq_refl eq_refl) as (Hrun & Hfound & _).
  rewrite Hrun. cbn [snd]. rewrite Hfound. reflexivity.
Defined.

(** ** Frames of the service calls *)
Section Frames.
Context {P : call -> Prop}.

Lemma only_calls_ret {A} (a : A) : only_calls P (ret a).
Proof.
  intros w. cbn. repeat split. exists []. rewrite app_nil_r. auto.
Qed.

Lemma only_calls_raise {A} e : only_calls P (@raise World.t A e).
Proof.
  intros w. cbn. repeat split. exists []. rewrite app_nil_r. auto.
Qed.

Lemma only_calls_lift {A} (r : result A) : only_calls P (lift r).
Proof.
  intros w. cbn. repeat split. exists []. rewrite app_nil_r. auto.
Qed.

Lemma only_calls_get : only_calls P get.
Proof.
  intros w. cbn. repeat split. exists []. rewrite app_nil_r. auto.
Qed.

Lemma only_calls_log c : P c -> only_calls P (log c).
Proof.
  intros Hc w. cbn. repeat split. exists [c]. auto.
Qed.

Lemma only_calls_bind {A B} (c : M World.t A) (k : A -> M World.t B) :
  only_calls P c -> (forall a, only_calls P (k a)) -> only_calls P (bind c k).
Proof.
  intros Hc Hk w. unfold bind.
  destruct (Hc w) as (Hdb & Hfs & made & Hcalls & Hmade).
  destruct (c w) as [[a | e] w1]; cbn in *.
  - destruct (Hk a w1) as (Hdb' & Hfs' & made' & Hcalls' & Hmade').
    repeat split; [congruence | congruence |].
    exists (made ++ made'). split.
    + rewrite Hcalls', Hcalls, app_assoc. reflexivity.
    + apply Forall_app. auto.
  - repeat split; [assumption | assumption |]. exists made. auto.
Qed.

Lemma only_calls_try_except {A} (c : M World.t A) (h : exn -> M World.t A) :
  only_calls P c -> (forall e, only_calls P (h e)) ->
  only_calls P (try_except c h).
Proof.
  intros Hc Hh w. unfold try_except.
  destruct (Hc w) as (Hdb & Hfs & made & Hcalls & Hmade).
  destruct (c w) as [[a | e] w1]; cbn in *.
  - repeat split; [assumption | assumption |]. exists made. auto.
  - destruct (Hh e w1) as (Hdb' & Hfs' & made' & Hcalls' & Hmade').
    repeat split; [congruence | congruence |].
    exists (made ++ made'). split.
    + rewrite Hcalls', Hcalls, app_assoc. reflexivity.
    + apply Forall_app. auto.
Qed.

Lemma only_calls_if {A} (b : bool) (c1 c2 : M World.t A) :
  only_calls P c1 -> only_calls P c2 -> only_calls P (if b then c1 else c2).
Proof. destruct b; auto. Qed.

End Frames.

Ltac frame :=
  repeat first
    [ apply only_calls_bind; [| intros ?]
    | apply only_calls_try_except; [| intros ?]
    | apply only_calls_if
    | apply only_calls_ret
    | apply only_calls_raise
    | apply only_calls_lift
    | apply only_calls_get
    | apply only_calls_log; first [reflexivity | exact I] ].

Lemma find_or_create_folder_frame drive folder_name :
  only_calls not_submission (google_drive.find_or_create_folder drive folder_name).
Proof. unfold google_drive.find_or_create_folder. frame. Qed.

Lemma upload_file_frame drive file_path file_name mime_type folder_id :
  only_calls not_submission
    (google_drive.upload_file drive file_path file_name mime_type folder_id).
Proof. unfold google_drive.upload_file, os.path_exists. frame. Qed.

Lemma create_submission_frame classroom course_id coursework_id file_data :
  only_calls (fun _ => True)
    (google_classroom.create_submission classroom course_id coursework_id
       file_data).
Proof. unfold google_classroom.create_submission. frame. Qed.

(** The service wrappers that promise it never raise. *)
Lemma find_or_create_folder_total drive folder_name w :
  exists v, fst (google_drive.find_or_create_folder drive folder_name w) = Ok v.
Proof.
  unfold google_drive.find_or_create_folder, try_except.
  match goal with
  | |- context [let (_, _) := ?c in _] => destruct c as [[v | e] w1]
  end; cbn; [eauto |].
  destruct (is_kind HttpError e); cbn; eauto.
Qed.

(** The three calls of a turn-in, outcome by outcome. *)
Lemma create_submission_eq classroom c a file_data w :
  let attachment := PDict [("addAttachments", PList [file_data])] in
  let handled (e : exn) : result pyval :=
    if is_kind HttpError e then Ok (PDict []) else Raise e in
  google_classroom.create_submission classroom c a file_data w =
  match google_classroom.studentSubmissions_create classroom c a with
  | Raise e => (handled e, logged w [SubmissionsCreate c a])
  | Ok created =>
      match py_get created "id" PNone with
      | Raise e => (handled e, logged w [SubmissionsCreate c a])
      | Ok sid =>
          match google_classroom.studentSubmissions_modifyAttachments
                  classroom c a sid attachment with
          | Raise e =>
              (handled e,
               logged w [SubmissionsCreate c a;
                         SubmissionsModifyAttachments c a sid attachment])
          | Ok _ =>
              match google_classroom.studentSubmissions_turnIn classroom c a
                      sid with
              | Raise e =>
                  (handled e,
                   logged w [SubmissionsCreate c a;
                             SubmissionsModifyAttachments c a sid attachment;
                             SubmissionsTurnIn c a sid])
              | Ok final =>
                  (Ok final,
                   logged w [SubmissionsCreate c a;
                             SubmissionsModifyAttachments c a sid attachment;
                             SubmissionsTurnIn c a sid])
              end
          end
      end
  end.
Proof.
  cbv zeta. unfold google_classroom.create_submission, try_except, logged.
  rewrite bind_log, bind_lift.
  destruct (google_classroom.studentSubmissions_create classroom c a)
    as [created | e]; [| destruct (is_kind HttpError e); reflexivity].
  rewrite bind_lift.
  destruct (py_get created "id" PNone) as [sid | e];
    [| destruct (is_kind HttpError e); reflexivity].
  rewrite bind_log, bind_lift. cbn [db fs calls].
  destruct (google_classroom.studentSubmissions_modifyAttachments _ _ _ _ _)
    as [updated | e];
    [| destruct (is_kind HttpError e); cbn; rewrite <- app_assoc;
       reflexivity].
  rewrite bind_log, bind_lift. cbn [db fs calls].
  destruct (google_classroom.studentSubmissions_turnIn _ _ _ _)
    as [final | e];
    [| destruct (is_kind HttpError e)]; cbn; rewrite <- !app_assoc;
    reflexivity.
Qed.

Ltac dead_answer H e :=
  destruct (is_kind HttpError e); cbv beta iota in H;
  [rewrite bind_lift in H; cbn in H; discriminate H | discriminate H].

(** ** The submission route *)
Section Submission.
Import assignments.
Variable disk : os.script.
Variable rl : pdf_generator.reportlab.
Variable now : clock.
Variable drive_service : google_drive.api.
Variable classroom_service : google_classroom.api.

(** Running one service call inside a hypothesis: name its outcome and
    bring its frame along. *)
Ltac run_service H Hframe a e w1 :=
  unfold bind at 1 in H;
  match type of H with
  | (let (_, _) := ?c ?w in _) = _ =>
      let F := fresh "F" in
      pose proof (Hframe w) as F;
      destruct (c w) as [[a | e] w1] eqn:?;
      cbn [fst snd] in F;
      destruct F as (?Hdb & ?Hfs & ?made & ?Hcalls & ?Hmade)
  end.

Ltac raised H :=
  first [ discriminate H
        | injection H as <- <-; repeat split; congruence ].

(** Steps 2 to 8: the store changes only on success, by the one draft;
    the disk does not change. *)
Lemma upload_and_submit_cases draft assignment course pdf_path w r w' :
  upload_and_submit now drive_service classroom_service draft assignment
    course pdf_path w = (r, w') ->
  fs w' = fs w /\
  match r with
  | Ok s =>
      db w' = with_marked now draft (db w) /\
      submission_date s = Some (utcnow now)
  | Raise _ => db w' = db w
  end.
Proof.
  unfold upload_and_submit. intros H.
  destruct (AssignmentModel.title assignment) as [title |];
    [| raised H].
  rewrite bind_ret in H.
  run_service H (find_or_create_folder_frame drive_service
                   "OpenCoder Submissions") folder_id e w1;
    [| raised H].
  run_service H (upload_file_frame drive_service pdf_path
                   (replace_spaces title +:+ "_submission.pdf")
                   "application/pdf" folder_id) uploaded e w2;
    [| raised H].
  rewrite bind_lift in H.
  destruct (lacks_id uploaded) as [[|] | e]; [raised H | | raised H].
  rewrite bind_lift in H.
  destruct (py_getitem uploaded "id") as [drive_file_id | e]; [| raised H].
  run_service H (create_submission_frame classroom_service
                   (of_text (CourseModel.google_course_id course))
                   (of_text (AssignmentModel.google_assignment_id assignment))
                   (PDict [("driveFile", PDict [("id", drive_file_id)])]))
              submission_result e w3;
    [| raised H].
  rewrite bind_lift in H.
  destruct (lacks_id submission_result) as [[|] | e];
    [raised H | | raised H].
  rewrite bind_lift in H.
  destruct (py_getitem submission_result "id") as [submission_id | e];
    [| raised H].
  cbn in H. injection H as <- <-. cbn.
  split; [congruence |]. split; [| reflexivity].
  unfold with_marked, marked. rewrite Hdb1, Hdb0, Hdb. reflexivity.
Qed.

(** Without an uploaded file id the route stops before the first
    submission call. *)
Lemma upload_and_submit_without_file draft assignment course pdf_path w r w' :
  (forall file_path file_name folder_id w0 uploaded w1,
     google_drive.upload_file drive_service file_path file_name
       "application/pdf" folder_id w0 = (Ok uploaded, w1) ->
     lacks_id uploaded = Ok true) ->
  upload_and_submit now drive_service classroom_service draft assignment
    course pdf_path w = (r, w') ->
  (exists e, r = Raise e) /\
  exists made, calls w' = calls w ++ made /\ Forall not_submission made.
Proof.
  intros Hupload. unfold upload_and_submit. intros H.
  assert (Hnil : forall w0 : World.t,
            exists made, calls w0 = calls w0 ++ made /\
                         Forall not_submission made)
    by (intros w0; exists []; rewrite app_nil_r; auto).
  destruct (AssignmentModel.title assignment) as [title |];
    [| injection H as <- <-; eauto].
  rewrite bind_ret in H.
  run_service H (find_or_create_folder_frame drive_service
                   "OpenCoder Submissions") folder_id e w1;
    [| injection H as <- <-; eauto].
  run_service H (upload_file_frame drive_service pdf_path
                   (replace_spaces title +:+ "_submission.pdf")
                   "application/pdf" folder_id) uploaded e w2.
  - rewrite bind_lift, (Hupload _ _ _ _ _ _ Heqp0) in H.
    injection H as <- <-. split; [eauto |].
    exists (made ++ made0). split.
    + rewrite Hcalls0, Hcalls, app_assoc. reflexivity.
    + apply Forall_app. auto.
  - injection H as <- <-. split; [eauto |].
    exists (made ++ made0). split.
    + rewrite Hcalls0, Hcalls, app_assoc. reflexivity.
    + apply Forall_app. auto.
Qed.

(** Rendering touches the disk only. *)
Lemma generate_pdf_disk_only content metadata :
  disk_only (pdf_generator.generate_pdf disk rl content metadata).
Proof.
  intros w.
  unfold pdf_generator.generate_pdf, os.NamedTemporaryFile, os.remove,
    os.path_exists, pdf_generator.run, try_except, bind, lift, modify, get,
    ret, raise.
  destruct (os.named_temporary_file disk) as [name | e]; cbn; [| auto].
  destruct content as [text |]; cbn; [| auto].
  destruct (pdf_generator.flowables rl text metadata); cbn; [auto |].
  destruct (pdf_generator.build rl text metadata); cbn; [| auto].
  repeat match goal with
    | |- context [bool_decide ?Q] => destruct (bool_decide Q); cbn
    | |- context [os.remove_error ?d ?n] => destruct (os.remove_error d n); cbn
    end; auto.
Qed.

(** The [finally] block never raises, touches the disk only, and leaves no
    file at a path it was given whose removal meets no error. *)
Lemma cleanup_spec pdf_path w :
  exists w',
    cleanup disk pdf_path w = (Ok tt, w') /\
    db w' = db w /\ calls w' = calls w /\
    (forall path, pdf_path = Some path -> path <> "" ->
                  os.remove_error disk path = None -> path ∉ fs w').
Proof.
  unfold cleanup. destruct pdf_path as [path |].
  - destruct (String.eqb_spec path "") as [-> | Hne].
    + cbn. eexists; do 3 (split; [reflexivity |]).
      intros path [= <-]. contradiction.
    + replace (truthy (PStr path)) with true
        by (cbn; destruct (String.eqb_spec path ""); [contradiction | reflexivity]).
      unfold os.path_exists, os.remove, try_except, bind, get, ret, raise,
        modify.
      cbn. destruct (bool_decide (path ∈ fs w)) eqn:Hin; cbn.
      * rewrite Hin.
        destruct (os.remove_error disk path) as [msg |] eqn:Hrm; cbn.
        -- eexists; do 3 (split; [reflexivity |]).
           intros p [= <-]. congruence.
        -- eexists; do 3 (split; [reflexivity |]).
           intros p [= <-] _ _ Hstill. cbn in Hstill.
           apply elem_of_difference in Hstill as [_ Hstill].
           apply Hstill, elem_of_singleton. reflexivity.
      * eexists; do 3 (split; [reflexivity |]).
        intros p [= <-] _ _.
        apply bool_decide_eq_false in Hin. exact Hin.
  - cbn. eexists; do 3 (split; [reflexivity |]). intros path [=].
Qed.

(** What rendering returns is the name [tempfile] handed out, now on
    disk. *)
Lemma generate_pdf_returns content metadata w path w1 :
  pdf_generator.generate_pdf disk rl content metadata w = (Ok path, w1) ->
  os.named_temporary_file disk = Ok path /\ path ∈ fs w1.
Proof.
  unfold pdf_generator.generate_pdf, os.NamedTemporaryFile, os.remove,
    os.path_exists, pdf_generator.run, try_except, bind, lift, modify, get,
    ret, raise.
  destruct (os.named_temporary_file disk) as [name | e]; cbn; [| discriminate].
  destruct content as [text |]; cbn; [| discriminate].
  destruct (pdf_generator.flowables rl text metadata); cbn; [discriminate |].
  destruct (pdf_generator.build rl text metadata); cbn.
  - repeat match goal with
      | |- context [bool_decide ?Q] => destruct (bool_decide Q); cbn
      | |- context [os.remove_error ?d ?n] =>
          destruct (os.remove_error d n); cbn
      end; discriminate.
  - intros [= <- <-]. split; [reflexivity |]. cbn. set_solver.
Qed.

(** The [try] statement as a whole. *)
Lemma submission_cases draft assignment course current_user w r w' :
  submission disk rl now drive_service classroom_service draft assignment
    course current_user w = (r, w') ->
  match r with
  | Ok s =>
      db w' = with_marked now draft (db w) /\
      submission_date s = Some (utcnow now) /\
      exists path w1,
        pdf_generator.generate_pdf disk rl (DraftModel.content draft)
          (pdf_metadata now assignment current_user course) w = (Ok path, w1)
  | Raise _ => db w' = db w
  end /\
  (forall path w1,
     pdf_generator.generate_pdf disk rl (DraftModel.content draft)
       (pdf_metadata now assignment current_user course) w = (Ok path, w1) ->
     path <> "" -> os.remove_error disk path = None -> path ∉ fs w').
Proof.
  unfold submission, try_with_path. intros H.
  pose proof (generate_pdf_disk_only (DraftModel.content draft)
                (pdf_metadata now assignment current_user course) w)
    as [Hdb1 Hcalls1].
  destruct (pdf_generator.generate_pdf _ _ _ _ w) as [[path | e] w1];
    cbn [snd] in Hdb1, Hcalls1; unfold finally, try_except in H.
  - destruct (upload_and_submit _ _ _ _ _ _ _ w1) as [r2 w2] eqn:Hsteps.
    apply upload_and_submit_cases in Hsteps as [Hfs2 Hr2].
    destruct (cleanup_spec (Some path) w2) as (w3 & Hclean & Hdb3 & _ & Hgone).
    destruct r2 as [s | e]; unfold raise in H; cbv beta iota in H;
      rewrite Hclean in H; injection H as <- <-.
    + destruct Hr2 as [Hdb2 Hdate]. split.
      * split; [congruence |]. split; [exact Hdate | eauto].
      * intros path' w1' [= <- <-]. eauto.
    + split; [congruence |]. intros path' w1' [= <- <-]. eauto.
  - cbn in H. injection H as <- <-. split; [assumption |].
    intros path' w1' [=].
Qed.

Lemma submission_without_file draft assignment course current_user w r w' :
  (forall file_path file_name folder_id w0 uploaded w1,
     google_drive.upload_file drive_service file_path file_name
       "application/pdf" folder_id w0 = (Ok uploaded, w1) ->
     lacks_id uploaded = Ok true) ->
  submission disk rl now drive_service classroom_service draft assignment
    course current_user w = (r, w') ->
  (exists e, r = Raise e) /\
  exists made, calls w' = calls w ++ made /\ Forall not_submission made.
Proof.
  intros Hupload. unfold submission, try_with_path. intros H.
  pose proof (generate_pdf_disk_only (DraftModel.content draft)
                (pdf_metadata now assignment current_user course) w)
    as [Hdb1 Hcalls1].
  destruct (pdf_generator.generate_pdf _ _ _ _ w) as [[path | e] w1];
    cbn [snd] in Hdb1, Hcalls1; unfold finally, try_except in H.
  - destruct (upload_and_submit _ _ _ _ _ _ _ w1) as [r2 w2] eqn:Hsteps.
    apply (upload_and_submit_without_file _ _ _ _ _ _ _ Hupload) in Hsteps
      as [[e ->] (made & Hmade & Hquiet)].
    destruct (cleanup_spec (Some path) w2) as (w3 & Hclean & _ & Hcalls3 & _).
    unfold raise in H; cbv beta iota in H.
    rewrite Hclean in H. injection H as <- <-.
    split; [eauto |]. exists made. split; [congruence | assumption].
  - cbn in H. injection H as <- <-. split; [eauto |].
    exists []. rewrite app_nil_r. auto.
Qed.

(** The route: either a precondition rejects the request and nothing
    happens, or the [try] statement runs on the rows the queries found. *)
Lemma submit_route_cases draft_id current_user w r w' :
  submit_draft_to_classroom disk rl now drive_service classroom_service
    draft_id current_user w = (r, w') ->
  (w' = w /\ exists e, r = Raise e) \/
  (exists draft assignment course,
     first (fun d => (DraftModel.id d =? draft_id) &&
                     (DraftModel.user_id d =? UserModel.id current_user))
           (drafts (db w)) = Some draft /\
     submission disk rl now drive_service classroom_service draft assignment
       course current_user w = (r, w')).
Proof.
  unfold submit_draft_to_classroom. rewrite bind_get.
  destruct (first _ (drafts (db w))) as [draft |];
    [| intros [= <- <-]; eauto].
  destruct (bool_decide _); [intros [= <- <-]; eauto |].
  destruct (first _ (assignments (db w))) as [assignment |];
    [| intros [= <- <-]; eauto].
  destruct (first _ (courses (db w))) as [course |];
    [| intros [= <- <-]; eauto].
  destruct (negb _); [intros [= <- <-]; eauto |].
  intros H. right. eauto 6.
Qed.

Lemma py_getitem_lacks_id v x :
  py_getitem v "id" = Ok x -> lacks_id v = Ok false.
Proof.
  destruct v as [| b | z | t | l | d]; try discriminate.
  unfold py_getitem, lacks_id, py_in.
  destruct (dict_lookup "id" d) as [y |] eqn:Hd; [| discriminate].
  intros _. destruct d; [discriminate |]. reflexivity.
Qed.

(** When every step succeeds, so does the [try] statement. *)
Lemma submission_succeeds draft assignment course current_user w path w1 title :
  pdf_generator.generate_pdf disk rl (DraftModel.content draft)
    (pdf_metadata now assignment current_user course) w = (Ok path, w1) ->
  AssignmentModel.title assignment = Some title ->
  (forall file_name folder_id w0,
     path ∈ fs w0 ->
     exists uploaded file_id w2,
       google_drive.upload_file drive_service path file_name
         "application/pdf" folder_id w0 = (Ok uploaded, w2) /\
       py_getitem uploaded "id" = Ok file_id) ->
  (forall course_id coursework_id file_data w0,
     exists submission_result submission_id w2,
       google_classroom.create_submission classroom_service course_id
         coursework_id file_data w0 = (Ok submission_result, w2) /\
       py_getitem submission_result "id" = Ok submission_id) ->
  exists s w',
    submission disk rl now drive_service classroom_service draft assignment
      course current_user w = (Ok s, w').
Proof.
  intros Hrender Htitle Hupload Hsubmit.
  unfold submission, try_with_path. rewrite Hrender.
  unfold finally, try_except.
  assert (Hsteps : exists s w2,
            upload_and_submit now drive_service classroom_service draft
              assignment course path w1 = (Ok s, w2)).
  { unfold upload_and_submit. rewrite Htitle, bind_ret.
    unfold bind at 1.
    destruct (find_or_create_folder_total drive_service
                "OpenCoder Submissions" w1) as [folder_id Hfolder].
    destruct (find_or_create_folder_frame drive_service
                "OpenCoder Submissions" w1) as (_ & Hfs & _).
    destruct (google_drive.find_or_create_folder _ _ w1) as [r wf].
    cbn [fst snd] in Hfolder, Hfs. subst r.
    assert (Hin : path ∈ fs wf).
    { rewrite Hfs. eapply generate_pdf_returns. exact Hrender. }
    destruct (Hupload (replace_spaces title +:+ "_submission.pdf")
                folder_id wf Hin) as (uploaded & file_id & wu & Hup & Hid).
    destruct (Hsubmit (of_text (CourseModel.google_course_id course))
                (of_text (AssignmentModel.google_assignment_id assignment))
                (PDict [("driveFile", PDict [("id", file_id)])]) wu)
      as (submission_result & submission_id & ws & Hsub & Hsid).
    unfold bind at 1. rewrite Hup.
    rewrite bind_lift, (py_getitem_lacks_id _ _ Hid).
    rewrite bind_lift, Hid.
    unfold bind at 1. rewrite Hsub.
    rewrite bind_lift, (py_getitem_lacks_id _ _ Hsid).
    rewrite bind_lift, Hsid.
    eexists. eexists. reflexivity. }
  destruct Hsteps as (s & w2 & ->).
  destruct (cleanup_spec (Some path) w2) as (w3 & -> & _).
  eauto.
Qed.

(** A run of steps 2 to 8 that returns went through every one of them. *)
Lemma upload_and_submit_steps draft assignment course pdf_path w s w' :
  upload_and_submit now drive_service classroom_service draft assignment
    course pdf_path w = (Ok s, w') ->
  let c := of_text (CourseModel.google_course_id course) in
  let a := of_text (AssignmentModel.google_assignment_id assignment) in
  exists title folder_id w1 uploaded w2 created sid updated final,
    AssignmentModel.title assignment = Some title /\
    google_drive.find_or_create_folder drive_service "OpenCoder Submissions" w =
      (Ok folder_id, w1) /\
    google_drive.upload_file drive_service pdf_path
      (replace_spaces title +:+ "_submission.pdf") "application/pdf"
      folder_id w1 = (Ok uploaded, w2) /\
    lacks_id uploaded = Ok false /\
    py_getitem uploaded "id" = Ok (drive_file_id s) /\
    google_classroom.studentSubmissions_create classroom_service c a =
      Ok created /\
    py_get created "id" PNone = Ok sid /\
    google_classroom.studentSubmissions_modifyAttachments classroom_service
      c a sid
      (PDict [("addAttachments",
               PList [PDict [("driveFile",
                              PDict [("id", drive_file_id s)])]])]) =
      Ok updated /\
    google_classroom.studentSubmissions_turnIn classroom_service c a sid =
      Ok final /\
    lacks_id final = Ok false /\
    py_getitem final "id" = Ok (classroom_submission_id s).
Proof.
  unfold upload_and_submit. intros H. cbv zeta.
  destruct (AssignmentModel.title assignment) as [title |];
    [| discriminate H].
  rewrite bind_ret in H. unfold bind at 1 in H.
  destruct (google_drive.find_or_create_folder drive_service _ w)
    as [[folder_id | e] w1] eqn:Hfolder; [| discriminate H].
  unfold bind at 1 in H.
  destruct (google_drive.upload_file drive_service _ _ _ _ w1)
    as [[uploaded | e] w2] eqn:Hupload; [| discriminate H].
  rewrite bind_lift in H.
  destruct (lacks_id uploaded) as [[|] | e] eqn:Hlacks;
    [discriminate H | | discriminate H].
  rewrite bind_lift in H.
  destruct (py_getitem uploaded "id") as [file_id | e] eqn:Hfile;
    [| discriminate H].
  unfold bind at 1 in H. rewrite create_submission_eq in H. cbv zeta in H.
  destruct (google_classroom.studentSubmissions_create classroom_service _ _)
    as [created | e] eqn:Hcreate; [| dead_answer H e].
  destruct (py_get created "id" PNone) as [sid | e] eqn:Hsid;
    [| dead_answer H e].
  destruct (google_classroom.studentSubmissions_modifyAttachments _ _ _ _ _)
    as [updated | e] eqn:Hmodify; [| dead_answer H e].
  destruct (google_classroom.studentSubmissions_turnIn _ _ _ _)
    as [final | e] eqn:Hturn; [| dead_answer H e].
  rewrite bind_lift in H.
  destruct (lacks_id final) as [[|] | e] eqn:Hfinal;
    [discriminate H | | discriminate H].
  rewrite bind_lift in H.
  destruct (py_getitem final "id") as [submission_id | e] eqn:Hid;
    [| discriminate H].
  cbn in H. injection H as <- <-.
  cbn [drive_file_id classroom_submission_id].
  exists title, folder_id, w1, uploaded, w2, created, sid, updated, final.
  auto 12.
Qed.

(** The [try] statement returns only through its last statement, and
    whatever it raises is a 500. *)
Lemma submission_returns draft assignment course current_user w s w' :
  submission disk rl now drive_service classroom_service draft assignment
    course current_user w = (Ok s, w') ->
  exists path w1 w2,
    pdf_generator.generate_pdf disk rl (DraftModel.content draft)
      (pdf_metadata now assignment current_user course) w = (Ok path, w1) /\
    upload_and_submit now drive_service classroom_service draft assignment
      course path w1 = (Ok s, w2).
Proof.
  unfold submission, try_with_path. intros H.
  destruct (pdf_generator.generate_pdf _ _ _ _ w) as [[path | e] w1];
    unfold finally, try_except in H.
  - destruct (upload_and_submit _ _ _ _ _ _ _ w1) as [[s2 | e] w2] eqn:Hsteps;
      destruct (cleanup_spec (Some path) w2) as (w3 & Hclean & _);
      unfold raise in H; cbv beta iota in H; rewrite Hclean in H;
      [| discriminate H].
    injection H as <- <-. eauto.
  - cbn in H. discriminate H.
Qed.

Lemma submission_raises_500 draft assignment course current_user w e w' :
  submission disk rl now drive_service classroom_service draft assignment
    course current_user w = (Raise e, w') ->
  exists detail, e = HTTPException 500 detail.
Proof.
  unfold submission, try_with_path. intros H.
  destruct (pdf_generator.generate_pdf _ _ _ _ w) as [[path | e1] w1];
    unfold finally, try_except in H.
  - destruct (upload_and_submit _ _ _ _ _ _ _ w1) as [[s2 | e2] w2];
      destruct (cleanup_spec (Some path) w2) as (w3 & Hclean & _);
      unfold raise in H; cbv beta iota in H; rewrite Hclean in H;
      [discriminate H |].
    injection H as <- <-. eauto.
  - cbn in H. injection H as <- <-. eauto.
Qed.

(** A request that passes the five preconditions is the [try] statement on
    the rows found; a request that returns has passed them. *)
Lemma submit_route_eq draft_id current_user draft assignment course w :
  first (fun d => (DraftModel.id d =? draft_id) &&
                  (DraftModel.user_id d =? UserModel.id current_user))
        (drafts (db w)) = Some draft ->
  DraftModel.status draft <> Some "submitted" ->
  first (fun a => AssignmentModel.id a =? DraftModel.assignment_id draft)
        (assignments (db w)) = Some assignment ->
  first (fun c => CourseModel.id c =? AssignmentModel.course_id assignment)
        (courses (db w)) = Some course ->
  classroom.truthy_text (UserModel.google_access_token current_user) = true ->
  submit_draft_to_classroom disk rl now drive_service classroom_service
    draft_id current_user w =
  submission disk rl now drive_service classroom_service draft assignment
    course current_user w.
Proof.
  intros Hdraft Hstatus Hassignment Hcourse Htoken.
  unfold submit_draft_to_classroom.
  rewrite bind_get, Hdraft.
  rewrite bool_decide_eq_false_2 by exact Hstatus.
  rewrite Hassignment, Hcourse, Htoken. reflexivity.
Qed.

Lemma submit_route_passed draft_id current_user w s w' :
  submit_draft_to_classroom disk rl now drive_service classroom_service
    draft_id current_user w = (Ok s, w') ->
  exists draft assignment course,
    first (fun d => (DraftModel.id d =? draft_id) &&
                    (DraftModel.user_id d =? UserModel.id current_user))
          (drafts (db w)) = Some draft /\
    DraftModel.status draft <> Some "submitted" /\
    first (fun a => AssignmentModel.id a =? DraftModel.assignment_id draft)
          (assignments (db w)) = Some assignment /\
    first (fun c => CourseModel.id c =? AssignmentModel.course_id assignment)
          (courses (db w)) = Some course /\
    classroom.truthy_text (UserModel.google_access_token current_user) = true /\
    submission disk rl now drive_service classroom_service draft assignment
      course current_user w = (Ok s, w').
Proof.
  unfold submit_draft_to_classroom. rewrite bind_get.
  destruct (first _ (drafts (db w))) as [draft |]; [| discriminate].
  destruct (bool_decide _) eqn:Hstatus; [discriminate |].
  apply bool_decide_eq_false in Hstatus.
  destruct (first _ (assignments (db w))) as [assignment |] eqn:Ha;
    [| discriminate].
  destruct (first _ (courses (db w))) as [course |] eqn:Hc; [| discriminate].
  destruct (classroom.truthy_text _) eqn:Htoken; [| discriminate].
  intros H. exists draft, assignment, course. auto 8.
Qed.

(** C1, as the code has it. A submission that fails, at a precondition or
    at any step, leaves the store as it was, so the draft keeps its status
    and submission date. A submission that succeeds rewrites the draft it
    was asked for with status "submitted" and the current time as
    submission date, and changes nothing else in the store. When the
    draft's assignment has a title and every step succeeds (the PDF is
    rendered, the upload returns a descriptor with an id whenever the file
    is on disk, the three-call submission returns a result with an id),
    the submission succeeds. The rendered file is removed on the way out,
    after success and after failure alike, provided rendering returned its
    path and removing that path meets no error.

    Success is reached through every step and in no other way: a
    submission that returns has passed the five preconditions, rendered
    the PDF, found an assignment title, resolved the folder (or fallen
    back to the root), uploaded the rendered file and read the id of the
    descriptor, and made the three calls of the turn-in, each of which
    answered, the last one with the id that the response reports. Hence a
    failure of any one step -- rendering raises, the title is missing, no
    upload gives a descriptor with an id, the creation raises, the
    attachment raises, the turn-in raises or answers without an id --
    makes the request fail, and the draft found before the attempt is
    found unchanged after it. *)
Theorem submission_outcomes (draft_id : Z) (current_user : UserModel.t)
  (w : World.t) (r : result submitted) (w' : World.t) :
  submit_draft_to_classroom disk rl now drive_service classroom_service
    draft_id current_user w = (r, w') ->
  (forall e, r = Raise e -> db w' = db w) /\
  (forall s, r = Ok s ->
     exists draft,
       first (fun d => (DraftModel.id d =? draft_id) &&
                       (DraftModel.user_id d =? UserModel.id current_user))
             (drafts (db w)) = Some draft /\
       db w' = with_marked now draft (db w) /\
       first (fun d => (DraftModel.id d =? draft_id) &&
                       (DraftModel.user_id d =? UserModel.id current_user))
             (drafts (db w')) = Some (marked now draft) /\
       DraftModel.status (marked now draft) = Some "submitted" /\
       DraftModel.submission_date (marked now draft) = Some (utcnow now) /\
       submission_date s = Some (utcnow now)) /\
  (forall draft assignment course title path w1,
     first (fun d => (DraftModel.id d =? draft_id) &&
                     (DraftModel.user_id d =? UserModel.id current_user))
           (drafts (db w)) = Some draft ->
     DraftModel.status draft <> Some "submitted" ->
     first (fun a => AssignmentModel.id a =? DraftModel.assignment_id draft)
           (assignments (db w)) = Some assignment ->
     first (fun c => CourseModel.id c =? AssignmentModel.course_id assignment)
           (courses (db w)) = Some course ->
     classroom.truthy_text (UserModel.google_access_token current_user) = true ->
     AssignmentModel.title assignment = Some title ->
     pdf_generator.generate_pdf disk rl (DraftModel.content draft)
       (pdf_metadata now assignment current_user course) w = (Ok path, w1) ->
     (forall file_name folder_id w0,
        path ∈ fs w0 ->
        exists uploaded file_id w2,
          google_drive.upload_file drive_service path file_name
            "application/pdf" folder_id w0 = (Ok uploaded, w2) /\
          py_getitem uploaded "id" = Ok file_id) ->
     (forall course_id coursework_id file_data w0,
        exists submission_result submission_id w2,
          google_classroom.create_submission classroom_service course_id
            coursework_id file_data w0 = (Ok submission_result, w2) /\
          py_getitem submission_result "id" = Ok submission_id) ->
     exists s, r = Ok s) /\
  (forall draft assignment course path w1,
     submission disk rl now drive_service classroom_service draft assignment
       course current_user w = (r, w') ->
     pdf_generator.generate_pdf disk rl (DraftModel.content draft)
       (pdf_metadata now assignment current_user course) w = (Ok path, w1) ->
     path <> "" -> os.remove_error disk path = None -> path ∉ fs w') /\
  (forall s, r = Ok s ->
     exists draft assignment course path w1 title folder_id w2 uploaded w3
            created sid updated final,
       first (fun d => (DraftModel.id d =? draft_id) &&
                       (DraftModel.user_id d =? UserModel.id current_user))
             (drafts (db w)) = Some draft /\
       DraftModel.status draft <> Some "submitted" /\
       first (fun a => AssignmentModel.id a =? DraftModel.assignment_id draft)
             (assignments (db w)) = Some assignment /\
       first (fun c => CourseModel.id c =? AssignmentModel.course_id assignment)
             (courses (db w)) = Some course /\
       classroom.truthy_text (UserModel.google_access_token current_user)
         = true /\
       pdf_generator.generate_pdf disk rl (DraftModel.content draft)
         (pdf_metadata now assignment current_user course) w = (Ok path, w1) /\
       AssignmentModel.title assignment = Some title /\
       google_drive.find_or_create_folder drive_service
         "OpenCoder Submissions" w1 = (Ok folder_id, w2) /\
       google_drive.upload_file drive_service path
         (replace_spaces title +:+ "_submission.pdf") "application/pdf"
         folder_id w2 = (Ok uploaded, w3) /\
       lacks_id uploaded = Ok false /\
       py_getitem uploaded "id" = Ok (drive_file_id s) /\
       let c := of_text (CourseModel.google_course_id course) in
       let a := of_text (AssignmentModel.google_assignment_id assignment) in
       google_classroom.studentSubmissions_create classroom_service c a =
         Ok created /\
       py_get created "id" PNone = Ok sid /\
       google_classroom.studentSubmissions_modifyAttachments
         classroom_service c a sid
         (PDict [("addAttachments",
                  PList [PDict [("driveFile",
                                 PDict [("id", drive_file_id s)])]])]) =
         Ok updated /\
       google_classroom.studentSubmissions_turnIn classroom_service c a sid =
         Ok final /\
       lacks_id final = Ok false /\
       py_getitem final "id" = Ok (classroom_submission_id s)) /\
  (forall draft assignment course,
     first (fun d => (DraftModel.id d =? draft_id) &&
                     (DraftModel.user_id d =? UserModel.id current_user))
           (drafts (db w)) = Some draft ->
     first (fun a => AssignmentModel.id a =? DraftModel.assignment_id draft)
           (assignments (db w)) = Some assignment ->
     first (fun c => CourseModel.id c =? AssignmentModel.course_id assignment)
           (courses (db w)) = Some course ->
     let c := of_text (CourseModel.google_course_id course) in
     let a := of_text (AssignmentModel.google_assignment_id assignment) in
     (exists e w1,
        pdf_generator.generate_pdf disk rl (DraftModel.content draft)
          (pdf_metadata now assignment current_user course) w =
          (Raise e, w1)) \/
     AssignmentModel.title assignment = None \/
     (forall file_path file_name folder_id w0 uploaded w1,
        google_drive.upload_file drive_service file_path file_name
          "application/pdf" folder_id w0 = (Ok uploaded, w1) ->
        lacks_id uploaded <> Ok false) \/
     (exists e,
        google_classroom.studentSubmissions_create classroom_service c a =
          Raise e) \/
     (forall sid body, exists e,
        google_classroom.studentSubmissions_modifyAttachments
          classroom_service c a sid body = Raise e) \/
     (forall sid final,
        google_classroom.studentSubmissions_turnIn classroom_service c a sid =
          Ok final ->
        lacks_id final <> Ok false) ->
     (exists e, r = Raise e) /\
     db w' = db w /\
     first (fun d => (DraftModel.id d =? draft_id) &&
                     (DraftModel.user_id d =? UserModel.id current_user))
           (drafts (db w')) = Some draft).
Proof.
  assert (Hfailed : forall e, r = Raise e ->
            submit_draft_to_classroom disk rl now drive_service
              classroom_service draft_id current_user w = (r, w') ->
            db w' = db w).
  { intros e -> Hrun.
    destruct (submit_route_cases _ _ _ _ _ Hrun)
      as [[-> _] | (draft & assignment & course & _ & Htry)];
      [reflexivity |].
    apply submission_cases in Htry as [Hdb _]. exact Hdb. }
  assert (Hpassed : forall s, r = Ok s ->
            submit_draft_to_classroom disk rl now drive_service
              classroom_service draft_id current_user w = (r, w') ->
            exists draft assignment course path w1 title folder_id w2 uploaded
                   w3 created sid updated final,
              first (fun d => (DraftModel.id d =? draft_id) &&
                              (DraftModel.user_id d =? UserModel.id current_user))
                    (drafts (db w)) = Some draft /\
              DraftModel.status draft <> Some "submitted" /\
              first (fun a => AssignmentModel.id a =?
                              DraftModel.assignment_id draft)
                    (assignments (db w)) = Some assignment /\
              first (fun c => CourseModel.id c =?
                              AssignmentModel.course_id assignment)
                    (courses (db w)) = Some course /\
              classroom.truthy_text (UserModel.google_access_token current_user)
                = true /\
              pdf_generator.generate_pdf disk rl (DraftModel.content draft)
                (pdf_metadata now assignment current_user course) w =
                (Ok path, w1) /\
              AssignmentModel.title assignment = Some title /\
              google_drive.find_or_create_folder drive_service
                "OpenCoder Submissions" w1 = (Ok folder_id, w2) /\
              google_drive.upload_file drive_service path
                (replace_spaces title +:+ "_submission.pdf") "application/pdf"
                folder_id w2 = (Ok uploaded, w3) /\
              lacks_id uploaded = Ok false /\
              py_getitem uploaded "id" = Ok (drive_file_id s) /\
              google_classroom.studentSubmissions_create classroom_service
                (of_text (CourseModel.google_course_id course))
                (of_text (AssignmentModel.google_assignment_id assignment)) =
                Ok created /\
              py_get created "id" PNone = Ok sid /\
              google_classroom.studentSubmissions_modifyAttachments
                classroom_service
                (of_text (CourseModel.google_course_id course))
                (of_text (AssignmentModel.google_assignment_id assignment)) sid
                (PDict [("addAttachments",
                         PList [PDict [("driveFile",
                                        PDict [("id", drive_file_id s)])]])]) =
                Ok updated /\
              google_classroom.studentSubmissions_turnIn classroom_service
                (of_text (CourseModel.google_course_id course))
                (of_text (AssignmentModel.google_assignment_id assignment)) sid =
                Ok final /\
              lacks_id final = Ok false /\
              py_getitem final "id" = Ok (classroom_submission_id s)).
  { intros s -> Hrun.
    apply submit_route_passed in Hrun
      as (draft & assignment & course & Hdraft & Hstatus & Hassignment &
          Hcourse & Htoken & Htry).
    apply submission_returns in Htry as (path & w1 & w4 & Hrender & Hsteps).
    apply upload_and_submit_steps in Hsteps
      as (title & folder_id & w2 & uploaded & w3 & created & sid & updated &
          final & Hsteps).
    exists draft, assignment, course, path, w1, title, folder_id, w2,
      uploaded, w3, created, sid, updated, final.
    repeat (split; [assumption |]). exact Hsteps. }
  intros Hrun. split; [| split; [| split; [| split; [| split]]]].
  5: { intros s Hs. exact (Hpassed s Hs Hrun). }
  5: { intros draft assignment course Hdraft Hassignment Hcourse.
       cbv zeta. intros Hfails.
       destruct r as [s | e].
       - exfalso.
         destruct (Hpassed s eq_refl Hrun)
           as (draft' & assignment' & course' & path & w1 & title & folder_id &
               w2 & uploaded & w3 & created & sid & updated & final &
               Hdraft' & _ & Hassignment' & Hcourse' & _ & Hrender & Htitle &
               _ & Hupload & Hlacks & _ & Hcreate & _ & Hmodify & Hturn &
               Hfinal & _).
         rewrite Hdraft in Hdraft'. injection Hdraft' as <-.
         rewrite Hassignment in Hassignment'. injection Hassignment' as <-.
         rewrite Hcourse in Hcourse'. injection Hcourse' as <-.
         destruct Hfails as [(e & w0 & Hraise) | [Hnone | [Hno | [[e He] |
                             [Hno | Hno]]]]].
         + congruence.
         + congruence.
         + exact (Hno _ _ _ _ _ _ Hupload Hlacks).
         + congruence.
         + destruct (Hno sid
                       (PDict [("addAttachments",
                                PList [PDict [("driveFile",
                                               PDict [("id", drive_file_id s)])]])]))
             as [e He].
           congruence.
         + exact (Hno _ _ Hturn Hfinal).
       - pose proof (Hfailed e eq_refl Hrun) as Hdb.
         split; [eauto |]. split; [exact Hdb |].
         rewrite Hdb. exact Hdraft. }
  - intros e ->.
    destruct (submit_route_cases _ _ _ _ _ Hrun)
      as [[-> _] | (draft & assignment & course & _ & Htry)];
      [reflexivity |].
    apply submission_cases in Htry as [Hdb _]. exact Hdb.
  - intros s ->.
    destruct (submit_route_cases _ _ _ _ _ Hrun)
      as [[_ [e [=]]] | (draft & assignment & course & Hdraft & Htry)].
    apply submission_cases in Htry as [(Hdb & Hdate & _) _].
    exists draft. split; [exact Hdraft |]. split; [exact Hdb |].
    split; [| auto].
    rewrite Hdb. cbn [with_marked drafts].
    apply (first_commit_row _ _ _ draft); [exact Hdraft | reflexivity |].
    apply first_some_elem in Hdraft as [_ Hmatch]. exact Hmatch.
  - intros draft assignment course title path w1
      Hdraft Hstatus Hassignment Hcourse Htoken Htitle Hrender Hupload Hsubmit.
    destruct (submission_succeeds draft assignment course current_user w
                path w1 title Hrender Htitle Hupload Hsubmit)
      as (s & w2 & Htry).
    unfold submit_draft_to_classroom in Hrun.
    rewrite bind_get, Hdraft in Hrun.
    rewrite bool_decide_eq_false_2 in Hrun by exact Hstatus.
    rewrite Hassignment, Hcourse, Htoken in Hrun. cbn [negb] in Hrun.
    exists s. congruence.
  - intros draft assignment course path w1 Htry Hrender Hne Hrm.
    apply submission_cases in Htry as [_ Hgone]. eauto.
Qed.

(** C2. If every upload either fails or returns a descriptor without an
    "id", the submission ends in a failure, none of the three submission
    calls (create, modify attachments, turn in) is among the remote calls
    it made, and the store, hence the draft, is as before. *)
Theorem upload_failure_aborts (draft_id : Z) (current_user : UserModel.t)
  (w : World.t) :
  (forall file_path file_name folder_id w0 uploaded w1,
     google_drive.upload_file drive_service file_path file_name
       "application/pdf" folder_id w0 = (Ok uploaded, w1) ->
     lacks_id uploaded = Ok true) ->
  exists e w' made,
    submit_draft_to_classroom disk rl now drive_service classroom_service
      draft_id current_user w = (Raise e, w') /\
    calls w' = calls w ++ made /\
    Forall (fun c => is_submission_call c = false) made /\
    db w' = db w.
Proof.
  intros Hupload.
  destruct (submit_draft_to_classroom _ _ _ _ _ draft_id current_user w)
    as [r w'] eqn:Hrun.
  destruct (submit_route_cases _ _ _ _ _ Hrun)
    as [[-> [e ->]] | (draft & assignment & course & _ & Htry)].
  - exists e, w, []. rewrite app_nil_r. auto.
  - pose proof (submission_cases _ _ _ _ _ _ _ Htry) as [Hdb _].
    apply (submission_without_file _ _ _ _ _ _ _ Hupload) in Htry
      as [[e ->] (made & Hcalls & Hmade)].
    exists e, w', made. auto.
Qed.

End Submission.

(** C1 as stated fails where the removal of the rendered file is denied:
    every step succeeds and the draft is marked, yet the file is still on
    disk after the submission. *)
Lemma submission_leaves_file_counterexample :
  let run :=
    assignments.submit_draft_to_classroom Examples.stubborn_disk
      Examples.reportlab_fine Examples.noon Examples.willing_drive
      Examples.willing_classroom 5 Examples.student Examples.essay_ready in
  (exists s, fst run = Ok s) /\
  DraftModel.status <$>
    first (fun d => DraftModel.id d =? 5) (drafts (db (snd run)))
    = Some (Some "submitted") /\
  ~ (Examples.temp_pdf ∉ fs (snd run)).
Proof.
  cbv zeta. split; [| split].
  - eexists. vm_compute. reflexivity.
  - vm_compute. reflexivity.
  - intros Hgone. apply Hgone.
    apply (bool_decide_unpack _). vm_compute. exact I.
Qed.

Lemma submission_outcomes_witness :
  let run :=
    assignments.submit_draft_to_classroom Examples.plain_disk
      Examples.reportlab_fine Examples.noon Examples.willing_drive
      Examples.willing_classroom 5 Examples.student Examples.essay_ready in
  let refused :=
    assignments.submit_draft_to_classroom Examples.plain_disk
      Examples.reportlab_fine Examples.noon Examples.willing_drive
      Examples.late_classroom 5 Examples.student Examples.essay_ready in
  (exists s draft,
     fst run = Ok s /\
     db (snd run) = with_marked Examples.noon draft (db Examples.essay_ready) /\
     DraftModel.status (marked Examples.noon draft) = Some "submitted") /\
  (Examples.temp_pdf ∉ fs (snd run)) /\
  (exists e, fst refused = Raise e) /\
  db (snd refused) = db Examples.essay_ready /\
  first (fun d => (DraftModel.id d =? 5) &&
                  (DraftModel.user_id d =? UserModel.id Examples.student))
        (drafts (db (snd refused))) = Some Examples.essay_draft.
Proof.
  cbv zeta.
  destruct (submission_outcomes Examples.plain_disk
              Examples.reportlab_fine Examples.noon Examples.willing_drive
              Examples.late_classroom 5 Examples.student
              Examples.essay_ready _ _ (surjective_pairing _))
    as (_ & _ & _ & _ & _ & Hfails).
  specialize (Hfails Examples.essay_draft Examples.stored_essay
                Examples.algebra eq_refl eq_refl eq_refl).
  cbv zeta in Hfails.
  assert (Hrefused :
            forall sid final,
              google_classroom.studentSubmissions_turnIn
                Examples.late_classroom
                (of_text (CourseModel.google_course_id Examples.algebra))
                (of_text (AssignmentModel.google_assignment_id
                            Examples.stored_essay)) sid = Ok final ->
              assignments.lacks_id final <> Ok false)
    by (intros sid final Hturn; discriminate Hturn).
  specialize (Hfails (or_intror (or_intror (or_intror (or_intror
                        (or_intror Hrefused)))))).
  pose (rendered :=
          World.mk (db Examples.essay_ready) ({[Examples.temp_pdf]} ∪ ∅) []).
  destruct (submission_outcomes Examples.plain_disk
              Examples.reportlab_fine Examples.noon Examples.willing_drive
              Examples.willing_classroom 5 Examples.student
              Examples.essay_ready _ _ (surjective_pairing _))
    as (_ & Hsuccess & Hsteps & Hclean & _).
  split; [| split; [| exact Hfails]].
  - destruct (Hsteps Examples.essay_draft Examples.stored_essay
                Examples.algebra "Essay" Examples.temp_pdf rendered
                eq_refl ltac:(discriminate) eq_refl eq_refl eq_refl eq_refl
                eq_refl) as [s Hs].
    + intros file_name folder_id w0 Hin.
      unfold google_drive.upload_file, try_except, os.path_exists, bind, get,
        ret, raise, lift, log, modify.
      cbn. rewrite (bool_decide_eq_true_2 _ Hin). cbn.
      eexists. eexists. eexists. split; reflexivity.
    + intros course_id coursework_id file_data w0.
      eexists. eexists. eexists. split; reflexivity.
    + destruct (Hsuccess s Hs) as (draft & _ & Hdb & _ & Hstatus & _).
      exists s, draft. auto.
  - apply (Hclean Examples.essay_draft Examples.stored_essay Examples.algebra
             Examples.temp_pdf rendered).
    + vm_compute. reflexivity.
    + reflexivity.
    + discriminate.
    + reflexivity.
Defined.

Lemma upload_failure_aborts_witness :
  exists e w' made,
    assignments.submit_draft_to_classroom Examples.plain_disk
      Examples.reportlab_fine Examples.noon Examples.refusing_drive
      Examples.willing_classroom 5 Examples.student Examples.essay_ready
      = (Raise e, w') /\
    calls w' = calls Examples.essay_ready ++ made /\
    Forall (fun c => is_submission_call c = false) made /\
    db w' = db Examples.essay_ready.
Proof.
  apply (upload_failure_aborts Examples.plain_disk Examples.reportlab_fine
           Examples.noon Examples.refusing_drive Examples.willing_classroom
           5 Examples.student Examples.essay_ready).
  intros file_path file_name folder_id w0 uploaded w1.
  unfold google_drive.upload_file, try_except, os.path_exists, bind, get, ret,
    raise, lift, log, modify.
  cbn.
  destruct (bool_decide (file_path ∈ fs w0)); cbn; intros [= <- _]; reflexivity.
Defined.

(** ** Reconciliation run twice *)

(** *** Create-or-update loops in general

    A loop body that either leaves the list of natural keys alone or
    appends the key of its record, provided that key is not there yet, and
    that leaves the key of its record in the list whenever it returns. *)
Section Twice.
Context {X R K : Type}.
Variable step : X -> M World.t R.
Variable keys : World.t -> list K.
Variable key : X -> option K.
Variable Inv : World.t -> Prop.

Hypothesis step_inv : forall x w, Inv w -> Inv (snd (step x w)).
Hypothesis step_keys : forall x w,
  Inv w ->
  keys (snd (step x w)) = keys w \/
  exists k, key x = Some k /\ (k ∉ keys w) /\
            keys (snd (step x w)) = keys w ++ [k].
Hypothesis step_ok : forall x w a w',
  Inv w -> step x w = (Ok a, w') -> exists k, key x = Some k /\ k ∈ keys w'.

Lemma for_each_inv xs : forall w, Inv w -> Inv (snd (for_each step xs w)).
Proof.
  induction xs as [| x xs IH]; intros w Hw; [exact Hw |].
  rewrite for_each_cons.
  pose proof (step_inv x w Hw) as Hx.
  destruct (step x w) as [[a | e] w1]; cbn [snd] in *; [| exact Hx].
  specialize (IH w1 Hx).
  destruct (for_each step xs w1) as [rs w2]. exact IH.
Qed.

Lemma for_each_keys_grow xs : forall w,
  Inv w -> exists more, keys (snd (for_each step xs w)) = keys w ++ more.
Proof.
  induction xs as [| x xs IH]; intros w Hw.
  - exists []. rewrite app_nil_r. reflexivity.
  - rewrite for_each_cons.
    pose proof (step_inv x w Hw) as Hx.
    pose proof (step_keys x w Hw) as Hk.
    destruct (step x w) as [[a | e] w1]; cbn [snd] in *.
    + destruct (IH w1 Hx) as [more Hmore].
      destruct (for_each step xs w1) as [rs w2]. cbn [snd] in *.
      destruct Hk as [Hk | (k & _ & _ & Hk)]; rewrite Hmore, Hk.
      * eauto.
      * rewrite <- app_assoc. eauto.
    + destruct Hk as [Hk | (k & _ & _ & Hk)]; rewrite Hk.
      * exists []. rewrite app_nil_r. reflexivity.
      * eauto.
Qed.

Lemma for_each_keys_nodup xs : forall w,
  Inv w -> NoDup (keys w) -> NoDup (keys (snd (for_each step xs w))).
Proof.
  induction xs as [| x xs IH]; intros w Hw Hnd; [exact Hnd |].
  rewrite for_each_cons.
  pose proof (step_inv x w Hw) as Hx.
  pose proof (step_keys x w Hw) as Hk.
  assert (Hnd1 : NoDup (keys (snd (step x w)))).
  { destruct Hk as [-> | (k & _ & Hfresh & ->)]; [exact Hnd |].
    apply NoDup_app. split; [exact Hnd |]. split.
    - intros k' Hin Hk'. apply list_elem_of_singleton in Hk' as ->. auto.
    - apply NoDup_singleton. }
  destruct (step x w) as [[a | e] w1]; cbn [snd] in *; [| exact Hnd1].
  specialize (IH w1 Hx Hnd1).
  destruct (for_each step xs w1) as [rs w2]. exact IH.
Qed.

(** After a run that completes, the key of every record is stored. *)
Lemma for_each_covers xs : forall w rs w',
  Inv w -> for_each step xs w = (Ok rs, w') ->
  forall x, x ∈ xs -> exists k, key x = Some k /\ k ∈ keys w'.
Proof.
  induction xs as [| x xs IH]; intros w rs w' Hw Hrun y Hy.
  - apply elem_of_nil in Hy. contradiction.
  - rewrite for_each_cons in Hrun.
    pose proof (step_inv x w Hw) as Hx.
    destruct (step x w) as [[a | e] w1] eqn:Hstep; [| discriminate].
    cbn [snd] in Hx.
    destruct (for_each step xs w1) as [[rs1 | e] w2] eqn:Hrest;
      [| discriminate].
    injection Hrun as <- <-.
    apply elem_of_cons in Hy as [-> | Hy].
    + destruct (step_ok _ _ _ _ Hw Hstep) as (k & Hkey & Hin).
      exists k. split; [exact Hkey |].
      destruct (for_each_keys_grow xs w1 Hx) as [more Hmore].
      rewrite Hrest in Hmore. cbn [snd] in Hmore. rewrite Hmore.
      apply elem_of_app. auto.
    + eapply IH; eassumption.
Qed.

(** A run over records whose keys are all stored adds none. *)
Lemma for_each_stable xs : forall w,
  Inv w ->
  (forall x, x ∈ xs -> exists k, key x = Some k /\ k ∈ keys w) ->
  keys (snd (for_each step xs w)) = keys w.
Proof.
  induction xs as [| x xs IH]; intros w Hw Hstored; [reflexivity |].
  rewrite for_each_cons.
  pose proof (step_inv x w Hw) as Hx.
  assert (Hsame : keys (snd (step x w)) = keys w).
  { destruct (step_keys x w Hw) as [Hk | (k & Hkey & Hfresh & _)];
      [exact Hk |].
    destruct (Hstored x) as (k' & Hkey' & Hin); [apply elem_of_cons; auto |].
    congruence. }
  destruct (step x w) as [[a | e] w1]; cbn [snd] in *; [| exact Hsame].
  assert (Hrest : keys (snd (for_each step xs w1)) = keys w1).
  { apply IH; [exact Hx |]. intros y Hy. rewrite Hsame.
    apply Hstored. apply elem_of_cons. auto. }
  destruct (for_each step xs w1) as [rs w2]. cbn [snd] in *. congruence.
Qed.

(** Running the loop a second time, from a state with the keys the
    first run left: no key is added, and if the keys were distinct to
    begin with they still are, with the key of every record of the batch
    among them. *)
Lemma for_each_twice xs w rs w' w'' :
  Inv w -> for_each step xs w = (Ok rs, w') ->
  Inv w'' -> keys w'' = keys w' ->
  keys (snd (for_each step xs w'')) = keys w' /\
  (NoDup (keys w) ->
   NoDup (keys w') /\
   forall x, x ∈ xs -> exists k, key x = Some k /\ k ∈ keys w').
Proof.
  intros Hw Hrun Hw'' Hsame.
  pose proof (for_each_covers xs w rs w' Hw Hrun) as Hcov.
  split.
  - rewrite <- Hsame. apply for_each_stable; [exact Hw'' |].
    rewrite Hsame. exact Hcov.
  - intros Hnd. split; [| exact Hcov].
    pose proof (for_each_keys_nodup xs w Hw Hnd) as H.
    rewrite Hrun in H. exact H.
Qed.

End Twice.

(** *** Tables *)

Lemma next_id_fresh {A} (pk : A -> Z) (rows : list A) :
  next_id pk rows ∉ pk <$> rows.
Proof.
  assert (Hmax : forall r, r ∈ rows -> pk r <= foldr Z.max 0 (map pk rows)).
  { induction rows as [| r0 rows IH]; intros r Hr.
    - apply elem_of_nil in Hr. contradiction.
    - cbn. apply elem_of_cons in Hr as [-> | Hr]; [lia |].
      specialize (IH r Hr). lia. }
  intros Hin. apply list_elem_of_fmap in Hin as (r & Heq & Hr).
  specialize (Hmax r Hr). unfold next_id in Heq. lia.
Qed.

Lemma commit_row_ids {A} (pk : A -> Z) (row : A) (rows : list A) :
  pk <$> commit_row pk row rows = pk <$> rows.
Proof.
  unfold commit_row. induction rows as [| r rows IH]; cbn; [reflexivity |].
  f_equal; [| exact IH]. destruct (decide (pk r = pk row)); congruence.
Qed.

(** With distinct primary keys, a commit rewrites the loaded row only. *)
Lemma commit_row_keys {A K} (pk : A -> Z) (key : A -> K) (row old : A)
  (rows : list A) :
  NoDup (pk <$> rows) -> old ∈ rows -> pk row = pk old -> key row = key old ->
  key <$> commit_row pk row rows = key <$> rows.
Proof.
  unfold commit_row. intros Hnd Hold Hpk Hkey.
  induction rows as [| r rows IH]; cbn; [reflexivity |].
  cbn in Hnd. apply NoDup_cons in Hnd as [Hr Hnd].
  apply elem_of_cons in Hold as [-> | Hold].
  - rewrite decide_True by congruence. f_equal; [exact Hkey |].
    clear IH. induction rows as [| r' rows IH]; cbn; [reflexivity |].
    rewrite decide_False.
    + f_equal. apply IH.
      * intros Hin. apply Hr. cbn. apply elem_of_cons. auto.
      * cbn in Hnd. apply NoDup_cons in Hnd. tauto.
    + intros Heq. apply Hr. cbn. apply elem_of_cons. left. congruence.
  - rewrite decide_False.
    + f_equal. apply IH; assumption.
    + intros Heq. apply Hr. apply list_elem_of_fmap. exists old.
      split; [congruence | exact Hold].
Qed.

(** *** Course sync run twice *)
Section CoursesTwice.
Import classroom.
Variable current_user : UserModel.t.

Local Abbreviation body := (get_courses_body current_user).
Local Abbreviation stored g :=
  (first (fun c => sql_eq (CourseModel.google_course_id c) g &&
                   (CourseModel.user_id c =? UserModel.id current_user))).

Lemma course_matches g c :
  sql_eq (CourseModel.google_course_id c) g &&
  (CourseModel.user_id c =? UserModel.id current_user) = true <->
  course_key c = (g, UserModel.id current_user).
Proof.
  unfold sql_eq, course_key. rewrite andb_true_iff, bool_decide_eq_true, Z.eqb_eq.
  split; [intros [-> ->]; reflexivity | intros [= -> ->]; auto].
Qed.

(** One iteration: it raises and changes nothing, or it appends a row under
    the key of the record, which no stored row had, or it rewrites the
    stored row of that key. *)
Lemma get_courses_body_cases gc w r w' :
  body gc w = (r, w') ->
  (w' = w /\ exists e, r = Raise e) \/
  (exists g row,
     remote_course_key current_user gc = Some (g, UserModel.id current_user) /\
     r = Ok row /\
     course_key row = (g, UserModel.id current_user) /\
     ((stored g (courses (db w)) = None /\
       courses (db w') = courses (db w) ++ [row] /\
       CourseModel.id row = next_id CourseModel.id (courses (db w))) \/
      (exists old,
         stored g (courses (db w)) = Some old /\
         courses (db w') = commit_row CourseModel.id row (courses (db w)) /\
         CourseModel.id row = CourseModel.id old))).
Proof.
  unfold get_courses_body, remote_course_key.
  rewrite bind_lift.
  destruct (py_getitem gc "id") as [v | e]; cbn [rbind];
    [| intros [= <- <-]; eauto].
  rewrite bind_lift.
  destruct (to_text v) as [g | e]; [| intros [= <- <-]; eauto].
  rewrite bind_get.
  destruct (stored g (courses (db w))) as [old |] eqn:Hstored.
  - pose proof (first_some_elem _ _ _ Hstored) as [_ Hmatch].
    apply course_matches in Hmatch.
    repeat (rewrite bind_lift;
            match goal with
            | |- context [get_text gc ?k ?d] =>
                destruct (get_text gc k d); [| intros [= <- <-]; eauto]
            end).
    intros [= <- <-]. right. eexists g, _.
    split; [reflexivity |]. split; [reflexivity |].
    split; [exact Hmatch |]. right. exists old. auto.
  - repeat (rewrite bind_lift;
            match goal with
            | |- context [get_text gc ?k ?d] =>
                destruct (get_text gc k d); [| intros [= <- <-]; eauto]
            end).
    intros [= <- <-]. right. eexists g, _.
    split; [reflexivity |]. split; [reflexivity |].
    split; [reflexivity |]. left. auto.
Qed.

Lemma get_courses_body_inv gc w :
  NoDup (CourseModel.id <$> courses (db w)) ->
  NoDup (CourseModel.id <$> courses (db (snd (body gc w)))).
Proof.
  intros Hnd. destruct (body gc w) as [r w'] eqn:Hrun. cbn [snd].
  apply get_courses_body_cases in Hrun
    as [[-> _] | (g & row & _ & _ & _ &
                  [(_ & -> & Hid) | (old & _ & -> & _)])].
  - exact Hnd.
  - rewrite fmap_app. apply NoDup_app. split; [exact Hnd |]. split.
    + intros k Hk Hk'. apply list_elem_of_singleton in Hk'. subst k.
      rewrite Hid in Hk. exact (next_id_fresh _ _ Hk).
    + apply NoDup_singleton.
  - rewrite commit_row_ids. exact Hnd.
Qed.

Lemma get_courses_body_keys gc w :
  NoDup (CourseModel.id <$> courses (db w)) ->
  course_key <$> courses (db (snd (body gc w))) = course_key <$> courses (db w) \/
  exists k, remote_course_key current_user gc = Some k /\
            (k ∉ course_key <$> courses (db w)) /\
            course_key <$> courses (db (snd (body gc w))) =
              (course_key <$> courses (db w)) ++ [k].
Proof.
  intros Hnd. destruct (body gc w) as [r w'] eqn:Hrun. cbn [snd].
  apply get_courses_body_cases in Hrun
    as [[-> _] | (g & row & Hkey & _ & Hrow &
                  [(Hnone & -> & _) | (old & Hold & -> & Hid)])].
  - left. reflexivity.
  - right. exists (g, UserModel.id current_user).
    split; [exact Hkey |]. split.
    + intros Hin. apply list_elem_of_fmap in Hin as (c & Hc & Hin).
      pose proof (first_none_elem _ _ c Hnone Hin) as Hno.
      symmetry in Hc. apply course_matches in Hc. congruence.
    + rewrite fmap_app. cbn. rewrite Hrow. reflexivity.
  - left. pose proof (first_some_elem _ _ _ Hold) as [Hin Hmatch].
    apply course_matches in Hmatch.
    apply (commit_row_keys _ _ _ old); [exact Hnd | exact Hin | exact Hid |].
    congruence.
Qed.

Lemma get_courses_body_ok gc w row w' :
  NoDup (CourseModel.id <$> courses (db w)) ->
  body gc w = (Ok row, w') ->
  exists k, remote_course_key current_user gc = Some k /\
            k ∈ course_key <$> courses (db w').
Proof.
  intros Hnd Hrun.
  pose proof (get_courses_body_keys gc w Hnd) as Hkeys.
  rewrite Hrun in Hkeys. cbn [snd] in Hkeys.
  apply get_courses_body_cases in Hrun
    as [[_ [e [=]]] | (g & row' & Hkey & _ & Hrow &
                       [(Hnone & Hrows & _) | (old & Hold & Hrows & Hid)])];
    exists (g, UserModel.id current_user); (split; [exact Hkey |]).
  - rewrite Hrows, fmap_app. apply elem_of_app. right.
    cbn. rewrite Hrow. apply list_elem_of_singleton. reflexivity.
  - pose proof (first_some_elem _ _ _ Hold) as [Hin Hmatch].
    apply course_matches in Hmatch.
    destruct Hkeys as [-> | (k & _ & _ & ->)].
    + apply list_elem_of_fmap. exists old. auto.
    + apply elem_of_app. left. apply list_elem_of_fmap. exists old. auto.
Qed.

End CoursesTwice.

Lemma google_classroom_get_courses_eq classroom w :
  google_classroom.get_courses classroom w =
    (fetched_courses classroom,
     World.mk (db w) (fs w) (calls w ++ [ClassroomCoursesList])).
Proof.
  unfold google_classroom.get_courses, try_except, fetched_courses.
  rewrite bind_log, bind_lift.
  destruct (google_classroom.courses_list classroom) as [results | e];
    cbn [rbind].
  - unfold lift. destruct (py_get results "courses" (PList [])) as [v | e];
      [reflexivity |].
    destruct (is_kind HttpError e); reflexivity.
  - destruct (is_kind HttpError e); reflexivity.
Qed.

(** The route, unless it rejects the request or the listing fails, is
    the loop over the listed courses. *)
Lemma get_courses_loop classroom_service current_user w r w' :
  classroom.get_courses classroom_service current_user w = (Ok r, w') ->
  exists listed google_courses,
    fetched_courses classroom_service = Ok listed /\
    py_iter listed = Ok google_courses /\
    forall w0,
      classroom.get_courses classroom_service current_user w0 =
      for_each (classroom.get_courses_body current_user) google_courses
        (World.mk (db w0) (fs w0) (calls w0 ++ [ClassroomCoursesList])).
Proof.
  unfold classroom.get_courses.
  destruct (negb _); [discriminate |].
  unfold bind at 1. rewrite google_classroom_get_courses_eq.
  destruct (fetched_courses classroom_service) as [listed | e] eqn:Hlisted;
    [| discriminate].
  rewrite bind_lift.
  destruct (py_iter listed) as [google_courses | e] eqn:Hiter;
    [| discriminate].
  intros _. exists listed, google_courses.
  split; [reflexivity |]. split; [exact Hiter |].
  intros w0. unfold bind at 1.
  rewrite google_classroom_get_courses_eq, Hlisted, bind_lift, Hiter.
  reflexivity.
Qed.

(** X1. Course sync is idempotent: a second [GET /courses] with the same
    remote answer, after a first one that completed, stores no further
    row; and if no two stored courses shared a natural key before, none
    do afterwards, while every remote course has its row. *)
Lemma get_courses_twice classroom_service current_user w rows w1 :
  NoDup (CourseModel.id <$> courses (db w)) ->
  classroom.get_courses classroom_service current_user w = (Ok rows, w1) ->
  let w2 := snd (classroom.get_courses classroom_service current_user w1) in
  course_key <$> courses (db w2) = course_key <$> courses (db w1) /\
  length (courses (db w2)) = length (courses (db w1)) /\
  (NoDup (course_key <$> courses (db w)) ->
   NoDup (course_key <$> courses (db w2)) /\
   forall listed google_courses google_course,
     fetched_courses classroom_service = Ok listed ->
     py_iter listed = Ok google_courses ->
     google_course ∈ google_courses ->
     exists k, remote_course_key current_user google_course = Some k /\
               k ∈ course_key <$> courses (db w2)).
Proof.
  intros Hids Hrun. cbv zeta.
  destruct (get_courses_loop _ _ _ _ _ Hrun)
    as (listed & google_courses & Hlisted & Hiter & Hloop).
  rewrite Hloop in Hrun. rewrite (Hloop w1).
  destruct (for_each_twice (classroom.get_courses_body current_user)
              (fun w0 => course_key <$> courses (db w0))
              (remote_course_key current_user)
              (fun w0 => NoDup (CourseModel.id <$> courses (db w0)))
              (get_courses_body_inv current_user)
              (get_courses_body_keys current_user)
              (get_courses_body_ok current_user)
              google_courses
              (World.mk (db w) (fs w) (calls w ++ [ClassroomCoursesList]))
              rows w1
              (World.mk (db w1) (fs w1) (calls w1 ++ [ClassroomCoursesList]))
              Hids Hrun) as [Hsame Hunique].
  - pose proof (for_each_inv (classroom.get_courses_body current_user)
                  (fun w0 => NoDup (CourseModel.id <$> courses (db w0)))
                  (get_courses_body_inv current_user)
                  google_courses
                  (World.mk (db w) (fs w) (calls w ++ [ClassroomCoursesList]))
                  Hids) as H.
    rewrite Hrun in H. exact H.
  - reflexivity.
  - split; [exact Hsame |]. split.
    + apply (f_equal length) in Hsame. rewrite !length_fmap in Hsame.
      exact Hsame.
    + intros Hnd. destruct (Hunique Hnd) as [Hnd1 Hcov].
      rewrite Hsame. split; [exact Hnd1 |].
      intros listed' google_courses' google_course Hl Hi Hin.
      rewrite Hlisted in Hl. injection Hl as <-.
      rewrite Hiter in Hi. injection Hi as <-.
      apply Hcov. exact Hin.
Qed.

(** *** What material sync leaves alone *)
Section Keeps.
Context {B : Type} (view : Db -> B).

Lemma keeps_ret {A} (a : A) : keeps view (ret a).
Proof. intros w. reflexivity. Qed.

Lemma keeps_raise {A} e : keeps view (@raise World.t A e).
Proof. intros w. reflexivity. Qed.

Lemma keeps_lift {A} (r : result A) : keeps view (lift r).
Proof. intros w. reflexivity. Qed.

Lemma keeps_get : keeps view get.
Proof. intros w. reflexivity. Qed.

Lemma keeps_bind {A C} (c : M World.t A) (k : A -> M World.t C) :
  keeps view c -> (forall a, keeps view (k a)) -> keeps view (bind c k).
Proof.
  intros Hc Hk w. unfold bind. specialize (Hc w).
  destruct (c w) as [[a | e] w1]; cbn [snd] in *; [| exact Hc].
  rewrite Hk. exact Hc.
Qed.

Lemma keeps_if {A} (b : bool) (c1 c2 : M World.t A) :
  keeps view c1 -> keeps view c2 -> keeps view (if b then c1 else c2).
Proof. destruct b; auto. Qed.

Lemma keeps_for_each {X R} (body : X -> M World.t R) xs :
  (forall x, keeps view (body x)) -> keeps view (for_each body xs).
Proof.
  intros Hbody. induction xs as [| x xs IH]; cbn [for_each].
  - apply keeps_ret.
  - apply keeps_bind; [apply Hbody |]. intros r.
    apply keeps_bind; [exact IH |]. intros rs. apply keeps_ret.
Qed.

Lemma keeps_download_file drive file_id :
  keeps view (google_drive.download_file drive file_id).
Proof.
  intros w. rewrite download_file_eq. cbv zeta.
  match goal with
  | |- context [match ?r with _ => _ end] => destruct r as [[rq |] | e]
  end; reflexivity.
Qed.

Lemma keeps_with_materials f :
  (forall d rows,
     view (mkDb (courses d) (assignments d) rows (drafts d)) = view d) ->
  keeps view (with_materials f).
Proof. intros H w. cbn. apply H. Qed.

End Keeps.

Ltac keeps_step :=
  first
    [ apply keeps_bind; [| intros ?]
    | apply keeps_if
    | apply keeps_ret
    | apply keeps_raise
    | apply keeps_lift
    | apply keeps_get
    | apply keeps_download_file
    | apply keeps_with_materials; reflexivity
    | match goal with
      | |- keeps _ (match ?x with _ => _ end) => destruct x
      end ].

Lemma keeps_process_materials {B} (view : Db -> B) utf_8 drive_service
  google_materials assignment_id :
  (forall d rows,
     view (mkDb (courses d) (assignments d) rows (drafts d)) = view d) ->
  keeps view (classroom.process_materials utf_8 drive_service google_materials
                assignment_id).
Proof.
  intros Hview. unfold classroom.process_materials.
  apply keeps_bind; [apply keeps_lift |]. intros xs.
  apply keeps_bind; [| intros ?; apply keeps_ret].
  apply keeps_for_each. intros material.
  unfold classroom.process_materials_body.
  apply keeps_bind.
  - unfold classroom.classify. repeat keeps_step.
  - intros c. unfold classroom.save_material.
    repeat first [ apply keeps_with_materials; exact Hview | keeps_step ].
Qed.

(** *** The due date that names no calendar date *)
Section InvalidDueDate.
Import classroom.
Variable utf_8 : list Byte.byte -> result string.
Variable drive_service : google_drive.api.
Variable db_course : CourseModel.t.
Variable current_user : UserModel.t.

Local Abbreviation body :=
  (get_assignments_body utf_8 drive_service db_course current_user).

(** Create-or-update with no parsed due date, for a title and a
    description that are text where present. *)
Lemma save_assignment_without_due (ga : dict)
  (google_id otitle odescription : option string) stored w :
  dict_lookup "title" ga = PStr <$> otitle ->
  dict_lookup "description" ga = PStr <$> odescription ->
  let row :=
    synced_without_due db_course current_user google_id otitle odescription
      stored (assignments (db w)) in
  save_assignment db_course current_user (PDict ga) google_id stored None w =
    (Ok row,
     with_assignment_rows (saved_rows stored row (assignments (db w))) w).
Proof.
  intros Htitle Hdesc. cbv zeta. unfold save_assignment.
  destruct stored as [old |];
    rewrite bind_lift, (get_text_text _ _ _ _ Htitle);
    rewrite bind_lift, (get_text_text _ _ _ _ Hdesc);
    [| rewrite bind_get]; reflexivity.
Qed.

(** What follows the save in one iteration leaves the assignments table
    alone. *)
Lemma after_save_keeps_assignments (ga : pyval) (row : AssignmentModel.t) :
  keeps assignments
    (let* has_materials := lift (py_in "materials" ga) in
     let* _ :=
       (if has_materials : bool then
          let* google_materials := lift (py_getitem ga "materials") in
          process_materials utf_8 drive_service google_materials
            (AssignmentModel.id row)
        else ret tt) in
     ret row).
Proof.
  repeat first [ apply keeps_process_materials; reflexivity | keeps_step ].
Qed.

(** C4. A coursework record whose "dueDate" and "dueTime" hold integer
    components. If the components fit a C int and name no calendar date
    (February 30, say), the parse gives a null due date without an
    exception and the record is processed exactly as the same record
    without its due date would be. For a record with a text id and a
    title and description that are text where present, the assignments
    table then holds the row of the record: appended with a null due date
    when the assignment is new, written over the stored row with the
    stored due date kept (not nulled) when the assignment is already
    stored; without materials the iteration returns that row and the loop
    goes on with the records that follow, ending as they make it end.
    If a component does not fit a C int, the constructor raises an
    [OverflowError], which the parse does not catch: the iteration raises
    it with the store untouched and the loop stops there. *)
Theorem invalid_due_date_is_null (ga due_info time_info : dict)
  (oy om od oh omi : option Z) :
  dict_lookup "dueDate" ga = Some (PDict due_info) ->
  dict_lookup "dueTime" ga = Some (PDict time_info) ->
  dict_lookup "year" due_info = PInt <$> oy ->
  dict_lookup "month" due_info = PInt <$> om ->
  dict_lookup "day" due_info = PInt <$> od ->
  dict_lookup "hours" time_info = PInt <$> oh ->
  dict_lookup "minutes" time_info = PInt <$> omi ->
  (fit_c_int (default 1970 oy) (default 1 om) (default 1 od)
             (default 0 oh) (default 0 omi) = true ->
   valid_datetime (default 1970 oy) (default 1 om) (default 1 od)
                  (default 0 oh) (default 0 omi) = false ->
   parse_due_date (PDict ga) = Ok None /\
   (forall w, body (PDict ga) w = body (PDict (without_due ga)) w) /\
   (forall id_value (google_id otitle odescription : option string) w,
      dict_lookup "id" ga = Some id_value ->
      to_text id_value = Ok google_id ->
      dict_lookup "title" ga = PStr <$> otitle ->
      dict_lookup "description" ga = PStr <$> odescription ->
      let stored :=
        existing_assignment db_course google_id (assignments (db w)) in
      let row :=
        synced_without_due db_course current_user google_id otitle
          odescription stored (assignments (db w)) in
      let run := body (PDict ga) w in
      assignments (db (snd run)) = saved_rows stored row (assignments (db w)) /\
      (stored = None ->
       AssignmentModel.due_date row = None /\
       assignments (db (snd run)) = assignments (db w) ++ [row]) /\
      (forall old, stored = Some old ->
         AssignmentModel.due_date row = AssignmentModel.due_date old /\
         AssignmentModel.id row = AssignmentModel.id old) /\
      (dict_lookup "materials" ga = None ->
       run = (Ok row,
              with_assignment_rows
                (saved_rows stored row (assignments (db w))) w) /\
       forall rest,
         snd (for_each body (PDict ga :: rest) w) =
           snd (for_each body rest (snd run)) /\
         outcome (fst (for_each body (PDict ga :: rest) w)) =
           outcome (fst (for_each body rest (snd run)))))) /\
  (fit_c_int (default 1970 oy) (default 1 om) (default 1 od)
             (default 0 oh) (default 0 omi) = false ->
   exists msg,
     parse_due_date (PDict ga) = Raise (Exn OverflowError msg) /\
     forall id_value google_id rest w,
       dict_lookup "id" ga = Some id_value ->
       to_text id_value = Ok google_id ->
       for_each body (PDict ga :: rest) w = (Raise (Exn OverflowError msg), w)).
Proof.
  intros Hd Ht Hy Hm Hday Hh Hmi. split.
  - intros Hfit Hinvalid.
    assert (Hparse : parse_due_date (PDict ga) = Ok None).
    { rewrite (parse_due_date_components ga due_info time_info oy om od oh omi)
        by assumption.
      unfold composed_date. rewrite Hinvalid. reflexivity. }
    assert (Hbody : forall w,
              body (PDict ga) w = body (PDict (without_due ga)) w).
    { intros w. symmetry. apply get_assignments_body_ext.
      - intros k H1 H2. apply dict_lookup_without_due; assumption.
      - rewrite Hparse. unfold parse_due_date, py_in, without_due.
        rewrite dict_lookup_without_ne by discriminate.
        rewrite dict_lookup_without_eq. reflexivity. }
    split; [exact Hparse |]. split; [exact Hbody |].
    intros id_value google_id otitle odescription w Hid Htext Htitle Hdesc.
    cbv zeta.
    assert (Hrun :
              body (PDict ga) w =
              (let* has_materials := lift (py_in "materials" (PDict ga)) in
               let* _ :=
                 (if has_materials : bool then
                    let* google_materials :=
                      lift (py_getitem (PDict ga) "materials") in
                    process_materials utf_8 drive_service google_materials
                      (AssignmentModel.id
                         (synced_without_due db_course current_user google_id
                            otitle odescription
                            (existing_assignment db_course google_id
                               (assignments (db w)))
                            (assignments (db w))))
                  else ret tt) in
               ret (synced_without_due db_course current_user google_id otitle
                      odescription
                      (existing_assignment db_course google_id
                         (assignments (db w)))
                      (assignments (db w))))
                (with_assignment_rows
                   (saved_rows
                      (existing_assignment db_course google_id
                         (assignments (db w)))
                      (synced_without_due db_course current_user google_id
                         otitle odescription
                         (existing_assignment db_course google_id
                            (assignments (db w)))
                         (assignments (db w)))
                      (assignments (db w))) w)).
    { unfold get_assignments_body.
      rewrite bind_lift, (py_getitem_present _ _ _ Hid).
      rewrite bind_lift, Htext, bind_get, bind_lift, Hparse.
      unfold bind at 1.
      rewrite (save_assignment_without_due ga google_id otitle odescription
                 _ w Htitle Hdesc).
      reflexivity. }
    assert (Hstore :
              assignments (db (snd (body (PDict ga) w))) =
              saved_rows
                (existing_assignment db_course google_id (assignments (db w)))
                (synced_without_due db_course current_user google_id otitle
                   odescription
                   (existing_assignment db_course google_id
                      (assignments (db w)))
                   (assignments (db w)))
                (assignments (db w))).
    { rewrite Hrun. rewrite after_save_keeps_assignments. reflexivity. }
    split; [exact Hstore |]. split; [| split].
    + intros Hnone. rewrite Hstore, Hnone. auto.
    + intros old Hold. rewrite Hold. auto.
    + intros Hmat.
      assert (Hok :
                body (PDict ga) w =
                (Ok (synced_without_due db_course current_user google_id otitle
                       odescription
                       (existing_assignment db_course google_id
                          (assignments (db w)))
                       (assignments (db w))),
                 with_assignment_rows
                   (saved_rows
                      (existing_assignment db_course google_id
                         (assignments (db w)))
                      (synced_without_due db_course current_user google_id
                         otitle odescription
                         (existing_assignment db_course google_id
                            (assignments (db w)))
                         (assignments (db w)))
                      (assignments (db w))) w)).
      { rewrite Hrun, bind_lift, (py_in_absent _ _ Hmat). reflexivity. }
      split; [exact Hok |].
      intros rest. rewrite for_each_cons, Hok. cbn [snd].
      destruct (for_each body rest _) as [[rows | e] w2]; auto.
  - intros Hfit.
    destruct (parse_due_date_overflow ga due_info time_info oy om od oh omi)
      as [msg Hparse]; try assumption.
    exists msg. split; [exact Hparse |].
    intros id_value google_id rest w Hid Htext.
    rewrite for_each_cons. unfold get_assignments_body.
    rewrite bind_lift, (py_getitem_present _ _ _ Hid).
    rewrite bind_lift, Htext, bind_get, bind_lift, Hparse.
    reflexivity.
Qed.

End InvalidDueDate.

Lemma invalid_due_date_is_null_witness :
  classroom.parse_due_date (PDict Examples.february_30) = Ok None /\
  (let run :=
     classroom.get_assignments_body Examples.seven_bit Examples.notes_drive
       Examples.algebra Examples.student (PDict Examples.february_30)
       Examples.empty_world in
   fst run =
     Ok (AssignmentModel.mk 1 (Some "cw3") (Some "Essay") (Some "") None 1 1) /\
   AssignmentModel.due_date <$> assignments (db (snd run)) = [None]) /\
  (let run :=
     classroom.get_assignments_body Examples.seven_bit Examples.notes_drive
       Examples.algebra Examples.student (PDict Examples.february_30_again)
       Examples.essay_world in
   AssignmentModel.due_date <$> assignments (db (snd run)) =
     [Some (Datetime 2024 5 17 9 0)]).
Proof.
  destruct (invalid_due_date_is_null Examples.seven_bit Examples.notes_drive
              Examples.algebra Examples.student Examples.february_30
              [("year", PInt 2024); ("month", PInt 2); ("day", PInt 30)]
              [("hours", PInt 23); ("minutes", PInt 59)]
              (Some 2024) (Some 2) (Some 30) (Some 23) (Some 59)
              eq_refl eq_refl eq_refl eq_refl eq_refl eq_refl eq_refl)
    as [Hnew _].
  destruct (Hnew eq_refl eq_refl) as (Hparse & _ & Hsaved).
  destruct (invalid_due_date_is_null Examples.seven_bit Examples.notes_drive
              Examples.algebra Examples.student Examples.february_30_again
              [("year", PInt 2024); ("month", PInt 2); ("day", PInt 30)]
              [("hours", PInt 23); ("minutes", PInt 59)]
              (Some 2024) (Some 2) (Some 30) (Some 23) (Some 59)
              eq_refl eq_refl eq_refl eq_refl eq_refl eq_refl eq_refl)
    as [Hagain _].
  destruct (Hagain eq_refl eq_refl) as (_ & _ & Hkept).
  split; [exact Hparse |]. split.
  - destruct (Hsaved (PStr "cw3") (Some "cw3") (Some "Essay") None
                Examples.empty_world eq_refl eq_refl eq_refl eq_refl)
      as (_ & _ & _ & Hrun).
    destruct (Hrun eq_refl) as [-> _]. split; reflexivity.
  - destruct (Hkept (PStr "cw1") (Some "cw1") (Some "Essay, second version")
                None Examples.essay_world eq_refl eq_refl eq_refl eq_refl)
      as (Hstore & _).
    cbv zeta. rewrite Hstore. reflexivity.
Defined.

(** The claim as the specification words it fails on an assignment that is
    already stored with a due date, whose record now names February 30:
    the stored due date stays, it is not replaced by null. It fails as
    well on a record whose year does not fit a C int: the sync of that
    record raises. *)
Lemma invalid_due_date_is_null_counterexample :
  let again :=
    classroom.get_assignments_body Examples.seven_bit Examples.notes_drive
      Examples.algebra Examples.student (PDict Examples.february_30_again)
      Examples.essay_world in
  let overflow :=
    classroom.get_assignments_body Examples.seven_bit Examples.notes_drive
      Examples.algebra Examples.student (PDict Examples.year_overflow)
      Examples.essay_world in
  valid_datetime 2024 2 30 23 59 = false /\
  (exists row, fst again = Ok row /\
               AssignmentModel.due_date row = Some (Datetime 2024 5 17 9 0)) /\
  AssignmentModel.due_date <$> assignments (db (snd again)) =
    [Some (Datetime 2024 5 17 9 0)] /\
  fst overflow =
    Raise (Exn OverflowError "signed integer is greater than maximum").
Proof.
  cbv zeta. split; [reflexivity |]. split; [| split].
  - eexists. split; vm_compute; reflexivity.
  - vm_compute. reflexivity.
  - vm_compute. reflexivity.
Qed.

(** *** Assignment sync run twice *)
Section AssignmentsTwice.
Import classroom.
Variable utf_8 : list Byte.byte -> result string.
Variable drive_service : google_drive.api.
Variable db_course : CourseModel.t.
Variable current_user : UserModel.t.

Local Abbreviation body :=
  (get_assignments_body utf_8 drive_service db_course current_user).

Lemma assignment_matches g a :
  sql_eq (AssignmentModel.google_assignment_id a) g &&
  (AssignmentModel.course_id a =? CourseModel.id db_course) = true <->
  assignment_key a = (g, CourseModel.id db_course).
Proof.
  unfold sql_eq, assignment_key.
  rewrite andb_true_iff, bool_decide_eq_true, Z.eqb_eq.
  split; [intros [-> ->]; reflexivity | intros [= -> ->]; auto].
Qed.

(** The create-or-update of one assignment: it raises and changes nothing,
    or appends a row under the looked-up key, or rewrites the stored row. *)
Lemma save_assignment_cases ga g stored due_date w r w' :
  save_assignment db_course current_user ga g stored due_date w = (r, w') ->
  (w' = w /\ exists e, r = Raise e) \/
  (exists row,
     r = Ok row /\
     courses (db w') = courses (db w) /\
     match stored with
     | None =>
         assignment_key row = (g, CourseModel.id db_course) /\
         assignments (db w') = assignments (db w) ++ [row] /\
         AssignmentModel.id row = next_id AssignmentModel.id (assignments (db w))
     | Some old =>
         assignment_key row = assignment_key old /\
         assignments (db w') =
           commit_row AssignmentModel.id row (assignments (db w)) /\
         AssignmentModel.id row = AssignmentModel.id old
     end).
Proof.
  unfold save_assignment. destruct stored as [old |];
    repeat (rewrite bind_lift;
            match goal with
            | |- context [get_text ga ?k ?d] =>
                destruct (get_text ga k d); [| intros [= <- <-]; eauto]
            end);
    intros [= <- <-]; right; eexists; (split; [reflexivity |]); cbn; auto.
Qed.

(** One iteration, as far as the assignments table goes. *)
Lemma get_assignments_body_cases ga w r w' :
  body ga w = (r, w') ->
  courses (db w') = courses (db w) /\
  ((assignments (db w') = assignments (db w) /\ exists e, r = Raise e) \/
   (exists g row,
      remote_assignment_key db_course ga = Some (g, CourseModel.id db_course) /\
      assignment_key row = (g, CourseModel.id db_course) /\
      ((existing_assignment db_course g (assignments (db w)) = None /\
        assignments (db w') = assignments (db w) ++ [row] /\
        AssignmentModel.id row =
          next_id AssignmentModel.id (assignments (db w))) \/
       (exists old,
          existing_assignment db_course g (assignments (db w)) = Some old /\
          assignments (db w') =
            commit_row AssignmentModel.id row (assignments (db w)) /\
          AssignmentModel.id row = AssignmentModel.id old)))).
Proof.
  unfold get_assignments_body, remote_assignment_key.
  rewrite bind_lift.
  destruct (py_getitem ga "id") as [v | e]; cbn [rbind];
    [| intros [= <- <-]; eauto].
  rewrite bind_lift.
  destruct (to_text v) as [g | e]; [| intros [= <- <-]; eauto].
  rewrite bind_get, bind_lift.
  destruct (parse_due_date ga) as [due_date | e]; [| intros [= <- <-]; eauto].
  unfold bind at 1.
  destruct (save_assignment _ _ _ _ _ _ w) as [[saved | e] w1] eqn:Hsave.
  2: { apply save_assignment_cases in Hsave
         as [[-> _] | (row & [=] & _)].
       intros [= <- <-]. eauto. }
  intros Hrest.
  assert (Hkept : assignments (db w') = assignments (db w1) /\
                  courses (db w') = courses (db w1)).
  { match type of Hrest with
    | ?tail w1 = _ =>
        assert (Htail : forall (B : Type) (view : Db -> B),
                  (forall d rows,
                     view (mkDb (courses d) (assignments d) rows (drafts d))
                     = view d) ->
                  keeps view tail)
    end.
    { intros B view Hview.
      apply keeps_bind; [apply keeps_lift |]. intros has.
      apply keeps_bind; [| intros ?; apply keeps_ret].
      destruct has; [| apply keeps_ret].
      apply keeps_bind; [apply keeps_lift |]. intros google_materials.
      apply keeps_process_materials. exact Hview. }
    pose proof (Htail _ assignments (fun _ _ => eq_refl) w1) as Ha.
    pose proof (Htail _ courses (fun _ _ => eq_refl) w1) as Hc.
    rewrite Hrest in Ha, Hc. auto. }
  destruct Hkept as [Ha Hc].
  apply save_assignment_cases in Hsave
    as [[_ [e [=]]] | (row & [= <-] & Hcourses & Hcase)].
  split; [congruence |]. right. exists g, saved.
  split; [reflexivity |].
  destruct (existing_assignment db_course g (assignments (db w)))
    as [old |] eqn:Hold.
  - destruct Hcase as (Hkey & Hrows & Hid).
    pose proof (first_some_elem _ _ _ Hold) as [_ Hmatch].
    apply assignment_matches in Hmatch.
    split; [congruence |]. right. exists old.
    split; [reflexivity |]. split; [congruence | exact Hid].
  - destruct Hcase as (Hkey & Hrows & Hid).
    split; [exact Hkey |]. left.
    split; [reflexivity |]. split; [congruence | exact Hid].
Qed.

Lemma get_assignments_body_inv ga w :
  NoDup (AssignmentModel.id <$> assignments (db w)) ->
  NoDup (AssignmentModel.id <$> assignments (db (snd (body ga w)))).
Proof.
  intros Hnd. destruct (body ga w) as [r w'] eqn:Hrun. cbn [snd].
  apply get_assignments_body_cases in Hrun
    as [_ [[-> _] | (g & row & _ & _ &
                     [(_ & -> & Hid) | (old & _ & -> & _)])]].
  - exact Hnd.
  - rewrite fmap_app. apply NoDup_app. split; [exact Hnd |]. split.
    + intros k Hk Hk'. apply list_elem_of_singleton in Hk'. subst k.
      rewrite Hid in Hk. exact (next_id_fresh _ _ Hk).
    + apply NoDup_singleton.
  - rewrite commit_row_ids. exact Hnd.
Qed.

Lemma get_assignments_body_keys ga w :
  NoDup (AssignmentModel.id <$> assignments (db w)) ->
  assignment_key <$> assignments (db (snd (body ga w))) =
    assignment_key <$> assignments (db w) \/
  exists k, remote_assignment_key db_course ga = Some k /\
            (k ∉ assignment_key <$> assignments (db w)) /\
            assignment_key <$> assignments (db (snd (body ga w))) =
              (assignment_key <$> assignments (db w)) ++ [k].
Proof.
  intros Hnd. destruct (body ga w) as [r w'] eqn:Hrun. cbn [snd].
  apply get_assignments_body_cases in Hrun
    as [_ [[-> _] | (g & row & Hkey & Hrow &
                     [(Hnone & -> & _) | (old & Hold & -> & Hid)])]].
  - left. reflexivity.
  - right. exists (g, CourseModel.id db_course).
    split; [exact Hkey |]. split.
    + intros Hin. apply list_elem_of_fmap in Hin as (a & Ha & Hin).
      pose proof (first_none_elem _ _ a Hnone Hin) as Hno.
      symmetry in Ha. apply assignment_matches in Ha. congruence.
    + rewrite fmap_app. cbn. rewrite Hrow. reflexivity.
  - left. pose proof (first_some_elem _ _ _ Hold) as [Hin Hmatch].
    apply assignment_matches in Hmatch.
    apply (commit_row_keys _ _ _ old); [exact Hnd | exact Hin | exact Hid |].
    congruence.
Qed.

Lemma get_assignments_body_ok ga w row w' :
  NoDup (AssignmentModel.id <$> assignments (db w)) ->
  body ga w = (Ok row, w') ->
  exists k, remote_assignment_key db_course ga = Some k /\
            k ∈ assignment_key <$> assignments (db w').
Proof.
  intros Hnd Hrun.
  pose proof (get_assignments_body_keys ga w Hnd) as Hkeys.
  rewrite Hrun in Hkeys. cbn [snd] in Hkeys.
  apply get_assignments_body_cases in Hrun
    as [_ [[_ [e [=]]] | (g & row' & Hkey & Hrow &
                          [(Hnone & Hrows & _) | (old & Hold & Hrows & Hid)])]];
    exists (g, CourseModel.id db_course); (split; [exact Hkey |]).
  - rewrite Hrows, fmap_app. apply elem_of_app. right.
    cbn. rewrite Hrow. apply list_elem_of_singleton. reflexivity.
  - pose proof (first_some_elem _ _ _ Hold) as [Hin Hmatch].
    apply assignment_matches in Hmatch.
    destruct Hkeys as [-> | (k & _ & _ & ->)].
    + apply list_elem_of_fmap. exists old. auto.
    + apply elem_of_app. left. apply list_elem_of_fmap. exists old. auto.
Qed.

Lemma get_assignments_body_courses ga : keeps courses (body ga).
Proof.
  intros w. destruct (body ga w) as [r w'] eqn:Hrun. cbn [snd].
  apply get_assignments_body_cases in Hrun as [Hc _]. exact Hc.
Qed.

End AssignmentsTwice.

Lemma google_classroom_get_assignments_eq classroom course_id w :
  google_classroom.get_assignments classroom course_id w =
    (fetched_coursework classroom course_id,
     World.mk (db w) (fs w) (calls w ++ [ClassroomCourseWorkList course_id])).
Proof.
  unfold google_classroom.get_assignments, try_except, fetched_coursework.
  rewrite bind_log, bind_lift.
  destruct (google_classroom.courseWork_list classroom course_id)
    as [results | e]; cbn [rbind].
  - unfold lift. destruct (py_get results "courseWork" (PList [])) as [v | e];
      [reflexivity |].
    destruct (is_kind HttpError e); reflexivity.
  - destruct (is_kind HttpError e); reflexivity.
Qed.

(** The route, unless it rejects the request or the listing fails, is the
    loop over the listed coursework of the course it found. *)
Lemma get_assignments_loop utf_8 drive_service classroom_service course_id
  current_user w r w' :
  classroom.get_assignments utf_8 drive_service classroom_service course_id
    current_user w = (Ok r, w') ->
  exists db_course listed google_assignments,
    fetched_coursework classroom_service
      (of_text (CourseModel.google_course_id db_course)) = Ok listed /\
    py_iter listed = Ok google_assignments /\
    forall w0,
      courses (db w0) = courses (db w) ->
      classroom.get_assignments utf_8 drive_service classroom_service course_id
        current_user w0 =
      for_each (classroom.get_assignments_body utf_8 drive_service db_course
                  current_user) google_assignments
        (World.mk (db w0) (fs w0)
           (calls w0 ++ [ClassroomCourseWorkList
                           (of_text (CourseModel.google_course_id db_course))])).
Proof.
  unfold classroom.get_assignments.
  destruct (negb _); [discriminate |].
  rewrite bind_get.
  destruct (first _ (courses (db w))) as [db_course |] eqn:Hcourse;
    [| discriminate].
  unfold bind at 1. rewrite google_classroom_get_assignments_eq.
  destruct (fetched_coursework classroom_service _) as [listed | e] eqn:Hlisted;
    [| discriminate].
  rewrite bind_lift.
  destruct (py_iter listed) as [google_assignments | e] eqn:Hiter;
    [| discriminate].
  intros _. exists db_course, listed, google_assignments.
  split; [exact Hlisted |]. split; [exact Hiter |].
  intros w0 Hsame. rewrite bind_get, Hsame, Hcourse.
  unfold bind at 1.
  rewrite google_classroom_get_assignments_eq, Hlisted, bind_lift, Hiter.
  reflexivity.
Qed.

(** X2. Assignment sync is idempotent on the assignments table: a second sync
    of a course with the same remote answer, after a first one that
    completed, stores no further assignment; and if no two stored
    assignments shared a natural key before, none do afterwards. *)
Lemma get_assignments_twice utf_8 drive_service classroom_service course_id
  current_user w rows w1 :
  NoDup (AssignmentModel.id <$> assignments (db w)) ->
  classroom.get_assignments utf_8 drive_service classroom_service course_id
    current_user w = (Ok rows, w1) ->
  let w2 :=
    snd (classroom.get_assignments utf_8 drive_service classroom_service
           course_id current_user w1) in
  assignment_key <$> assignments (db w2) =
    assignment_key <$> assignments (db w1) /\
  length (assignments (db w2)) = length (assignments (db w1)) /\
  (NoDup (assignment_key <$> assignments (db w)) ->
   NoDup (assignment_key <$> assignments (db w2))).
Proof.
  intros Hids Hrun. cbv zeta.
  destruct (get_assignments_loop _ _ _ _ _ _ _ _ Hrun)
    as (db_course & listed & google_assignments & Hlisted & Hiter & Hloop).
  rewrite (Hloop w eq_refl) in Hrun.
  assert (Hcourses : courses (db w1) = courses (db w)).
  { pose proof (keeps_for_each courses
                  (classroom.get_assignments_body utf_8 drive_service db_course
                     current_user) google_assignments
                  (get_assignments_body_courses utf_8 drive_service db_course
                     current_user)
                  (World.mk (db w) (fs w)
                     (calls w ++ [ClassroomCourseWorkList
                        (of_text (CourseModel.google_course_id db_course))])))
      as H.
    rewrite Hrun in H. exact H. }
  rewrite (Hloop w1 Hcourses).
  destruct (for_each_twice
              (classroom.get_assignments_body utf_8 drive_service db_course
                 current_user)
              (fun w0 => assignment_key <$> assignments (db w0))
              (remote_assignment_key db_course)
              (fun w0 => NoDup (AssignmentModel.id <$> assignments (db w0)))
              (get_assignments_body_inv utf_8 drive_service db_course
                 current_user)
              (get_assignments_body_keys utf_8 drive_service db_course
                 current_user)
              (get_assignments_body_ok utf_8 drive_service db_course
                 current_user)
              google_assignments
              (World.mk (db w) (fs w)
                 (calls w ++ [ClassroomCourseWorkList
                    (of_text (CourseModel.google_course_id db_course))]))
              rows w1
              (World.mk (db w1) (fs w1)
                 (calls w1 ++ [ClassroomCourseWorkList
                    (of_text (CourseModel.google_course_id db_course))]))
              Hids Hrun) as [Hsame Hunique].
  - pose proof (for_each_inv
                  (classroom.get_assignments_body utf_8 drive_service db_course
                     current_user)
                  (fun w0 => NoDup (AssignmentModel.id <$> assignments (db w0)))
                  (get_assignments_body_inv utf_8 drive_service db_course
                     current_user)
                  google_assignments
                  (World.mk (db w) (fs w)
                     (calls w ++ [ClassroomCourseWorkList
                        (of_text (CourseModel.google_course_id db_course))]))
                  Hids) as H.
    rewrite Hrun in H. exact H.
  - reflexivity.
  - split; [exact Hsame |]. split.
    + apply (f_equal length) in Hsame. rewrite !length_fmap in Hsame.
      exact Hsame.
    + intros Hnd. rewrite Hsame. apply Hunique. exact Hnd.
Qed.

(** *** Material sync run twice *)

(** A material classified without a remote id, or without a url, is never
    matched with a stored row, whatever the table holds. *)
Lemma existing_material_needs_both assignment_id by_id by_url rows :
  by_id = None \/ by_url = None ->
  classroom.existing_material assignment_id by_id by_url rows = None.
Proof.
  intros H. unfold classroom.existing_material. apply first_none. intros r.
  destruct H as [-> | ->]; cbn; [reflexivity |].
  apply andb_false_r.
Qed.

(** C3, at a list of materials the claim covers: one link, keyed by its
    url. The first sync of the list stores one row; the second sync of the
    same list against the resulting state stores a second row with the
    same url for the same assignment, instead of updating the first. *)
Theorem material_sync_twice_duplicates_link :
  let sync := classroom.process_materials Examples.seven_bit Examples.notes_drive
                Examples.reading_list 1 in
  let once := snd (sync Examples.empty_world) in
  let twice := snd (sync once) in
  let row := fun id =>
    MaterialModel.mk id None (Some "Reading") (Some "link")
      (Some Examples.reading_url) None None 1 in
  fst (sync Examples.empty_world) = Ok tt /\
  fst (sync once) = Ok tt /\
  materials (db once) = [row 1] /\
  materials (db twice) = [row 1; row 2].
Proof.
  cbv zeta. repeat split; vm_compute; reflexivity.
Qed.

(* ===================================================================== *)
(** * Part III. Further properties of the same code                       *)
(* ===================================================================== *)

(** ** Sync routes run twice, on concrete remote answers *)

Lemma get_courses_twice_witness :
  let once :=
    classroom.get_courses Examples.two_courses Examples.student
      Examples.empty_world in
  let twice :=
    classroom.get_courses Examples.two_courses Examples.student (snd once) in
  length (courses (db (snd once))) = 2%nat /\
  length (courses (db (snd twice))) = length (courses (db (snd once))) /\
  NoDup (course_key <$> courses (db (snd twice))).
Proof.
  cbv zeta.
  assert (Hrun : exists rows,
            classroom.get_courses Examples.two_courses Examples.student
              Examples.empty_world =
            (Ok rows,
             snd (classroom.get_courses Examples.two_courses Examples.student
                    Examples.empty_world)))
    by (eexists; vm_compute; reflexivity).
  destruct Hrun as [rows Hrun].
  destruct (get_courses_twice Examples.two_courses Examples.student
              Examples.empty_world rows _ NoDup_nil_2 Hrun)
    as (_ & Hlength & Hunique).
  split; [vm_compute; reflexivity |]. split; [exact Hlength |].
  apply Hunique. apply NoDup_nil_2.
Defined.

Lemma get_assignments_twice_witness :
  let sync :=
    classroom.get_assignments Examples.seven_bit Examples.notes_drive
      Examples.two_courses 1 Examples.student in
  let once := sync Examples.algebra_world in
  let twice := sync (snd once) in
  length (assignments (db (snd once))) = 1%nat /\
  length (assignments (db (snd twice))) = length (assignments (db (snd once))).
Proof.
  cbv zeta.
  assert (Hrun : exists rows,
            classroom.get_assignments Examples.seven_bit Examples.notes_drive
              Examples.two_courses 1 Examples.student Examples.algebra_world =
            (Ok rows,
             snd (classroom.get_assignments Examples.seven_bit
                    Examples.notes_drive Examples.two_courses 1
                    Examples.student Examples.algebra_world)))
    by (eexists; vm_compute; reflexivity).
  destruct Hrun as [rows Hrun].
  destruct (get_assignments_twice Examples.seven_bit Examples.notes_drive
              Examples.two_courses 1 Examples.student Examples.algebra_world
              rows _ NoDup_nil_2 Hrun)
    as (_ & Hlength & _).
  split; [vm_compute; reflexivity | exact Hlength].
Defined.

(** ** Tables under a loop of create-or-update steps *)

Lemma pk_unique {A} (pk : A -> Z) (rows : list A) r r' :
  NoDup (pk <$> rows) -> r ∈ rows -> r' ∈ rows -> pk r = pk r' -> r = r'.
Proof.
  induction rows as [| x rows IH]; cbn; intros Hnd Hr Hr' Heq.
  - apply elem_of_nil in Hr. contradiction.
  - apply NoDup_cons in Hnd as [Hx Hnd].
    apply elem_of_cons in Hr as [-> | Hr];
      apply elem_of_cons in Hr' as [-> | Hr'].
    + reflexivity.
    + exfalso. apply Hx. apply list_elem_of_fmap. eauto.
    + exfalso. apply Hx. apply list_elem_of_fmap. eauto.
    + apply IH; assumption.
Qed.

(** A commit that rewrites a row outside a selection leaves the selection
    as it was. *)
Lemma commit_row_filter {A} (pk : A -> Z) (p : A -> bool) (row old : A)
  (rows : list A) :
  NoDup (pk <$> rows) -> old ∈ rows -> pk row = pk old ->
  p old = false -> p row = false ->
  List.filter p (commit_row pk row rows) = List.filter p rows.
Proof.
  intros Hnd Hold Hpk Hpold Hprow. unfold commit_row.
  assert (Hall : forall r, r ∈ rows -> pk r = pk row -> r = old).
  { intros r Hr Heq. apply (pk_unique pk rows); congruence. }
  clear Hnd Hold. induction rows as [| r rows IH]; cbn; [reflexivity |].
  assert (IH' : List.filter p
                  (map (fun r0 => if decide (pk r0 = pk row) then row else r0)
                     rows) = List.filter p rows).
  { apply IH. intros r0 Hr0. apply Hall. apply elem_of_cons. auto. }
  destruct (decide (pk r = pk row)) as [Heq | Hne].
  - rewrite (Hall r (list_elem_of_here _ _) Heq), Hprow, Hpold. exact IH'.
  - rewrite IH'. reflexivity.
Qed.

Lemma for_each_prefix {X R K} (step : X -> M World.t R)
  (keys : World.t -> list K) (Inv : World.t -> Prop) :
  (forall x w, Inv w -> Inv (snd (step x w))) ->
  (forall x w, Inv w -> exists more, keys (snd (step x w)) = keys w ++ more) ->
  forall xs w, Inv w ->
    exists more, keys (snd (for_each step xs w)) = keys w ++ more.
Proof.
  intros Hinv Hstep. induction xs as [| x xs IH]; intros w Hw.
  - exists []. rewrite app_nil_r. reflexivity.
  - rewrite for_each_cons.
    pose proof (Hinv x w Hw) as Hx.
    destruct (Hstep x w Hw) as [more Hmore].
    destruct (step x w) as [[a | e] w1]; cbn [snd] in *; [| eauto].
    destruct (IH w1 Hx) as [more' Hmore'].
    destruct (for_each step xs w1) as [rs w2]. cbn [snd] in *.
    rewrite Hmore', Hmore, <- app_assoc. eauto.
Qed.

(** What each completed step returns stands in one relation to its
    record; so do the results of the loop, in the order of the records. *)
Lemma for_each_forall2 {X R} (step : X -> M World.t R) (Q : X -> R -> Prop) :
  (forall x w r w', step x w = (Ok r, w') -> Q x r) ->
  forall xs w rs w', for_each step xs w = (Ok rs, w') -> Forall2 Q xs rs.
Proof.
  intros Hstep. induction xs as [| x xs IH]; intros w rs w'.
  - intros [= <- <-]. constructor.
  - rewrite for_each_cons.
    destruct (step x w) as [[r | e] w1] eqn:Hx; [| discriminate].
    destruct (for_each step xs w1) as [[rows | e] w2] eqn:Hxs;
      [| discriminate].
    intros [= <- <-]. constructor; eauto.
Qed.

(** The loop stops at the first record whose step raises: what the
    records before it stored stays, the records after it are not
    reached. *)
Lemma for_each_stops {X R} (step : X -> M World.t R) before bad after
  w rs w1 e w2 :
  for_each step before w = (Ok rs, w1) ->
  step bad w1 = (Raise e, w2) ->
  for_each step (before ++ bad :: after) w = (Raise e, w2).
Proof.
  revert w rs. induction before as [| x xs IH]; intros w rs.
  - intros [= <- <-] Hbad. cbn [app]. rewrite for_each_cons, Hbad. reflexivity.
  - rewrite <- app_comm_cons, !for_each_cons.
    destruct (step x w) as [[r | e'] w0]; [| discriminate].
    destruct (for_each step xs w0) as [[rows | e'] w0'] eqn:Hxs;
      [| discriminate].
    intros [= <- <-] Hbad. rewrite (IH _ _ Hxs Hbad). reflexivity.
Qed.

(** ** Course sync: what it keeps, whom it spares, what it returns *)

Lemma get_courses_eq classroom_service current_user w :
  classroom.get_courses classroom_service current_user w =
  if negb (classroom.truthy_text (UserModel.google_access_token current_user))
  then (Raise (HTTPException 403 "Google authentication required"), w)
  else
    match (let? listed := fetched_courses classroom_service in py_iter listed)
    with
    | Ok google_courses =>
        for_each (classroom.get_courses_body current_user) google_courses
          (logged w [ClassroomCoursesList])
    | Raise e => (Raise e, logged w [ClassroomCoursesList])
    end.
Proof.
  unfold classroom.get_courses, logged.
  destruct (negb _); [reflexivity |].
  unfold bind at 1. rewrite google_classroom_get_courses_eq.
  destruct (fetched_courses classroom_service) as [listed | e];
    [| reflexivity].
  rewrite bind_lift. cbn [rbind].
  destruct (py_iter listed); reflexivity.
Qed.

Lemma get_courses_reaches classroom_service current_user w :
  let w0 := logged w [ClassroomCoursesList] in
  snd (classroom.get_courses classroom_service current_user w) = w \/
  snd (classroom.get_courses classroom_service current_user w) = w0 \/
  exists google_courses,
    classroom.get_courses classroom_service current_user w =
    for_each (classroom.get_courses_body current_user) google_courses w0.
Proof.
  cbv zeta. rewrite get_courses_eq.
  destruct (negb _); [left; reflexivity |].
  destruct (let? listed := fetched_courses classroom_service in py_iter listed)
    as [google_courses | e]; [right; right; eauto | right; left; reflexivity].
Qed.

Lemma get_courses_body_identity current_user gc w :
  NoDup (CourseModel.id <$> courses (db w)) ->
  exists more,
    course_identity <$>
      courses (db (snd (classroom.get_courses_body current_user gc w))) =
    (course_identity <$> courses (db w)) ++ more.
Proof.
  intros Hnd.
  destruct (classroom.get_courses_body current_user gc w) as [r w'] eqn:Hrun.
  cbn [snd].
  apply get_courses_body_cases in Hrun
    as [[-> _] | (g & row & _ & _ & Hrow &
                  [(_ & -> & _) | (old & Hold & -> & Hid)])].
  - exists []. rewrite app_nil_r. reflexivity.
  - rewrite fmap_app. eauto.
  - exists []. rewrite app_nil_r.
    pose proof (first_some_elem _ _ _ Hold) as [Hin Hmatch].
    apply course_matches in Hmatch.
    apply (commit_row_keys _ _ _ old); [exact Hnd | exact Hin | exact Hid |].
    unfold course_identity, course_key in *. congruence.
Qed.

Lemma get_courses_body_others current_user gc w :
  NoDup (CourseModel.id <$> courses (db w)) ->
  courses_of_others (UserModel.id current_user)
    (courses (db (snd (classroom.get_courses_body current_user gc w)))) =
  courses_of_others (UserModel.id current_user) (courses (db w)).
Proof.
  intros Hnd.
  destruct (classroom.get_courses_body current_user gc w) as [r w'] eqn:Hrun.
  cbn [snd].
  apply get_courses_body_cases in Hrun
    as [[-> _] | (g & row & _ & _ & Hrow &
                  [(_ & -> & _) | (old & Hold & -> & Hid)])].
  - reflexivity.
  - unfold courses_of_others. rewrite List.filter_app. cbn.
    injection Hrow as _ ->. rewrite Z.eqb_refl. cbn. apply app_nil_r.
  - pose proof (first_some_elem _ _ _ Hold) as [Hin Hmatch].
    apply course_matches in Hmatch.
    apply (commit_row_filter _ _ _ old); [exact Hnd | exact Hin | exact Hid | |].
    + injection Hmatch as _ ->. rewrite Z.eqb_refl. reflexivity.
    + injection Hrow as _ ->. rewrite Z.eqb_refl. reflexivity.
Qed.

(** X3: whatever the outcome of [GET /courses], an exception midway
    included, no stored course is deleted and none changes its primary key,
    remote id or owner: the stored courses, seen through these three
    columns, are a prefix of what is stored afterwards, and the primary
    keys stay distinct. *)
Theorem course_sync_keeps_stored_courses classroom_service current_user w :
  NoDup (CourseModel.id <$> courses (db w)) ->
  let w' := snd (classroom.get_courses classroom_service current_user w) in
  NoDup (CourseModel.id <$> courses (db w')) /\
  exists added,
    course_identity <$> courses (db w') =
    (course_identity <$> courses (db w)) ++ added.
Proof.
  intros Hnd. cbv zeta.
  destruct (get_courses_reaches classroom_service current_user w)
    as [-> | [-> | [google_courses ->]]].
  - split; [exact Hnd |]. exists []. rewrite app_nil_r. reflexivity.
  - split; [exact Hnd |]. exists []. rewrite app_nil_r. reflexivity.
  - split.
    + apply (for_each_inv (classroom.get_courses_body current_user)
               (fun w0 => NoDup (CourseModel.id <$> courses (db w0)))
               (get_courses_body_inv current_user)). exact Hnd.
    + apply (for_each_prefix (classroom.get_courses_body current_user)
               (fun w0 => course_identity <$> courses (db w0))
               (fun w0 => NoDup (CourseModel.id <$> courses (db w0)))
               (get_courses_body_inv current_user)
               (get_courses_body_identity current_user)
               google_courses (logged w [ClassroomCoursesList])).
      exact Hnd.
Qed.

Lemma course_sync_keeps_stored_courses_witness :
  NoDup (CourseModel.id <$> courses (db Examples.algebra_world)) /\
  let w' :=
    snd (classroom.get_courses Examples.two_courses Examples.student
           Examples.algebra_world) in
  NoDup (CourseModel.id <$> courses (db w')) /\
  exists added,
    course_identity <$> courses (db w') =
    (course_identity <$> courses (db Examples.algebra_world)) ++ added.
Proof.
  assert (H : NoDup (CourseModel.id <$> courses (db Examples.algebra_world)))
    by apply NoDup_singleton.
  split; [exact H |].
  exact (course_sync_keeps_stored_courses Examples.two_courses
           Examples.student Examples.algebra_world H).
Defined.

(** X4: [GET /courses] leaves the courses of every other user exactly as
    they were, whatever the remote answer and whatever the outcome. *)
Theorem course_sync_spares_other_users classroom_service current_user w :
  NoDup (CourseModel.id <$> courses (db w)) ->
  let w' := snd (classroom.get_courses classroom_service current_user w) in
  courses_of_others (UserModel.id current_user) (courses (db w')) =
  courses_of_others (UserModel.id current_user) (courses (db w)).
Proof.
  intros Hnd. cbv zeta.
  destruct (get_courses_reaches classroom_service current_user w)
    as [-> | [-> | [google_courses ->]]]; [reflexivity | reflexivity |].
  apply (for_each_inv (classroom.get_courses_body current_user)
           (fun w0 => NoDup (CourseModel.id <$> courses (db w0)) /\
                      courses_of_others (UserModel.id current_user)
                        (courses (db w0)) =
                      courses_of_others (UserModel.id current_user)
                        (courses (db w)))).
  - intros gc w0 [Hnd0 Hsame]. split.
    + apply get_courses_body_inv. exact Hnd0.
    + rewrite get_courses_body_others by exact Hnd0. exact Hsame.
  - split; [exact Hnd | reflexivity].
Qed.

Lemma course_sync_spares_other_users_witness :
  courses_of_others 1
    (courses (db (snd (classroom.get_courses Examples.two_courses
                         Examples.student Examples.shared_world)))) =
  [Examples.their_algebra].
Proof.
  assert (H : NoDup (CourseModel.id <$> courses (db Examples.shared_world)))
    by (apply (bool_decide_unpack _); vm_compute; exact I).
  exact (course_sync_spares_other_users Examples.two_courses Examples.student
           Examples.shared_world H).
Defined.

(** ** What a computation reaches out to *)
Section Reaches.
Context {P : call -> Prop}.

Lemma reaches_only_calls {A} (c : M World.t A) : only_calls P c -> reaches P c.
Proof. intros Hc w. destruct (Hc w) as (_ & Hfs & Hmade). auto. Qed.

Lemma reaches_modify_db (f : Db -> Db) : reaches P (modify (set_db f)).
Proof.
  intros w. cbn. split; [reflexivity |]. exists [].
  rewrite app_nil_r. auto.
Qed.

Lemma reaches_bind {A B} (c : M World.t A) (k : A -> M World.t B) :
  reaches P c -> (forall a, reaches P (k a)) -> reaches P (bind c k).
Proof.
  intros Hc Hk w. unfold bind.
  destruct (Hc w) as (Hfs & made & Hcalls & Hmade).
  destruct (c w) as [[a | e] w1]; cbn in *.
  - destruct (Hk a w1) as (Hfs' & made' & Hcalls' & Hmade').
    split; [congruence |].
    exists (made ++ made'). split.
    + rewrite Hcalls', Hcalls, app_assoc. reflexivity.
    + apply Forall_app. auto.
  - split; [assumption |]. exists made. auto.
Qed.

Lemma reaches_if {A} (b : bool) (c1 c2 : M World.t A) :
  reaches P c1 -> reaches P c2 -> reaches P (if b then c1 else c2).
Proof. destruct b; auto. Qed.

Lemma reaches_for_each {X R} (body : X -> M World.t R) xs :
  (forall x, reaches P (body x)) -> reaches P (for_each body xs).
Proof.
  intros Hbody. induction xs as [| x xs IH]; cbn [for_each].
  - apply reaches_only_calls, only_calls_ret.
  - apply reaches_bind; [apply Hbody |]. intros r.
    apply reaches_bind; [exact IH |]. intros rs.
    apply reaches_only_calls, only_calls_ret.
Qed.

End Reaches.

Ltac reaches_step :=
  first
    [ apply reaches_bind; [| intros ?]
    | apply reaches_if
    | apply reaches_modify_db
    | apply reaches_only_calls; frame; fail
    | match goal with
      | |- reaches _ (match ?x with _ => _ end) => destruct x
      end ].

Lemma transfer_calls_read rq tr : Forall read_call (transfer_calls rq tr).
Proof.
  induction tr as [data | data rest IH | e]; cbn;
    repeat constructor; assumption.
Qed.

Lemma download_file_reads drive file_id :
  reaches read_call (google_drive.download_file drive file_id).
Proof.
  intros w. rewrite download_file_eq. cbv zeta.
  match goal with
  | |- context [match ?r with _ => _ end] => destruct r as [[rq |] | e]
  end; cbn [snd fs calls]; (split; [reflexivity |]).
  - exists (DriveFilesGet file_id ::
            transfer_calls rq (google_drive.files_media drive rq)).
    split; [rewrite <- app_assoc; reflexivity |].
    constructor; [reflexivity | apply transfer_calls_read].
  - exists [DriveFilesGet file_id]. split; [reflexivity |].
    repeat constructor.
  - exists [DriveFilesGet file_id]. split; [reflexivity |].
    repeat constructor.
Qed.

Lemma keeps_modify_db {B} (view : Db -> B) (f : Db -> Db) :
  (forall d, view (f d) = view d) -> keeps view (modify (set_db f)).
Proof. intros H w. cbn. apply H. Qed.

Lemma get_courses_body_reaches current_user gc :
  reaches (fun _ => False) (classroom.get_courses_body current_user gc).
Proof. unfold classroom.get_courses_body. repeat reaches_step. Qed.

Lemma get_courses_body_keeps {B} (view : Db -> B) current_user gc :
  (forall d rows,
     view (mkDb rows (assignments d) (materials d) (drafts d)) = view d) ->
  keeps view (classroom.get_courses_body current_user gc).
Proof.
  intros Hview. unfold classroom.get_courses_body.
  repeat first [ apply keeps_modify_db; intros ?; apply Hview | keeps_step ].
Qed.

(** X5: [GET /courses] writes to the courses table only and makes one
    remote call, the listing of the courses, none at all without a Google
    access token; the disk is not touched. *)
Theorem course_sync_footprint classroom_service current_user w :
  let w' := snd (classroom.get_courses classroom_service current_user w) in
  assignments (db w') = assignments (db w) /\
  materials (db w') = materials (db w) /\
  drafts (db w') = drafts (db w) /\
  fs w' = fs w /\
  calls w' =
    calls w ++
    (if classroom.truthy_text (UserModel.google_access_token current_user)
     then [ClassroomCoursesList] else []).
Proof.
  cbv zeta. rewrite get_courses_eq.
  destruct (classroom.truthy_text _); cbn [negb snd].
  - destruct (let? listed := fetched_courses classroom_service in
              py_iter listed) as [google_courses | e];
      [| cbn; auto 6].
    pose proof (fun B (view : Db -> B) H =>
                  keeps_for_each view
                    (classroom.get_courses_body current_user) google_courses
                    (fun gc => get_courses_body_keeps view current_user gc H)
                    (logged w [ClassroomCoursesList])) as Hkeeps.
    destruct (reaches_for_each (classroom.get_courses_body current_user)
                google_courses (get_courses_body_reaches current_user)
                (logged w [ClassroomCoursesList]))
      as (Hfs & made & Hcalls & Hmade).
    destruct made as [| c made]; [| inversion Hmade; contradiction].
    rewrite app_nil_r in Hcalls.
    split; [apply (Hkeeps _ assignments); reflexivity |].
    split; [apply (Hkeeps _ materials); reflexivity |].
    split; [apply (Hkeeps _ drafts); reflexivity |].
    split; [exact Hfs | exact Hcalls].
  - rewrite app_nil_r. auto.
Qed.

(** X6: the rows [GET /courses] answers with stand for the remote courses
    one by one, in the order Classroom listed them: each row carries the
    remote id of its record and the caller as owner. *)
Theorem course_sync_answers_in_remote_order classroom_service current_user
  w rows w1 :
  classroom.get_courses classroom_service current_user w = (Ok rows, w1) ->
  exists listed google_courses,
    fetched_courses classroom_service = Ok listed /\
    py_iter listed = Ok google_courses /\
    Forall2 (fun google_course row =>
               remote_course_key current_user google_course =
               Some (course_key row))
            google_courses rows.
Proof.
  rewrite get_courses_eq.
  destruct (negb _); [discriminate |].
  destruct (fetched_courses classroom_service) as [listed | e];
    cbn [rbind]; [| discriminate].
  destruct (py_iter listed) as [google_courses | e] eqn:Hiter;
    [| discriminate].
  intros Hrun. exists listed, google_courses.
  split; [reflexivity |]. split; [exact Hiter |].
  apply (for_each_forall2 _ _) with (2 := Hrun).
  intros gc w0 row w0' Hbody.
  apply get_courses_body_cases in Hbody
    as [[_ [e [=]]] | (g & row' & Hkey & [= <-] & Hrow & _)].
  congruence.
Qed.

Lemma course_sync_answers_in_remote_order_witness :
  exists rows,
    fst (classroom.get_courses Examples.two_courses Examples.student
           Examples.empty_world) = Ok rows /\
    CourseModel.google_course_id <$> rows = [Some "c1"; Some "c2"].
Proof.
  destruct (classroom.get_courses Examples.two_courses Examples.student
              Examples.empty_world) as [[rows | e] w1] eqn:Hrun;
    [| vm_compute in Hrun; discriminate].
  exists rows. split; [reflexivity |].
  destruct (course_sync_answers_in_remote_order _ _ _ _ _ Hrun)
    as (listed & google_courses & Hlisted & Hiter & Hall).
  vm_compute in Hlisted. injection Hlisted as <-.
  vm_compute in Hiter. injection Hiter as <-.
  repeat match goal with
         | H : Forall2 _ (_ :: _) _ |- _ =>
             apply Forall2_cons_inv_l in H as (? & ? & ? & H & ->)
         | H : Forall2 _ [] _ |- _ => apply Forall2_nil_inv_l in H as ->
         end.
  cbn [fmap list_fmap].
  repeat match goal with
         | H : ?key = Some (course_key _) |- _ =>
             let k := eval vm_compute in key in
             change key with k in H;
             injection H as H _; rewrite <- H; clear H
         end.
  reflexivity.
Defined.

(** X7: [GET /courses] stops at the first remote record it cannot read the
    id of: the exception of that lookup is what the route raises, the
    courses listed before the record stay stored (the store is the one
    their sync left), and the courses listed after it are not synced. *)
Theorem course_sync_stops_at_unreadable_record classroom_service current_user
  w listed before bad after rows w1 e :
  classroom.truthy_text (UserModel.google_access_token current_user) = true ->
  fetched_courses classroom_service = Ok listed ->
  py_iter listed = Ok (before ++ bad :: after) ->
  for_each (classroom.get_courses_body current_user) before
    (logged w [ClassroomCoursesList]) = (Ok rows, w1) ->
  py_getitem bad "id" = Raise e ->
  classroom.get_courses classroom_service current_user w = (Raise e, w1).
Proof.
  intros Htoken Hlisted Hiter Hbefore Hbad.
  rewrite get_courses_eq, Htoken, Hlisted. cbn [negb rbind]. rewrite Hiter.
  apply (for_each_stops _ _ _ _ _ _ _ _ _ Hbefore).
  unfold classroom.get_courses_body. rewrite bind_lift, Hbad. reflexivity.
Qed.

Lemma course_sync_stops_at_unreadable_record_witness :
  let run :=
    classroom.get_courses Examples.broken_listing Examples.student
      Examples.empty_world in
  fst run = Raise (Exn KeyError "'id'") /\
  CourseModel.google_course_id <$> courses (db (snd run)) = [Some "c1"].
Proof.
  cbv zeta.
  assert (Hbefore : exists rows w1,
            for_each (classroom.get_courses_body Examples.student)
              [PDict [("id", PStr "c1"); ("name", PStr "Algebra")]]
              (logged Examples.empty_world [ClassroomCoursesList]) =
            (Ok rows, w1) /\
            CourseModel.google_course_id <$> courses (db w1) = [Some "c1"])
    by (eexists _, _; split; vm_compute; reflexivity).
  destruct Hbefore as (rows & w1 & Hbefore & Hstored).
  rewrite (course_sync_stops_at_unreadable_record Examples.broken_listing
             Examples.student Examples.empty_world _
             [PDict [("id", PStr "c1"); ("name", PStr "Algebra")]]
             (PDict [("name", PStr "Nameless")])
             [PDict [("id", PStr "c3"); ("name", PStr "Chemistry")]]
             rows w1 (Exn KeyError "'id'")
             eq_refl eq_refl eq_refl Hbefore eq_refl).
  split; [reflexivity | exact Hstored].
Defined.

Lemma first_app_new {A} (p : A -> bool) rows row :
  first p rows = None -> p row = true -> first p (rows ++ [row]) = Some row.
Proof.
  unfold first. intros Hnone Hrow.
  induction rows as [| r rows IH]; cbn in *; [rewrite Hrow; reflexivity |].
  destruct (p r); [discriminate | auto].
Qed.

(** X8: one remote course synced, then looked up. When the record carries
    a text id and text fields, the step stores a row that the lookup by
    remote id and owner finds again: on creation with the name
    "Unnamed Course" and NULL for the section, description and room that
    the record lacks, on update with the stored value kept for every field
    the record lacks and the primary key, remote id and owner untouched;
    the table grows by one row on creation only. *)
Theorem synced_course_is_found current_user (gc : dict) id_value g
  oname osection odescription oroom w :
  dict_lookup "id" gc = Some id_value ->
  to_text id_value = Ok g ->
  dict_lookup "name" gc = PStr <$> oname ->
  dict_lookup "section" gc = PStr <$> osection ->
  dict_lookup "description" gc = PStr <$> odescription ->
  dict_lookup "room" gc = PStr <$> oroom ->
  let lookup :=
    first (fun c => classroom.sql_eq (CourseModel.google_course_id c) g &&
                    (CourseModel.user_id c =? UserModel.id current_user)) in
  let remote (o kept : option string) :=
    match o with Some s => Some s | None => kept end in
  let row :=
    match lookup (courses (db w)) with
    | Some old =>
        CourseModel.mk (CourseModel.id old) (CourseModel.google_course_id old)
          (remote oname (CourseModel.name old))
          (remote osection (CourseModel.section old))
          (remote odescription (CourseModel.description old))
          (remote oroom (CourseModel.room old))
          (CourseModel.user_id old)
    | None =>
        CourseModel.mk (next_id CourseModel.id (courses (db w))) g
          (remote oname (Some "Unnamed Course")) osection odescription oroom
          (UserModel.id current_user)
    end in
  exists w',
    classroom.get_courses_body current_user (PDict gc) w = (Ok row, w') /\
    lookup (courses (db w')) = Some row /\
    length (courses (db w')) =
      (length (courses (db w)) +
       match lookup (courses (db w)) with Some _ => 0 | None => 1 end)%nat.
Proof.
  intros Hid Hg Hname Hsection Hdescription Hroom. cbv zeta.
  unfold classroom.get_courses_body.
  rewrite bind_lift, (py_getitem_present _ _ _ Hid), bind_lift, Hg, bind_get.
  destruct (first _ (courses (db w))) as [old |] eqn:Hstored.
  - rewrite bind_lift, (get_text_text gc "name" oname _ Hname).
    rewrite bind_lift, (get_text_text gc "section" osection _ Hsection).
    rewrite bind_lift,
      (get_text_text gc "description" odescription _ Hdescription).
    rewrite bind_lift, (get_text_text gc "room" oroom _ Hroom).
    eexists. split; [reflexivity |]. unfold set_db. cbn [db courses snd].
    pose proof (first_some_elem _ _ _ Hstored) as [_ Hmatch].
    split.
    + apply (first_commit_row _ _ _ old); [exact Hstored | reflexivity |].
      exact Hmatch.
    + unfold commit_row. rewrite length_map. lia.
  - rewrite bind_lift, (get_text_text gc "name" oname _ Hname).
    rewrite bind_lift, (get_text_text gc "section" osection _ Hsection).
    rewrite bind_lift,
      (get_text_text gc "description" odescription _ Hdescription).
    rewrite bind_lift, (get_text_text gc "room" oroom _ Hroom).
    replace (match osection with Some s => Some s | None => None end)
      with osection by (destruct osection; reflexivity).
    replace (match odescription with Some s => Some s | None => None end)
      with odescription by (destruct odescription; reflexivity).
    replace (match oroom with Some s => Some s | None => None end)
      with oroom by (destruct oroom; reflexivity).
    eexists. split; [reflexivity |]. unfold set_db. cbn [db courses snd].
    split.
    + apply first_app_new; [exact Hstored |]. cbn.
      unfold classroom.sql_eq. rewrite bool_decide_eq_true_2 by reflexivity.
      apply Z.eqb_refl.
    + unfold add_row. rewrite length_app. reflexivity.
Qed.

Lemma synced_course_is_found_witness :
  exists w',
    classroom.get_courses_body Examples.student
      (PDict [("id", PStr "c1"); ("room", PStr "B12")]) Examples.algebra_world =
    (Ok (CourseModel.mk 1 (Some "c1") (Some "Algebra") None None (Some "B12") 1),
     w') /\
    length (courses (db w')) = 1%nat.
Proof.
  destruct (synced_course_is_found Examples.student
              [("id", PStr "c1"); ("room", PStr "B12")] (PStr "c1") (Some "c1")
              None None None (Some "B12") Examples.algebra_world
              eq_refl eq_refl eq_refl eq_refl eq_refl eq_refl)
    as (w' & Hrun & _ & Hlength).
  exists w'. split; [exact Hrun | exact Hlength].
Defined.

(** ** Assignment sync: what it reaches, what it keeps, whom it spares *)

Lemma get_assignments_eq utf_8 drive_service classroom_service course_id
  current_user w :
  classroom.get_assignments utf_8 drive_service classroom_service course_id
    current_user w =
  if negb (classroom.truthy_text (UserModel.google_access_token current_user))
  then (Raise (HTTPException 403 "Google authentication required"), w)
  else
    match first (fun c => (CourseModel.id c =? course_id) &&
                          (CourseModel.user_id c =? UserModel.id current_user))
                (courses (db w)) with
    | None => (Raise (HTTPException 404 "Course not found"), w)
    | Some db_course =>
        let listing :=
          ClassroomCourseWorkList
            (of_text (CourseModel.google_course_id db_course)) in
        match (let? listed :=
                 fetched_coursework classroom_service
                   (of_text (CourseModel.google_course_id db_course)) in
               py_iter listed) with
        | Ok google_assignments =>
            for_each (classroom.get_assignments_body utf_8 drive_service
                        db_course current_user)
              google_assignments (logged w [listing])
        | Raise e => (Raise e, logged w [listing])
        end
    end.
Proof.
  unfold classroom.get_assignments, logged.
  destruct (negb _); [reflexivity |].
  rewrite bind_get.
  destruct (first _ (courses (db w))) as [db_course |]; [| reflexivity].
  unfold bind at 1. rewrite google_classroom_get_assignments_eq.
  cbv zeta.
  destruct (fetched_coursework classroom_service _) as [listed | e];
    [| reflexivity].
  rewrite bind_lift. cbn [rbind].
  destruct (py_iter listed); reflexivity.
Qed.

Ltac reaches_sync_step :=
  first
    [ apply download_file_reads
    | apply reaches_for_each; intros ?
    | reaches_step ].

Lemma get_assignments_body_reads utf_8 drive_service db_course current_user ga :
  reaches read_call
    (classroom.get_assignments_body utf_8 drive_service db_course
       current_user ga).
Proof.
  unfold classroom.get_assignments_body, classroom.save_assignment,
    classroom.process_materials, classroom.process_materials_body,
    classroom.classify, classroom.save_material.
  repeat reaches_sync_step.
Qed.

Lemma get_assignments_body_drafts utf_8 drive_service db_course current_user
  ga :
  keeps drafts
    (classroom.get_assignments_body utf_8 drive_service db_course
       current_user ga).
Proof.
  unfold classroom.get_assignments_body, classroom.save_assignment.
  repeat first
    [ apply keeps_modify_db; intros ?; reflexivity
    | apply keeps_process_materials; reflexivity
    | keeps_step ].
Qed.

(** X9: a sync of the assignments of a course only reads from Google: every
    remote call it makes is a listing, a metadata lookup or a download
    chunk, never a Drive upload or folder creation and never a call on a
    submission. It writes to the assignments and materials tables only:
    the courses, the drafts and the disk are as before. *)
Theorem assignment_sync_footprint utf_8 drive_service classroom_service
  course_id current_user w :
  let w' :=
    snd (classroom.get_assignments utf_8 drive_service classroom_service
           course_id current_user w) in
  courses (db w') = courses (db w) /\
  drafts (db w') = drafts (db w) /\
  fs w' = fs w /\
  exists made,
    calls w' = calls w ++ made /\
    Forall (fun c => is_read_call c = true) made.
Proof.
  cbv zeta. rewrite get_assignments_eq.
  assert (Hnone : exists made,
            calls w = calls w ++ made /\
            Forall (fun c => is_read_call c = true) made)
    by (exists []; rewrite app_nil_r; auto).
  destruct (negb _); [cbn; auto |].
  destruct (first _ (courses (db w))) as [db_course |]; [| cbn; auto].
  cbv zeta.
  assert (Hone : forall c, is_read_call c = true ->
            exists made,
              calls (logged w [c]) = calls w ++ made /\
              Forall (fun c => is_read_call c = true) made)
    by (intros c Hc; exists [c]; auto).
  destruct (let? listed := fetched_coursework classroom_service _ in
            py_iter listed) as [google_assignments | e];
    [| cbn [snd]; repeat split; try reflexivity; apply Hone; reflexivity].
  split.
  { exact (keeps_for_each courses _ google_assignments
             (get_assignments_body_courses utf_8 drive_service db_course
                current_user)
             (logged w [ClassroomCourseWorkList
                          (of_text (CourseModel.google_course_id db_course))])). }
  split.
  { exact (keeps_for_each drafts _ google_assignments
             (get_assignments_body_drafts utf_8 drive_service db_course
                current_user)
             (logged w [ClassroomCourseWorkList
                          (of_text (CourseModel.google_course_id db_course))])). }
  destruct (reaches_for_each _ google_assignments
              (get_assignments_body_reads utf_8 drive_service db_course
                 current_user)
              (logged w [ClassroomCourseWorkList
                           (of_text (CourseModel.google_course_id db_course))]))
    as (Hfs & made & Hcalls & Hmade).
  split; [exact Hfs |].
  exists (ClassroomCourseWorkList
            (of_text (CourseModel.google_course_id db_course)) :: made).
  split.
  - rewrite Hcalls. cbn [logged calls]. rewrite <- app_assoc. reflexivity.
  - constructor; [reflexivity | exact Hmade].
Qed.

Section AssignmentsKept.
Variable utf_8 : list Byte.byte -> result string.
Variable drive_service : google_drive.api.
Variable db_course : CourseModel.t.
Variable current_user : UserModel.t.

Local Abbreviation body :=
  (classroom.get_assignments_body utf_8 drive_service db_course current_user).

Lemma get_assignments_body_identity ga w :
  NoDup (AssignmentModel.id <$> assignments (db w)) ->
  exists more,
    assignment_identity <$> assignments (db (snd (body ga w))) =
    (assignment_identity <$> assignments (db w)) ++ more.
Proof.
  intros Hnd. destruct (body ga w) as [r w'] eqn:Hrun. cbn [snd].
  apply get_assignments_body_cases in Hrun
    as [_ [[-> _] | (g & row & _ & Hrow &
                     [(_ & -> & _) | (old & Hold & -> & Hid)])]].
  - exists []. rewrite app_nil_r. reflexivity.
  - rewrite fmap_app. eauto.
  - exists []. rewrite app_nil_r.
    pose proof (first_some_elem _ _ _ Hold) as [Hin Hmatch].
    apply assignment_matches in Hmatch.
    apply (commit_row_keys _ _ _ old); [exact Hnd | exact Hin | exact Hid |].
    unfold assignment_identity, assignment_key in *. congruence.
Qed.

Lemma get_assignments_body_elsewhere ga w :
  NoDup (AssignmentModel.id <$> assignments (db w)) ->
  assignments_elsewhere (CourseModel.id db_course)
    (assignments (db (snd (body ga w)))) =
  assignments_elsewhere (CourseModel.id db_course) (assignments (db w)).
Proof.
  intros Hnd. destruct (body ga w) as [r w'] eqn:Hrun. cbn [snd].
  apply get_assignments_body_cases in Hrun
    as [_ [[-> _] | (g & row & _ & Hrow &
                     [(_ & -> & _) | (old & Hold & -> & Hid)])]].
  - reflexivity.
  - unfold assignments_elsewhere. rewrite List.filter_app. cbn.
    injection Hrow as _ ->. rewrite Z.eqb_refl. cbn. apply app_nil_r.
  - pose proof (first_some_elem _ _ _ Hold) as [Hin Hmatch].
    apply assignment_matches in Hmatch.
    apply (commit_row_filter _ _ _ old); [exact Hnd | exact Hin | exact Hid | |].
    + injection Hmatch as _ ->. rewrite Z.eqb_refl. reflexivity.
    + injection Hrow as _ ->. rewrite Z.eqb_refl. reflexivity.
Qed.

End AssignmentsKept.

(** X10: whatever the outcome of a sync of the assignments of a course, no
    stored assignment is deleted and none changes its primary key, remote
    id or course; the primary keys stay distinct; and the assignments of
    every other course are exactly as they were. *)
Theorem assignment_sync_keeps_and_spares utf_8 drive_service classroom_service
  course_id current_user w :
  NoDup (AssignmentModel.id <$> assignments (db w)) ->
  let w' :=
    snd (classroom.get_assignments utf_8 drive_service classroom_service
           course_id current_user w) in
  NoDup (AssignmentModel.id <$> assignments (db w')) /\
  (exists added,
     assignment_identity <$> assignments (db w') =
     (assignment_identity <$> assignments (db w)) ++ added) /\
  assignments_elsewhere course_id (assignments (db w')) =
  assignments_elsewhere course_id (assignments (db w)).
Proof.
  intros Hnd. cbv zeta. rewrite get_assignments_eq.
  assert (Hsame : exists added,
            assignment_identity <$> assignments (db w) =
            (assignment_identity <$> assignments (db w)) ++ added)
    by (exists []; rewrite app_nil_r; reflexivity).
  destruct (negb _); [cbn; auto |].
  destruct (first _ (courses (db w))) as [db_course |] eqn:Hcourse;
    [| cbn; auto].
  cbv zeta.
  destruct (let? listed := fetched_coursework classroom_service _ in
            py_iter listed) as [google_assignments | e]; [| cbn; auto].
  apply first_some_elem in Hcourse as [_ Hcourse].
  apply andb_true_iff in Hcourse as [Hcourse _].
  apply Z.eqb_eq in Hcourse. subst course_id.
  set (w0 := logged w _).
  pose proof (for_each_inv
                (classroom.get_assignments_body utf_8 drive_service db_course
                   current_user)
                (fun w1 =>
                   NoDup (AssignmentModel.id <$> assignments (db w1)) /\
                   assignments_elsewhere (CourseModel.id db_course)
                     (assignments (db w1)) =
                   assignments_elsewhere (CourseModel.id db_course)
                     (assignments (db w)))) as Hinv.
  destruct (Hinv) with (xs := google_assignments) (w := w0) as [Hnd' Hspared].
  - intros ga w1 [Hnd1 Hsame1]. split.
    + apply get_assignments_body_inv. exact Hnd1.
    + rewrite get_assignments_body_elsewhere by exact Hnd1. exact Hsame1.
  - split; [exact Hnd | reflexivity].
  - split; [exact Hnd' |]. split; [| exact Hspared].
    apply (for_each_prefix
             (classroom.get_assignments_body utf_8 drive_service db_course
                current_user)
             (fun w1 => assignment_identity <$> assignments (db w1))
             (fun w1 => NoDup (AssignmentModel.id <$> assignments (db w1)))
             (get_assignments_body_inv utf_8 drive_service db_course
                current_user)
             (get_assignments_body_identity utf_8 drive_service db_course
                current_user)
             google_assignments w0).
    exact Hnd.
Qed.

Lemma assignment_sync_keeps_and_spares_witness :
  let w' :=
    snd (classroom.get_assignments Examples.seven_bit Examples.notes_drive
           Examples.two_courses 1 Examples.student
           Examples.two_assignments_world) in
  AssignmentModel.id <$> assignments (db w') = [1; 2] /\
  assignments_elsewhere 1 (assignments (db w')) = [Examples.stored_lab].
Proof.
  cbv zeta.
  assert (H : NoDup (AssignmentModel.id <$>
                       assignments (db Examples.two_assignments_world)))
    by (apply (bool_decide_unpack _); vm_compute; exact I).
  destruct (assignment_sync_keeps_and_spares Examples.seven_bit
              Examples.notes_drive Examples.two_courses 1 Examples.student
              Examples.two_assignments_world H) as (_ & _ & Hspared).
  split; [vm_compute; reflexivity | exact Hspared].
Defined.

(** X11: a sync of the assignments of a course that the caller does not own
    (no stored course has that id and the caller as user) is refused with
    403 or 404 before any remote call is made, and nothing is written. *)
Theorem assignment_sync_refuses_foreign_course utf_8 drive_service
  classroom_service course_id current_user w :
  not_owned CourseModel.id CourseModel.user_id course_id
    (UserModel.id current_user) (courses (db w)) ->
  exists detail,
    classroom.get_assignments utf_8 drive_service classroom_service course_id
      current_user w =
    (Raise (HTTPException
              (if classroom.truthy_text
                    (UserModel.google_access_token current_user)
               then 404 else 403) detail), w).
Proof.
  intros Hforeign. rewrite get_assignments_eq.
  destruct (classroom.truthy_text _); cbn [negb]; [| eauto].
  destruct (first _ (courses (db w))) as [db_course |] eqn:Hcourse; [| eauto].
  apply first_some_elem in Hcourse as [Hin Hcourse].
  apply andb_true_iff in Hcourse as [Hid Huser].
  apply Z.eqb_eq in Hid, Huser.
  destruct (Hforeign db_course Hin Hid Huser).
Qed.

Lemma assignment_sync_refuses_foreign_course_witness :
  classroom.get_assignments Examples.seven_bit Examples.notes_drive
    Examples.two_courses 1 Examples.other_student Examples.algebra_world =
  (Raise (HTTPException 404 "Course not found"), Examples.algebra_world).
Proof.
  destruct (assignment_sync_refuses_foreign_course Examples.seven_bit
              Examples.notes_drive Examples.two_courses 1
              Examples.other_student Examples.algebra_world)
    as [detail Hrun].
  - intros c Hc _. apply list_elem_of_singleton in Hc as ->. cbn. lia.
  - rewrite Hrun. vm_compute in Hrun. injection Hrun as <-. reflexivity.
Defined.

(** ** The service wrappers, call by call *)

(** X12: the protocol of [create_submission]. It makes the three calls of a
    turn-in in order and stops at the first that fails: the attachment is
    sent under the id that the creation returned, the turn-in only after
    the attachment was accepted. An [HttpError] never escapes; a result
    other than the empty dict means that all three calls were made and is
    what the turn-in answered. Store and disk are not touched.

    It does go on as long as the calls succeed: once the creation has
    answered and the id of its answer has been read, the attachment is
    sent; once the attachment is accepted, the turn-in is made, and what
    it answers is the result. Where a call fails it is the last one made,
    and the result is the empty dict for an [HttpError] and the exception
    itself otherwise. *)
Theorem create_submission_protocol classroom c a file_data w :
  exists r made sid,
    google_classroom.create_submission classroom c a file_data w =
      (r, logged w made) /\
    let attachment := PDict [("addAttachments", PList [file_data])] in
    let turn_in :=
      [SubmissionsCreate c a;
       SubmissionsModifyAttachments c a sid attachment;
       SubmissionsTurnIn c a sid] in
    let handled (e : exn) : result pyval :=
      if is_kind HttpError e then Ok (PDict []) else Raise e in
    made <> [] /\
    (exists rest, turn_in = made ++ rest) /\
    (forall e, r = Raise e -> is_kind HttpError e = false) /\
    (SubmissionsModifyAttachments c a sid attachment ∈ made ->
     exists created,
       google_classroom.studentSubmissions_create classroom c a = Ok created /\
       py_get created "id" PNone = Ok sid) /\
    (SubmissionsTurnIn c a sid ∈ made ->
     exists updated,
       google_classroom.studentSubmissions_modifyAttachments classroom c a sid
         attachment = Ok updated) /\
    (forall v, r = Ok v -> v <> PDict [] ->
       made = turn_in /\
       google_classroom.studentSubmissions_turnIn classroom c a sid = Ok v) /\
    (forall created sid',
       google_classroom.studentSubmissions_create classroom c a = Ok created ->
       py_get created "id" PNone = Ok sid' ->
       sid' = sid /\
       SubmissionsModifyAttachments c a sid attachment ∈ made) /\
    (SubmissionsModifyAttachments c a sid attachment ∈ made ->
     forall updated,
       google_classroom.studentSubmissions_modifyAttachments classroom c a sid
         attachment = Ok updated ->
       made = turn_in /\
       r = match google_classroom.studentSubmissions_turnIn classroom c a sid
           with
           | Ok final => Ok final
           | Raise e => handled e
           end) /\
    (forall e,
       google_classroom.studentSubmissions_create classroom c a = Raise e ->
       made = [SubmissionsCreate c a] /\ r = handled e) /\
    (forall created e,
       google_classroom.studentSubmissions_create classroom c a = Ok created ->
       py_get created "id" PNone = Raise e ->
       made = [SubmissionsCreate c a] /\ r = handled e) /\
    (SubmissionsModifyAttachments c a sid attachment ∈ made ->
     forall e,
       google_classroom.studentSubmissions_modifyAttachments classroom c a sid
         attachment = Raise e ->
       made = [SubmissionsCreate c a;
               SubmissionsModifyAttachments c a sid attachment] /\
       r = handled e).
Proof.
  pose proof (create_submission_eq classroom c a file_data w) as Heq.
  cbv zeta in Heq.
  assert (Hhandled : forall e e',
            (if is_kind HttpError e then Ok (PDict []) else Raise e) =
              @Raise pyval e' -> is_kind HttpError e' = false).
  { intros e e'. destruct (is_kind HttpError e) eqn:He; [discriminate |].
    intros [= <-]. exact He. }
  assert (Hempty : forall e v,
            (if is_kind HttpError e then Ok (PDict []) else Raise e) = Ok v ->
            v <> PDict [] -> False).
  { intros e v. destruct (is_kind HttpError e); [| discriminate].
    intros [= <-] Hv. apply Hv. reflexivity. }
  assert (Hout : forall (x y : call) l, x ∈ [y] ++ l -> x <> y -> x ∈ l).
  { intros x y l Hin Hne. apply elem_of_cons in Hin as [-> | Hin];
      [contradiction | exact Hin]. }
  assert (Hone : forall x y : call, x ∈ [y] -> x = y).
  { intros x y Hin. apply list_elem_of_singleton in Hin. exact Hin. }
  destruct (google_classroom.studentSubmissions_create classroom c a)
    as [created | e] eqn:Hcreate.
  2: { eexists _, _, PNone. split; [exact Heq |]. cbv zeta.
       split; [discriminate |]. split; [eexists; reflexivity |].
       split; [apply Hhandled |].
       split; [intros Hin; apply Hone in Hin; discriminate |].
       split; [intros Hin; apply Hone in Hin; discriminate |].
       split; [intros v Hv Hne; destruct (Hempty _ _ Hv Hne) |].
       split; [discriminate |].
       split; [intros Hin; apply Hone in Hin; discriminate |].
       split; [intros e' [= <-]; split; reflexivity |].
       split; [discriminate |].
       intros Hin; apply Hone in Hin; discriminate. }
  destruct (py_get created "id" PNone) as [sid | e] eqn:Hsid.
  2: { eexists _, _, PNone. split; [exact Heq |]. cbv zeta.
       split; [discriminate |]. split; [eexists; reflexivity |].
       split; [apply Hhandled |].
       split; [intros Hin; apply Hone in Hin; discriminate |].
       split; [intros Hin; apply Hone in Hin; discriminate |].
       split; [intros v Hv Hne; destruct (Hempty _ _ Hv Hne) |].
       split; [intros created' sid' [= <-] H; congruence |].
       split; [intros Hin; apply Hone in Hin; discriminate |].
       split; [discriminate |].
       split;
         [intros created' e' [= <-] H; rewrite Hsid in H; injection H as <-;
          split; reflexivity |].
       intros Hin; apply Hone in Hin; discriminate. }
  assert (Hsent : forall l,
            SubmissionsModifyAttachments c a sid
              (PDict [("addAttachments", PList [file_data])]) ∈
            SubmissionsCreate c a ::
            SubmissionsModifyAttachments c a sid
              (PDict [("addAttachments", PList [file_data])]) :: l)
    by (intros l; apply list_elem_of_further, list_elem_of_here).
  assert (Hread : forall created' sid',
            Ok created = Ok created' ->
            py_get created' "id" PNone = Ok sid' -> sid' = sid)
    by (intros created' sid' [= <-] H; congruence).
  destruct (google_classroom.studentSubmissions_modifyAttachments _ _ _ _ _)
    as [updated | e] eqn:Hmodify.
  2: { eexists _, _, sid. split; [exact Heq |]. cbv zeta.
       split; [discriminate |]. split; [eexists; reflexivity |].
       split; [apply Hhandled |].
       split; [eauto |].
       split.
       { intros Hin. apply (Hout _ _ _) in Hin; [| discriminate].
         apply Hone in Hin. discriminate. }
       split; [intros v Hv Hne; destruct (Hempty _ _ Hv Hne) |].
       split; [intros created' sid' H1 H2; split; [eauto | apply Hsent] |].
       split; [intros _ updated' H; congruence |].
       split; [discriminate |].
       split; [intros created' e' [= <-] H; congruence |].
       intros _ e' H. replace e' with e by congruence. split; reflexivity. }
  destruct (google_classroom.studentSubmissions_turnIn _ _ _ _)
    as [final | e] eqn:Hturn.
  - eexists _, _, sid. split; [exact Heq |]. cbv zeta.
    split; [discriminate |]. split; [exists []; reflexivity |].
    split; [discriminate |]. split; [eauto |]. split; [eauto |].
    split; [intros v [= <-] _; auto |].
    split; [intros created' sid' H1 H2; split; [eauto | apply Hsent] |].
    split; [intros _ updated' _; rewrite Hturn; split; reflexivity |].
    split; [discriminate |].
    split; [intros created' e' [= <-] H; congruence |].
    intros _ e' H. congruence.
  - eexists _, _, sid. split; [exact Heq |]. cbv zeta.
    split; [discriminate |]. split; [exists []; reflexivity |].
    split; [apply Hhandled |]. split; [eauto |]. split; [eauto |].
    split; [intros v Hv Hne; destruct (Hempty _ _ Hv Hne) |].
    split; [intros created' sid' H1 H2; split; [eauto | apply Hsent] |].
    split; [intros _ updated' _; rewrite Hturn; split; reflexivity |].
    split; [discriminate |].
    split; [intros created' e' [= <-] H; congruence |].
    intros _ e' H. congruence.
Qed.

Lemma find_or_create_folder_eq drive folder_name w :
  let query :=
    "mimeType='application/vnd.google-apps.folder' and name='" +:+
    folder_name +:+ "' and trashed=false" in
  let file_metadata :=
    PDict [("name", PStr folder_name);
           ("mimeType", PStr "application/vnd.google-apps.folder")] in
  let or_none (r : result pyval) : result pyval :=
    match r with Ok v => Ok v | Raise _ => Ok PNone end in
  google_drive.find_or_create_folder drive folder_name w =
  match (let? results := google_drive.files_list drive query in
         py_get results "files" (PList [])) with
  | Raise _ => (Ok PNone, logged w [DriveFilesList query])
  | Ok items =>
      if truthy items then
        (or_none (let? found := google_drive.item0 items in
                  py_getitem found "id"),
         logged w [DriveFilesList query])
      else
        (or_none (let? folder := google_drive.files_create drive file_metadata in
                  py_get folder "id" PNone),
         logged w [DriveFilesList query; DriveFilesCreate file_metadata])
  end.
Proof.
  cbv zeta. unfold google_drive.find_or_create_folder, try_except, logged.
  rewrite bind_log, bind_lift.
  destruct (google_drive.files_list drive _) as [results | e];
    [| destruct (is_kind HttpError e); reflexivity].
  rewrite bind_lift. cbn [rbind].
  destruct (py_get results "files" (PList [])) as [items | e];
    [| destruct (is_kind HttpError e); reflexivity].
  destruct (truthy items).
  - rewrite bind_lift.
    destruct (google_drive.item0 items) as [found | e]; cbn [rbind];
      [| destruct (is_kind HttpError e); reflexivity].
    unfold lift.
    destruct (py_getitem found "id") as [v | e];
      [| destruct (is_kind HttpError e)]; reflexivity.
  - rewrite bind_log, bind_lift. cbn [db fs calls].
    destruct (google_drive.files_create drive _) as [folder | e]; cbn [rbind];
      [| destruct (is_kind HttpError e); cbn; rewrite <- app_assoc;
         reflexivity].
    unfold lift.
    destruct (py_get folder "id" PNone) as [v | e];
      [| destruct (is_kind HttpError e)]; cbn; rewrite <- app_assoc;
      reflexivity.
Qed.

(** X13: [find_or_create_folder] never raises and always lists first. It
    creates a folder, with one call, exactly when the listing answered and
    named no folder; a listing that fails creates nothing. When the
    listing names folders, the id of the first one is returned. *)
Theorem folder_created_only_when_none_listed drive folder_name w :
  let query :=
    "mimeType='application/vnd.google-apps.folder' and name='" +:+
    folder_name +:+ "' and trashed=false" in
  let file_metadata :=
    PDict [("name", PStr folder_name);
           ("mimeType", PStr "application/vnd.google-apps.folder")] in
  exists v made,
    google_drive.find_or_create_folder drive folder_name w =
      (Ok v, logged w (DriveFilesList query :: made)) /\
    (made = [] \/ made = [DriveFilesCreate file_metadata]) /\
    (made = [DriveFilesCreate file_metadata] <->
     exists results items,
       google_drive.files_list drive query = Ok results /\
       py_get results "files" (PList []) = Ok items /\
       truthy items = false) /\
    (forall results found others id,
       google_drive.files_list drive query = Ok (PDict results) ->
       dict_lookup "files" results = Some (PList (found :: others)) ->
       py_getitem found "id" = Ok id ->
       v = id /\ made = []).
Proof.
  cbv zeta. rewrite find_or_create_folder_eq. cbv zeta.
  destruct (google_drive.files_list drive _) as [results | e] eqn:Hlist;
    cbn [rbind].
  2: { eexists _, []. split; [reflexivity |]. split; [auto |]. split.
       - split; [discriminate | intros (? & ? & [=] & _)].
       - intros ? ? ? ? [=]. }
  destruct (py_get results "files" (PList [])) as [items | e] eqn:Hitems.
  2: { eexists _, []. split; [reflexivity |]. split; [auto |]. split.
       - split; [discriminate |].
         intros (results' & items' & [= <-] & Hget & _). congruence.
       - intros results' ? ? ? [= ->]. cbn in Hitems. discriminate. }
  destruct (truthy items) eqn:Htruthy.
  - match goal with
    | |- context [match ?r with Ok v => Ok v | Raise _ => Ok PNone end] =>
        destruct r as [v | e] eqn:Hfound
    end.
    + exists v, []. split; [reflexivity |]. split; [auto |]. split.
      * split; [discriminate |].
        intros (results' & items' & [= <-] & Hget & Hfalse). congruence.
      * intros results' found others id [= ->] Hfiles Hid.
        cbn in Hitems. rewrite Hfiles in Hitems. cbn in Hitems.
        injection Hitems as <-. cbn in Hfound. rewrite Hid in Hfound.
        injection Hfound as <-. auto.
    + exists PNone, []. split; [reflexivity |]. split; [auto |]. split.
      * split; [discriminate |].
        intros (results' & items' & [= <-] & Hget & Hfalse). congruence.
      * intros results' found others id [= ->] Hfiles Hid.
        cbn in Hitems. rewrite Hfiles in Hitems. cbn in Hitems.
        injection Hitems as <-. cbn in Hfound. rewrite Hid in Hfound.
        discriminate.
  - match goal with
    | |- context [match ?r with Ok v => Ok v | Raise _ => Ok PNone end] =>
        destruct r as [v | e]
    end; eexists _, [_]; (split; [reflexivity |]); (split; [auto |]);
      (split; [split; [eauto | reflexivity] |]);
      intros results' found others id [= ->] Hfiles _;
      cbn in Hitems; rewrite Hfiles in Hitems; cbn in Hitems;
      injection Hitems as <-; discriminate.
Qed.

Lemma upload_file_eq drive file_path file_name mime_type folder_id w :
  let file_metadata :=
    PDict (("name", PStr file_name) ::
           (if truthy folder_id then [("parents", PList [folder_id])]
            else [])) in
  google_drive.upload_file drive file_path file_name mime_type folder_id w =
  if bool_decide (file_path ∈ fs w) then
    (match (let? file := google_drive.files_create drive file_metadata in
            let? _ := py_get file "name" PNone in Ok file) with
     | Ok file => Ok file
     | Raise _ => Ok PNone
     end, logged w [DriveFilesCreate file_metadata])
  else (Ok PNone, w).
Proof.
  cbv zeta. unfold google_drive.upload_file, os.path_exists, try_except, logged.
  rewrite bind_assoc, bind_get, bind_ret.
  destruct (bool_decide (file_path ∈ fs w)).
  - rewrite bind_ret, bind_log, bind_lift.
    destruct (google_drive.files_create drive _) as [file | e]; cbn [rbind];
      [| destruct (is_kind HttpError e); reflexivity].
    rewrite bind_lift.
    destruct (py_get file "name" PNone) as [name | e];
      [| destruct (is_kind HttpError e)]; reflexivity.
  - cbn. reflexivity.
Qed.

(** X14: [upload_file] never raises and touches neither store nor disk. A
    path that is not on disk gives [None] without any remote call. A path
    on disk gives exactly one creation call, whose body names the parent
    folder exactly when a folder id was passed; what comes back is the
    descriptor the API returned, or [None]. *)
Theorem upload_file_guard drive file_path file_name mime_type folder_id w :
  let file_metadata :=
    PDict (("name", PStr file_name) ::
           (if truthy folder_id then [("parents", PList [folder_id])]
            else [])) in
  (file_path ∉ fs w ->
   google_drive.upload_file drive file_path file_name mime_type folder_id w =
     (Ok PNone, w)) /\
  (file_path ∈ fs w ->
   exists v,
     google_drive.upload_file drive file_path file_name mime_type folder_id w =
       (Ok v, logged w [DriveFilesCreate file_metadata]) /\
     (v = PNone \/ google_drive.files_create drive file_metadata = Ok v)) /\
  py_in "parents" file_metadata = Ok (truthy folder_id).
Proof.
  cbv zeta. rewrite upload_file_eq. cbv zeta.
  split; [| split].
  - intros Hout. rewrite bool_decide_eq_false_2 by exact Hout. reflexivity.
  - intros Hin. rewrite bool_decide_eq_true_2 by exact Hin.
    destruct (google_drive.files_create drive _) as [file | e]; cbn [rbind];
      [| eauto].
    destruct (py_get file "name" PNone); cbn [rbind]; eauto.
  - destruct (truthy folder_id); reflexivity.
Qed.

Lemma upload_file_guard_witness :
  google_drive.upload_file Examples.willing_drive Examples.temp_pdf
    "Essay_submission.pdf" "application/pdf" (PStr "folder-1")
    Examples.empty_world = (Ok PNone, Examples.empty_world).
Proof.
  apply (upload_file_guard Examples.willing_drive Examples.temp_pdf
           "Essay_submission.pdf" "application/pdf" (PStr "folder-1")
           Examples.empty_world).
  apply not_elem_of_empty.
Defined.

(** ** The temporary file of [generate_pdf] *)

Lemma fs_added (path other : string) (files : gset string) :
  other <> path -> other ∈ {[path]} ∪ files <-> other ∈ files.
Proof. rewrite elem_of_union, elem_of_singleton. tauto. Qed.

Lemma fs_added_removed (path other : string) (files : gset string) :
  other <> path -> other ∈ ({[path]} ∪ files) ∖ {[path]} <-> other ∈ files.
Proof.
  rewrite elem_of_difference, elem_of_union, elem_of_singleton. tauto.
Qed.

Lemma fs_has (path : string) (files : gset string) : path ∈ {[path]} ∪ files.
Proof. apply elem_of_union. left. apply elem_of_singleton. reflexivity. Qed.

Lemma fs_gone (path : string) (files : gset string) : path ∉ files ∖ {[path]}.
Proof.
  rewrite elem_of_difference, elem_of_singleton. tauto.
Qed.

Lemma generate_pdf_eq disk rl content metadata w :
  pdf_generator.generate_pdf disk rl content metadata w =
  match os.named_temporary_file disk with
  | Raise e => (Raise e, w)
  | Ok path =>
      let w1 := set_fs (fun files => {[path]} ∪ files) w in
      match content with
      | None =>
          (Raise (Exn AttributeError
                    "'NoneType' object has no attribute 'split'"), w1)
      | Some text =>
          match pdf_generator.flowables rl text metadata with
          | Some e => (Raise e, w1)
          | None =>
              match pdf_generator.build rl text metadata with
              | None => (Ok path, w1)
              | Some e =>
                  match os.remove_error disk path with
                  | Some msg => (Raise (Exn OSError msg), w1)
                  | None =>
                      (Raise e, set_fs (fun files => files ∖ {[path]}) w1)
                  end
              end
          end
      end
  end.
Proof.
  unfold pdf_generator.generate_pdf, os.NamedTemporaryFile, os.remove,
    os.path_exists, pdf_generator.run, try_except, bind, lift, modify, get,
    ret, raise.
  destruct (os.named_temporary_file disk) as [path | e]; cbn; [| reflexivity].
  destruct content as [text |]; cbn; [| reflexivity].
  destruct (pdf_generator.flowables rl text metadata); cbn; [reflexivity |].
  destruct (pdf_generator.build rl text metadata); cbn; [| reflexivity].
  rewrite bool_decide_eq_true_2 by apply fs_has. cbn.
  rewrite bool_decide_eq_true_2 by apply fs_has.
  destruct (os.remove_error disk path); reflexivity.
Qed.

(** X15: the temporary file of [generate_pdf]. Given the name that
    [tempfile] hands out: a successful call returns that name and leaves
    the file on disk; when building the document fails, the file is
    removed and the build's exception raised, unless the removal itself
    fails, in which case the file stays and the [OSError] is what is
    raised; when the story cannot be laid out (a null content included),
    the exception is raised with the file left on disk. No other path is
    touched, nor the store, and no remote call is made. *)
Theorem generate_pdf_temporary_file disk rl content metadata w path :
  os.named_temporary_file disk = Ok path ->
  let run := pdf_generator.generate_pdf disk rl content metadata w in
  db (snd run) = db w /\ calls (snd run) = calls w /\
  (forall other, other <> path -> other ∈ fs (snd run) <-> other ∈ fs w) /\
  (forall returned, fst run = Ok returned ->
     returned = path /\ path ∈ fs (snd run)) /\
  (forall text e,
     content = Some text ->
     pdf_generator.flowables rl text metadata = None ->
     pdf_generator.build rl text metadata = Some e ->
     match os.remove_error disk path with
     | None => fst run = Raise e /\ path ∉ fs (snd run)
     | Some msg => fst run = Raise (Exn OSError msg) /\ path ∈ fs (snd run)
     end) /\
  (forall text e,
     content = Some text ->
     pdf_generator.flowables rl text metadata = Some e ->
     fst run = Raise e /\ path ∈ fs (snd run)) /\
  (content = None ->
   (exists e, fst run = Raise e) /\ path ∈ fs (snd run)).
Proof.
  intros Hname. cbv zeta. rewrite generate_pdf_eq, Hname. cbv zeta.
  split; [| split; [| split; [| split; [| split; [| split]]]]].
  - repeat match goal with
           | |- context [match ?x with _ => _ end] => destruct x
           end; reflexivity.
  - repeat match goal with
           | |- context [match ?x with _ => _ end] => destruct x
           end; reflexivity.
  - intros other Hother.
    repeat match goal with
           | |- context [match ?x with _ => _ end] => destruct x
           end; cbn;
      first [ reflexivity
            | apply fs_added_removed; exact Hother
            | apply fs_added; exact Hother ].
  - intros returned.
    repeat match goal with
           | |- context [match ?x with _ => _ end] => destruct x
           end; cbn; try discriminate.
    intros [= <-]. split; [reflexivity | apply fs_has].
  - intros text e -> Hstory Hbuild. rewrite Hstory, Hbuild.
    destruct (os.remove_error disk path); cbn;
      (split; [reflexivity | first [apply fs_has | apply fs_gone]]).
  - intros text e -> Hstory. rewrite Hstory. cbn.
    split; [reflexivity | apply fs_has].
  - intros ->. cbn. split; [eauto | apply fs_has].
Qed.

Lemma generate_pdf_temporary_file_witness :
  let built :=
    pdf_generator.generate_pdf Examples.plain_disk
      Examples.reportlab_build_fails (Some "My essay") []
      Examples.empty_world in
  let laid_out :=
    pdf_generator.generate_pdf Examples.plain_disk
      Examples.reportlab_story_fails (Some "My essay") []
      Examples.empty_world in
  (fst built = Raise (Exn OtherError "layout error") /\
   bool_decide (Examples.temp_pdf ∈ fs (snd built)) = false) /\
  (fst laid_out = Raise (Exn ValueError "bad markup") /\
   Examples.temp_pdf ∈ fs (snd laid_out)).
Proof.
  cbv zeta. split.
  - destruct (generate_pdf_temporary_file Examples.plain_disk
                Examples.reportlab_build_fails (Some "My essay") []
                Examples.empty_world Examples.temp_pdf eq_refl)
      as (_ & _ & _ & _ & Hbuild & _).
    destruct (Hbuild "My essay" (Exn OtherError "layout error")
                eq_refl eq_refl eq_refl) as [Hraise Hgone].
    split; [exact Hraise | apply bool_decide_eq_false_2; exact Hgone].
  - destruct (generate_pdf_temporary_file Examples.plain_disk
                Examples.reportlab_story_fails (Some "My essay") []
                Examples.empty_world Examples.temp_pdf eq_refl)
      as (_ & _ & _ & _ & _ & Hstory & _).
    exact (Hstory "My essay" (Exn ValueError "bad markup") eq_refl eq_refl).
Defined.

(** ** The submission route: who may submit, how often, with which calls *)

Lemma first_none_in {A} (p : A -> bool) rows :
  (forall r, r ∈ rows -> p r = false) -> first p rows = None.
Proof.
  unfold first. induction rows as [| r rows IH]; intros H; [reflexivity |].
  cbn. rewrite (H r) by apply list_elem_of_here.
  apply IH. intros r' Hr'. apply H. apply elem_of_cons. auto.
Qed.

Lemma first_not_owned {A} (pk owner : A -> Z) k uid rows :
  not_owned pk owner k uid rows ->
  first (fun r => (pk r =? k) && (owner r =? uid)) rows = None.
Proof.
  intros Hforeign. apply first_none_in. intros r Hr.
  destruct (pk r =? k) eqn:Hk; [| reflexivity].
  destruct (owner r =? uid) eqn:Hu; [| reflexivity].
  apply Z.eqb_eq in Hk, Hu. destruct (Hforeign r Hr Hk Hu).
Qed.

(** X16: a draft of another user is out of reach. When no stored draft has
    the given id and the caller as user, reading it, updating it,
    exporting it and submitting it are each answered with 404
    "Draft not found", and the store, the disk and the remote services
    are left alone. *)
Theorem foreign_draft_is_out_of_reach disk rl now drive_service
  classroom_service draft_id draft_in current_user w :
  not_owned DraftModel.id DraftModel.user_id draft_id
    (UserModel.id current_user) (drafts (db w)) ->
  assignments.get_draft draft_id current_user w =
    (Raise (HTTPException 404 "Draft not found"), w) /\
  assignments.update_draft draft_id draft_in current_user w =
    (Raise (HTTPException 404 "Draft not found"), w) /\
  assignments.export_draft_to_pdf disk rl now draft_id current_user w =
    (Raise (HTTPException 404 "Draft not found"), w) /\
  assignments.submit_draft_to_classroom disk rl now drive_service
    classroom_service draft_id current_user w =
    (Raise (HTTPException 404 "Draft not found"), w).
Proof.
  intros Hforeign. apply first_not_owned in Hforeign.
  unfold assignments.get_draft, assignments.update_draft,
    assignments.export_draft_to_pdf, assignments.submit_draft_to_classroom.
  rewrite !bind_get, !Hforeign. auto.
Qed.

Lemma foreign_draft_is_out_of_reach_witness :
  assignments.submit_draft_to_classroom Examples.plain_disk
    Examples.reportlab_fine Examples.noon Examples.willing_drive
    Examples.willing_classroom 5 Examples.other_student Examples.essay_ready =
  (Raise (HTTPException 404 "Draft not found"), Examples.essay_ready).
Proof.
  apply (foreign_draft_is_out_of_reach Examples.plain_disk
           Examples.reportlab_fine Examples.noon Examples.willing_drive
           Examples.willing_classroom 5
           (DraftUpdate.mk "" "draft" None None) Examples.other_student
           Examples.essay_ready).
  intros d Hd _. apply list_elem_of_singleton in Hd as ->. cbn. lia.
Defined.

Lemma submit_route_success disk rl now drive_service classroom_service
  draft_id current_user w s w' :
  assignments.submit_draft_to_classroom disk rl now drive_service
    classroom_service draft_id current_user w = (Ok s, w') ->
  exists draft assignment course,
    first (fun d => (DraftModel.id d =? draft_id) &&
                    (DraftModel.user_id d =? UserModel.id current_user))
          (drafts (db w)) = Some draft /\
    first (fun a => AssignmentModel.id a =? DraftModel.assignment_id draft)
          (assignments (db w)) = Some assignment /\
    first (fun c => CourseModel.id c =? AssignmentModel.course_id assignment)
          (courses (db w)) = Some course /\
    assignments.submission disk rl now drive_service classroom_service draft
      assignment course current_user w = (Ok s, w').
Proof.
  unfold assignments.submit_draft_to_classroom. rewrite bind_get.
  destruct (first _ (drafts (db w))) as [draft |]; [| discriminate].
  destruct (bool_decide _); [discriminate |].
  destruct (first _ (assignments (db w))) as [assignment |] eqn:Ha;
    [| discriminate].
  destruct (first _ (courses (db w))) as [course |] eqn:Hc; [| discriminate].
  destruct (negb _); [discriminate |].
  intros H. eauto 8.
Qed.

(** X17: a draft is not submitted again while the store says that it is
    submitted. A submission that succeeded leaves the draft with status
    "submitted"; a request to submit a draft that is found with this
    status, in any store and whatever the services answer, is refused with
    400 "Draft already submitted" and does nothing: no file is rendered and
    no remote call is made. So the request that comes right after a
    successful submission is refused. The refusal lasts as long as the
    status does and no longer: [PUT /drafts/{id}] with another status
    rewrites it, and a request to submit that follows is not refused any
    more -- it runs the submission again and returns, or fails with a 500
    of the submission itself. *)
Theorem submitted_draft_is_not_resubmitted disk rl now drive_service
  classroom_service draft_id current_user w s w1 :
  assignments.submit_draft_to_classroom disk rl now drive_service
    classroom_service draft_id current_user w = (Ok s, w1) ->
  exists draft,
    first (fun d => (DraftModel.id d =? draft_id) &&
                    (DraftModel.user_id d =? UserModel.id current_user))
          (drafts (db w)) = Some draft /\
    first (fun d => (DraftModel.id d =? draft_id) &&
                    (DraftModel.user_id d =? UserModel.id current_user))
          (drafts (db w1)) = Some (marked now draft) /\
    DraftModel.status (marked now draft) = Some "submitted" /\
    (forall disk' rl' now' drive_service' classroom_service' w2 stored,
       first (fun d => (DraftModel.id d =? draft_id) &&
                       (DraftModel.user_id d =? UserModel.id current_user))
             (drafts (db w2)) = Some stored ->
       DraftModel.status stored = Some "submitted" ->
       assignments.submit_draft_to_classroom disk' rl' now' drive_service'
         classroom_service' draft_id current_user w2 =
       (Raise (HTTPException 400 "Draft already submitted"), w2)) /\
    (forall disk' rl' now' drive_service' classroom_service',
       assignments.submit_draft_to_classroom disk' rl' now' drive_service'
         classroom_service' draft_id current_user w1 =
       (Raise (HTTPException 400 "Draft already submitted"), w1)) /\
    (forall draft_in,
       DraftUpdate.status draft_in <> "submitted" ->
       exists d w2,
         assignments.update_draft draft_id draft_in current_user w1 =
           (Ok d, w2) /\
         first (fun d => (DraftModel.id d =? draft_id) &&
                         (DraftModel.user_id d =? UserModel.id current_user))
               (drafts (db w2)) = Some d /\
         DraftModel.status d = Some (DraftUpdate.status draft_in) /\
         forall disk' rl' now' drive_service' classroom_service' r w3,
           assignments.submit_draft_to_classroom disk' rl' now' drive_service'
             classroom_service' draft_id current_user w2 = (r, w3) ->
           (exists s', r = Ok s') \/
           (exists detail, r = Raise (HTTPException 500 detail))).
Proof.
  intros Hrun.
  apply submit_route_passed in Hrun
    as (draft & assignment & course & Hdraft & Hstatus & Hassignment &
        Hcourse & Htoken & Hrun).
  apply submission_cases in Hrun as [Hdb _]. destruct Hdb as (Hdb & _).
  pose proof (first_some_elem _ _ _ Hdraft) as [_ Hmatch].
  assert (Hfound :
            first (fun d => (DraftModel.id d =? draft_id) &&
                            (DraftModel.user_id d =? UserModel.id current_user))
                  (drafts (db w1)) = Some (marked now draft)).
  { rewrite Hdb. cbn [with_marked drafts].
    apply (first_commit_row _ _ _ draft);
      [exact Hdraft | reflexivity | exact Hmatch]. }
  assert (Hrefused :
            forall disk' rl' now' drive_service' classroom_service' w2 stored,
              first (fun d => (DraftModel.id d =? draft_id) &&
                              (DraftModel.user_id d =? UserModel.id current_user))
                    (drafts (db w2)) = Some stored ->
              DraftModel.status stored = Some "submitted" ->
              assignments.submit_draft_to_classroom disk' rl' now'
                drive_service' classroom_service' draft_id current_user w2 =
              (Raise (HTTPException 400 "Draft already submitted"), w2)).
  { intros disk' rl' now' drive_service' classroom_service' w2 stored
      Hstored Hsubmitted.
    unfold assignments.submit_draft_to_classroom.
    rewrite bind_get, Hstored.
    rewrite bool_decide_eq_true_2 by exact Hsubmitted. reflexivity. }
  exists draft. split; [exact Hdraft |]. split; [exact Hfound |].
  split; [reflexivity |]. split; [exact Hrefused |]. split.
  { intros disk' rl' now' drive_service' classroom_service'.
    exact (Hrefused _ _ _ _ _ w1 _ Hfound eq_refl). }
  intros draft_in Hother.
  unfold assignments.update_draft. rewrite bind_get, Hfound.
  eexists _, _. split; [reflexivity |].
  match goal with
  | |- first _ (drafts (db ?w2)) = Some ?row /\ _ =>
      assert (Hreset :
                first (fun d => (DraftModel.id d =? draft_id) &&
                                (DraftModel.user_id d =? UserModel.id current_user))
                      (drafts (db w2)) = Some row)
  end.
  { cbn [db drafts set_db]. 
    apply (first_commit_row _ _ _ (marked now draft));
      [exact Hfound | reflexivity | exact Hmatch]. }
  split; [exact Hreset |]. split; [reflexivity |].
  intros disk' rl' now' drive_service' classroom_service' r w3 Hagain.
  rewrite (submit_route_eq disk' rl' now' drive_service' classroom_service'
             draft_id current_user _ assignment course _ Hreset) in Hagain.
  - destruct r as [s' | e]; [left; eauto | right].
    destruct (submission_raises_500 _ _ _ _ _ _ _ _ _ _ _ _ Hagain)
      as [detail ->].
    eauto.
  - cbn. intros [= Heq]. exact (Hother Heq).
  - cbn. rewrite Hdb. exact Hassignment.
  - cbn. rewrite Hdb. exact Hcourse.
  - exact Htoken.
Qed.

Lemma submitted_draft_is_not_resubmitted_witness :
  let submit :=
    assignments.submit_draft_to_classroom Examples.plain_disk
      Examples.reportlab_fine Examples.noon Examples.willing_drive
      Examples.willing_classroom 5 Examples.student in
  let once := submit Examples.essay_ready in
  let reset :=
    assignments.update_draft 5 (DraftUpdate.mk "My essay" "draft" None None)
      Examples.student (snd once) in
  (exists s, fst once = Ok s) /\
  submit (snd once) =
    (Raise (HTTPException 400 "Draft already submitted"), snd once) /\
  (exists s', fst (submit (snd reset)) = Ok s') /\
  length (List.filter is_submission_call (calls (snd (submit (snd reset))))) =
    6%nat.
Proof.
  cbv zeta.
  destruct (assignments.submit_draft_to_classroom Examples.plain_disk
              Examples.reportlab_fine Examples.noon Examples.willing_drive
              Examples.willing_classroom 5 Examples.student
              Examples.essay_ready) as [[s | e] w1] eqn:Hrun;
    [| vm_compute in Hrun; discriminate].
  destruct (submitted_draft_is_not_resubmitted _ _ _ _ _ _ _ _ _ _ Hrun)
    as (draft & _ & _ & _ & _ & Hrefused & Hreset).
  split; [eauto |]. cbn [snd].
  split; [apply Hrefused |].
  destruct (Hreset (DraftUpdate.mk "My essay" "draft" None None))
    as (d & w2 & Hupdate & _ & _ & Hagain); [discriminate |].
  rewrite Hupdate. cbn [snd].
  vm_compute in Hrun. injection Hrun as <- <-.
  vm_compute in Hupdate. injection Hupdate as <- <-.
  split; [eexists |]; vm_compute; reflexivity.
Defined.

Lemma filter_not_submission made :
  Forall not_submission made -> List.filter is_submission_call made = [].
Proof.
  induction 1 as [| c made Hc _ IH]; [reflexivity |].
  cbn. rewrite Hc. exact IH.
Qed.

Lemma upload_and_submit_calls now drive_service classroom_service draft
  assignment course pdf_path w s w' :
  assignments.upload_and_submit now drive_service classroom_service draft
    assignment course pdf_path w = (Ok s, w') ->
  let c := of_text (CourseModel.google_course_id course) in
  let a := of_text (AssignmentModel.google_assignment_id assignment) in
  let attachment :=
    PDict [("addAttachments",
            PList [PDict [("driveFile",
                           PDict [("id", assignments.drive_file_id s)])]])] in
  exists made sid,
    calls w' = calls w ++ made /\
    List.filter is_submission_call made =
      [SubmissionsCreate c a;
       SubmissionsModifyAttachments c a sid attachment;
       SubmissionsTurnIn c a sid].
Proof.
  unfold assignments.upload_and_submit. intros H.
  destruct (AssignmentModel.title assignment) as [title |];
    [| discriminate H].
  rewrite bind_ret in H. unfold bind at 1 in H.
  destruct (find_or_create_folder_frame drive_service "OpenCoder Submissions" w)
    as (_ & _ & made1 & Hcalls1 & Hquiet1).
  destruct (google_drive.find_or_create_folder drive_service _ w)
    as [[folder_id | e] w1]; [| discriminate H].
  cbn [snd] in Hcalls1. unfold bind at 1 in H.
  destruct (upload_file_frame drive_service pdf_path
              (assignments.replace_spaces title +:+ "_submission.pdf")
              "application/pdf" folder_id w1)
    as (_ & _ & made2 & Hcalls2 & Hquiet2).
  destruct (google_drive.upload_file drive_service _ _ _ _ w1)
    as [[uploaded | e] w2]; [| discriminate H].
  cbn [snd] in Hcalls2. rewrite bind_lift in H.
  destruct (assignments.lacks_id uploaded) as [[|] | e];
    [discriminate H | | discriminate H].
  rewrite bind_lift in H.
  destruct (py_getitem uploaded "id") as [file_id | e]; [| discriminate H].
  unfold bind at 1 in H. rewrite create_submission_eq in H. cbv zeta in H.
  destruct (google_classroom.studentSubmissions_create classroom_service _ _)
    as [created | e]; [| dead_answer H e].
  destruct (py_get created "id" PNone) as [sid | e]; [| dead_answer H e].
  destruct (google_classroom.studentSubmissions_modifyAttachments _ _ _ _ _)
    as [updated | e]; [| dead_answer H e].
  destruct (google_classroom.studentSubmissions_turnIn _ _ _ _)
    as [final | e]; [| dead_answer H e].
  rewrite bind_lift in H.
  destruct (assignments.lacks_id final) as [[|] | e];
    [discriminate H | | discriminate H].
  rewrite bind_lift in H.
  destruct (py_getitem final "id") as [submission_id | e]; [| discriminate H].
  cbn in H. injection H as <- <-. cbn [assignments.drive_file_id calls].
  eexists (made1 ++ made2 ++ [_; _; _]), sid. split.
  - unfold set_db, logged. cbn [calls].
    rewrite Hcalls2, Hcalls1, <- !app_assoc. reflexivity.
  - rewrite !List.filter_app, (filter_not_submission _ Hquiet1),
      (filter_not_submission _ Hquiet2). reflexivity.
Qed.

(** X18: a submission that succeeds turns the work in exactly once. Among
    the remote calls of the request, those on a submission are the
    creation, the attachment and the turn-in, in this order and once each,
    all for the remote ids of the course and the assignment of the draft,
    the last two under one submission id; what is attached is the Drive
    file whose id the response reports. *)
Theorem successful_submission_turns_in_once disk rl now drive_service
  classroom_service draft_id current_user w s w' :
  assignments.submit_draft_to_classroom disk rl now drive_service
    classroom_service draft_id current_user w = (Ok s, w') ->
  exists draft assignment course made sid,
    first (fun d => (DraftModel.id d =? draft_id) &&
                    (DraftModel.user_id d =? UserModel.id current_user))
          (drafts (db w)) = Some draft /\
    first (fun a => AssignmentModel.id a =? DraftModel.assignment_id draft)
          (assignments (db w)) = Some assignment /\
    first (fun c => CourseModel.id c =? AssignmentModel.course_id assignment)
          (courses (db w)) = Some course /\
    calls w' = calls w ++ made /\
    let c := of_text (CourseModel.google_course_id course) in
    let a := of_text (AssignmentModel.google_assignment_id assignment) in
    List.filter is_submission_call made =
      [SubmissionsCreate c a;
       SubmissionsModifyAttachments c a sid
         (PDict [("addAttachments",
                  PList [PDict [("driveFile",
                                 PDict [("id", assignments.drive_file_id s)])]])]);
       SubmissionsTurnIn c a sid].
Proof.
  intros Hrun.
  apply submit_route_success in Hrun
    as (draft & assignment & course & Hdraft & Hassignment & Hcourse & Hrun).
  exists draft, assignment, course.
  unfold assignments.submission, assignments.try_with_path in Hrun.
  pose proof (generate_pdf_disk_only disk rl (DraftModel.content draft)
                (assignments.pdf_metadata now assignment current_user course) w)
    as [_ Hcalls1].
  destruct (pdf_generator.generate_pdf _ _ _ _ w) as [[path | e] w1];
    cbn [snd] in Hcalls1;
    unfold assignments.finally, try_except in Hrun.
  - destruct (assignments.upload_and_submit _ _ _ _ _ _ _ w1)
      as [[s2 | e] w2] eqn:Hsteps.
    + destruct (cleanup_spec disk (Some path) w2)
        as (w3 & Hclean & _ & Hcalls3 & _).
      rewrite Hclean in Hrun. injection Hrun as <- <-.
      apply upload_and_submit_calls in Hsteps as (made & sid & Hmade & Hthree).
      exists made, sid. repeat (split; [assumption |]).
      split; [congruence | exact Hthree].
    + destruct (cleanup_spec disk (Some path) w2) as (w3 & Hclean & _).
      unfold raise in Hrun. cbv beta iota in Hrun.
      rewrite Hclean in Hrun. discriminate Hrun.
  - cbn in Hrun. discriminate Hrun.
Qed.

Lemma successful_submission_turns_in_once_witness :
  exists sid,
    List.filter is_submission_call
      (calls (snd (assignments.submit_draft_to_classroom Examples.plain_disk
                     Examples.reportlab_fine Examples.noon
                     Examples.willing_drive Examples.willing_classroom 5
                     Examples.student Examples.essay_ready))) =
    [SubmissionsCreate (PStr "c1") (PStr "cw1");
     SubmissionsModifyAttachments (PStr "c1") (PStr "cw1") sid
       (PDict [("addAttachments",
                PList [PDict [("driveFile", PDict [("id", PStr "file-1")])]])]);
     SubmissionsTurnIn (PStr "c1") (PStr "cw1") sid].
Proof.
  destruct (assignments.submit_draft_to_classroom Examples.plain_disk
              Examples.reportlab_fine Examples.noon Examples.willing_drive
              Examples.willing_classroom 5 Examples.student
              Examples.essay_ready) as [[s | e] w1] eqn:Hrun;
    [| vm_compute in Hrun; discriminate].
  destruct (successful_submission_turns_in_once _ _ _ _ _ _ _ _ _ _ Hrun)
    as (draft & assignment & course & made & sid &
        Hdraft & Hassignment & Hcourse & Hcalls & Hthree).
  vm_compute in Hdraft. injection Hdraft as <-.
  vm_compute in Hassignment. injection Hassignment as <-.
  vm_compute in Hcourse. injection Hcourse as <-.
  assert (Hfile : assignments.drive_file_id s = PStr "file-1")
    by (vm_compute in Hrun; injection Hrun as <- _; reflexivity).
  exists sid. cbn [snd]. cbv zeta in Hthree.
  rewrite Hcalls, List.filter_app, Hthree, Hfile. reflexivity.
Defined.

(** ** The background generation task *)

Lemma generate_draft_content_eq generation draft_id w :
  assignments.generate_draft_content generation draft_id w =
  let stored := first (fun d => DraftModel.id d =? draft_id) (drafts (db w)) in
  let failed (e : exn) :=
    match stored with
    | Some draft =>
        (Ok tt,
         commit_draft
           (draft_with (Some ("Error generating content: " +:+ str_exn e))
              "error" draft) w)
    | None => (Ok tt, w)
    end in
  match generation with
  | Raise e => failed e
  | Ok generation_result =>
      match stored with
      | None => (Ok tt, w)
      | Some draft =>
          match (let? content := py_getitem generation_result "content" in
                 to_text content) with
          | Ok content => (Ok tt, commit_draft (draft_with content "draft" draft) w)
          | Raise e => failed e
          end
      end
  end.
Proof.
  cbv zeta. unfold assignments.generate_draft_content, try_except.
  rewrite bind_lift.
  destruct generation as [generation_result | e].
  - rewrite bind_get.
    destruct (first _ (drafts (db w))) as [draft |] eqn:Hdraft;
      [| reflexivity].
    rewrite bind_lift.
    destruct (py_getitem generation_result "content") as [content | e];
      cbn [rbind]; [| rewrite bind_get, Hdraft; reflexivity].
    rewrite bind_lift.
    destruct (to_text content) as [text | e];
      [reflexivity | rewrite bind_get, Hdraft; reflexivity].
  - rewrite bind_get.
    destruct (first _ (drafts (db w))) as [draft |]; reflexivity.
Qed.

(** X19: the background generation task, for a generation that raised or
    whose content, if it has one, is text. The task never raises and
    writes to the drafts table only, where it neither adds nor removes a
    row. If the draft is gone it changes nothing. If the generation
    returned a dict with a text under "content", the draft is stored with
    that text and the status "draft"; if the dict has no "content", the
    draft is stored with the status "error". *)
Theorem generation_outcomes generation draft_id w :
  text_content generation ->
  let run := assignments.generate_draft_content generation draft_id w in
  let lookup := first (fun d => DraftModel.id d =? draft_id) in
  fst run = Ok tt /\
  courses (db (snd run)) = courses (db w) /\
  assignments (db (snd run)) = assignments (db w) /\
  materials (db (snd run)) = materials (db w) /\
  fs (snd run) = fs w /\ calls (snd run) = calls w /\
  DraftModel.id <$> drafts (db (snd run)) = DraftModel.id <$> drafts (db w) /\
  (lookup (drafts (db w)) = None -> snd run = w) /\
  (forall draft (result : dict) text,
     lookup (drafts (db w)) = Some draft ->
     generation = Ok (PDict result) ->
     dict_lookup "content" result = Some (PStr text) ->
     lookup (drafts (db (snd run))) =
       Some (draft_with (Some text) "draft" draft)) /\
  (forall draft (result : dict),
     lookup (drafts (db w)) = Some draft ->
     generation = Ok (PDict result) ->
     dict_lookup "content" result = None ->
     DraftModel.status <$> lookup (drafts (db (snd run))) =
       Some (Some "error")).
Proof.
  intros _. cbv zeta. rewrite generate_draft_content_eq. cbv zeta.
  assert (Hfound : forall draft content status,
            first (fun d => DraftModel.id d =? draft_id) (drafts (db w)) =
              Some draft ->
            first (fun d => DraftModel.id d =? draft_id)
              (drafts (db (commit_draft (draft_with content status draft) w)))
            = Some (draft_with content status draft)).
  { intros draft content status Hdraft. cbn [commit_draft db drafts].
    pose proof (first_some_elem _ _ _ Hdraft) as [_ Hmatch].
    apply (first_commit_row _ _ _ draft);
      [exact Hdraft | reflexivity | exact Hmatch]. }
  destruct (first _ (drafts (db w))) as [draft |] eqn:Hdraft.
  - assert (Hshape : forall r row,
              r = (Ok tt, commit_draft row w) ->
              fst r = Ok tt /\
              courses (db (snd r)) = courses (db w) /\
              assignments (db (snd r)) = assignments (db w) /\
              materials (db (snd r)) = materials (db w) /\
              fs (snd r) = fs w /\ calls (snd r) = calls w /\
              DraftModel.id <$> drafts (db (snd r)) =
                DraftModel.id <$> drafts (db w)).
    { intros r row ->. cbn. repeat (split; [reflexivity |]).
      apply commit_row_ids. }
    destruct generation as [generation_result | e].
    + destruct (let? content := py_getitem generation_result "content" in
                to_text content) as [content | e] eqn:Hcontent.
      * match goal with
        | |- context [(Ok tt, commit_draft ?row w)] =>
            destruct (Hshape _ row eq_refl) as (? & ? & ? & ? & ? & ? & ?)
        end.
        repeat (split; [assumption |]).
        split; [discriminate |]. split.
        -- intros draft' result text [= <-] [= ->] Htext.
           cbn in Hcontent. rewrite Htext in Hcontent. cbn in Hcontent.
           injection Hcontent as <-. apply Hfound. reflexivity.
        -- intros draft' result [= <-] [= ->] Hnone.
           cbn in Hcontent. rewrite Hnone in Hcontent. discriminate.
      * match goal with
        | |- context [(Ok tt, commit_draft ?row w)] =>
            destruct (Hshape _ row eq_refl) as (? & ? & ? & ? & ? & ? & ?)
        end.
        repeat (split; [assumption |]).
        split; [discriminate |]. split.
        -- intros draft' result text [= <-] [= ->] Htext.
           cbn in Hcontent. rewrite Htext in Hcontent. discriminate.
        -- intros draft' result [= <-] _ _. cbn [snd].
           rewrite Hfound by reflexivity. reflexivity.
    + match goal with
        | |- context [(Ok tt, commit_draft ?row w)] =>
            destruct (Hshape _ row eq_refl) as (? & ? & ? & ? & ? & ? & ?)
        end.
      repeat (split; [assumption |]).
      split; [discriminate |]. split; [intros ? ? ? _ [=] | intros ? ? _ [=]].
  - assert (Hnone : forall r : result unit * World.t,
              r = (Ok tt, w) ->
              fst r = Ok tt /\
              courses (db (snd r)) = courses (db w) /\
              assignments (db (snd r)) = assignments (db w) /\
              materials (db (snd r)) = materials (db w) /\
              fs (snd r) = fs w /\ calls (snd r) = calls w /\
              DraftModel.id <$> drafts (db (snd r)) =
                DraftModel.id <$> drafts (db w) /\
              (@None DraftModel.t = None -> snd r = w))
      by (intros r ->; cbn; auto 10).
    destruct generation as [generation_result | e];
      destruct (Hnone _ eq_refl) as (? & ? & ? & ? & ? & ? & ? & ?);
      repeat (split; [assumption |]);
      (split; [intros ? ? ? [=] | intros ? ? [=]]).
Qed.

Lemma generation_outcomes_witness :
  let run :=
    assignments.generate_draft_content
      (Ok (PDict [("content", PStr "A first draft"); ("model", PStr "m")])) 4
      Examples.generating_world in
  fst run = Ok tt /\
  first (fun d => DraftModel.id d =? 4) (drafts (db (snd run))) =
    Some (draft_with (Some "A first draft") "draft" Examples.generating_draft).
Proof.
  cbv zeta.
  destruct (generation_outcomes
              (Ok (PDict [("content", PStr "A first draft");
                          ("model", PStr "m")])) 4 Examples.generating_world)
    as (Hok & _ & _ & _ & _ & _ & _ & _ & Hstored & _).
  - intros generation_result v [= <-] [= <-]. exists (Some "A first draft").
    reflexivity.
  - split; [exact Hok |].
    exact (Hstored Examples.generating_draft _ "A first draft"
             eq_refl eq_refl eq_refl).
Defined.

(** ** The draft routes *)

Lemma commit_row_other {A} (pk : A -> Z) (row r : A) rows :
  r ∈ rows -> pk r <> pk row -> r ∈ commit_row pk row rows.
Proof.
  intros Hr Hne. unfold commit_row. apply list_elem_of_fmap.
  exists r. split; [| exact Hr]. rewrite decide_False by exact Hne.
  reflexivity.
Qed.

(** X20: a draft created through [POST /drafts] belongs to the caller,
    whatever user id the request body names. For an assignment of the
    caller, the route appends one row under a fresh primary key, with the
    caller as user and no submission date; reading the draft back gives
    that row to the caller and 404 to any other user. *)
Theorem created_draft_belongs_to_caller draft_in current_user w assignment :
  first (fun a => (AssignmentModel.id a =? DraftCreate.assignment_id draft_in) &&
                  (AssignmentModel.user_id a =? UserModel.id current_user))
        (assignments (db w)) = Some assignment ->
  exists row w',
    assignments.create_draft draft_in current_user w = (Ok row, w') /\
    DraftModel.user_id row = UserModel.id current_user /\
    DraftModel.assignment_id row = DraftCreate.assignment_id draft_in /\
    DraftModel.content row = Some (DraftCreate.content draft_in) /\
    DraftModel.submission_date row = None /\
    (DraftModel.id row ∉ DraftModel.id <$> drafts (db w)) /\
    drafts (db w') = drafts (db w) ++ [row] /\
    assignments.get_draft (DraftModel.id row) current_user w' = (Ok row, w') /\
    (forall other,
       UserModel.id other <> UserModel.id current_user ->
       assignments.get_draft (DraftModel.id row) other w' =
         (Raise (HTTPException 404 "Draft not found"), w')).
Proof.
  intros Hassignment. unfold assignments.create_draft.
  rewrite bind_get, Hassignment.
  eexists _, _. split; [reflexivity |].
  do 4 (split; [reflexivity |]).
  split; [apply next_id_fresh |]. split; [reflexivity |].
  cbn [DraftModel.id]. unfold assignments.get_draft.
  assert (Hfresh : forall d, d ∈ drafts (db w) ->
            (DraftModel.id d =? next_id DraftModel.id (drafts (db w))) = false).
  { intros d Hd. apply Z.eqb_neq. intros Heq.
    apply (next_id_fresh DraftModel.id (drafts (db w))).
    apply list_elem_of_fmap. exists d. auto. }
  split.
  - rewrite bind_get. unfold set_db, add_row. cbn [db drafts].
    rewrite first_app_new; [reflexivity | |].
    + apply first_none_in. intros d Hd. rewrite (Hfresh d Hd). reflexivity.
    + cbn. rewrite !Z.eqb_refl. reflexivity.
  - intros other Hother. rewrite bind_get. unfold set_db, add_row.
    cbn [db drafts]. rewrite first_none_in; [reflexivity |].
    intros d Hd. apply elem_of_app in Hd as [Hd | Hd].
    + rewrite (Hfresh d Hd). reflexivity.
    + apply list_elem_of_singleton in Hd as ->. cbn.
      rewrite Z.eqb_refl. cbn. apply Z.eqb_neq. congruence.
Qed.

Lemma created_draft_belongs_to_caller_witness :
  exists row w',
    assignments.create_draft Examples.forged_draft Examples.student
      Examples.essay_ready = (Ok row, w') /\
    DraftModel.user_id row = 1 /\
    assignments.get_draft (DraftModel.id row) Examples.other_student w' =
      (Raise (HTTPException 404 "Draft not found"), w').
Proof.
  destruct (created_draft_belongs_to_caller Examples.forged_draft
              Examples.student Examples.essay_ready Examples.stored_essay
              eq_refl)
    as (row & w' & Hrun & Huser & _ & _ & _ & _ & _ & _ & Hother).
  exists row, w'. split; [exact Hrun |]. split; [exact Huser |].
  apply Hother. cbn. lia.
Defined.

(** X21: [PUT /drafts/{id}] on a draft of the caller. The stored row takes
    the content, the status and the feedback of the request (a request
    without feedback erases the stored feedback), and the submission date
    of the request if it has one, the stored one if not; id, user and
    assignment stay. Reading the draft back gives the row returned, no row
    is added or removed, and every draft with another id is still
    stored. *)
Theorem updated_draft_round_trip draft_id draft_in current_user w draft :
  first (fun d => (DraftModel.id d =? draft_id) &&
                  (DraftModel.user_id d =? UserModel.id current_user))
        (drafts (db w)) = Some draft ->
  let row :=
    DraftModel.mk (DraftModel.id draft)
      (Some (DraftUpdate.content draft_in))
      (Some (DraftUpdate.status draft_in))
      (DraftUpdate.feedback draft_in)
      (match DraftUpdate.submission_date draft_in with
       | Some d => Some d
       | None => DraftModel.submission_date draft
       end)
      (DraftModel.user_id draft) (DraftModel.assignment_id draft) in
  assignments.update_draft draft_id draft_in current_user w =
    (Ok row, commit_draft row w) /\
  assignments.get_draft draft_id current_user (commit_draft row w) =
    (Ok row, commit_draft row w) /\
  length (drafts (db (commit_draft row w))) = length (drafts (db w)) /\
  (forall d, d ∈ drafts (db w) -> DraftModel.id d <> draft_id ->
             d ∈ drafts (db (commit_draft row w))).
Proof.
  intros Hdraft. cbv zeta.
  pose proof (first_some_elem _ _ _ Hdraft) as [_ Hmatch].
  split; [| split; [| split]].
  - unfold assignments.update_draft. rewrite bind_get, Hdraft. reflexivity.
  - unfold assignments.get_draft. rewrite bind_get.
    cbn [commit_draft db drafts].
    rewrite (first_commit_row _ _ _ draft);
      [reflexivity | exact Hdraft | reflexivity | exact Hmatch].
  - cbn [commit_draft db drafts]. unfold commit_row. apply length_map.
  - intros d Hd Hne. cbn [commit_draft db drafts].
    apply commit_row_other; [exact Hd |]. cbn.
    apply andb_true_iff in Hmatch as [Hid _]. apply Z.eqb_eq in Hid.
    congruence.
Qed.

Lemma updated_draft_round_trip_witness :
  exists w',
    assignments.update_draft 6 Examples.revision Examples.student
      Examples.graded_world =
    (Ok (DraftModel.mk 6 (Some "My essay, revised") (Some "draft") None
           (Some (Datetime 2024 5 16 12 0)) 1 1), w') /\
    Examples.essay_draft ∈ drafts (db w').
Proof.
  destruct (updated_draft_round_trip 6 Examples.revision Examples.student
              Examples.graded_world Examples.graded_draft eq_refl)
    as (Hrun & _ & _ & Hothers).
  eexists. split; [exact Hrun |].
  apply Hothers; [| cbn; lia].
  apply list_elem_of_here.
Defined.

(** X22: an assignment, or a course, of another user is out of reach. When
    no stored assignment has the given id and the caller as user, reading
    the assignment, its materials or its drafts and creating a draft for
    it are each answered with 404 "Assignment not found"; when no stored
    course has the given id and the caller as user, reading the course is
    answered with 404 "Course not found". Nothing is changed. *)
Theorem foreign_assignment_is_out_of_reach assignment_id course_id draft_in
  current_user w :
  (not_owned AssignmentModel.id AssignmentModel.user_id assignment_id
     (UserModel.id current_user) (assignments (db w)) ->
   classroom.get_assignment assignment_id current_user w =
     (Raise (HTTPException 404 "Assignment not found"), w) /\
   classroom.get_materials assignment_id current_user w =
     (Raise (HTTPException 404 "Assignment not found"), w) /\
   assignments.get_drafts assignment_id current_user w =
     (Raise (HTTPException 404 "Assignment not found"), w) /\
   (DraftCreate.assignment_id draft_in = assignment_id ->
    assignments.create_draft draft_in current_user w =
      (Raise (HTTPException 404 "Assignment not found"), w))) /\
  (not_owned CourseModel.id CourseModel.user_id course_id
     (UserModel.id current_user) (courses (db w)) ->
   classroom.get_course course_id current_user w =
     (Raise (HTTPException 404 "Course not found"), w)).
Proof.
  split.
  - intros Hforeign. apply first_not_owned in Hforeign.
    unfold classroom.get_assignment, classroom.get_materials,
      assignments.get_drafts, assignments.create_draft.
    rewrite !bind_get, !Hforeign. do 3 (split; [reflexivity |]).
    intros ->. rewrite Hforeign. reflexivity.
  - intros Hforeign. apply first_not_owned in Hforeign.
    unfold classroom.get_course. rewrite bind_get, Hforeign. reflexivity.
Qed.

(** X23: the read routes answer with rows of the caller and change nothing.
    A course, an assignment or a draft that is returned is a stored row
    with the id asked for and the caller as user; the drafts returned for
    an assignment are exactly the stored drafts of that assignment that
    belong to the caller, and the materials returned are exactly the
    stored materials of an assignment of the caller. *)
Theorem read_routes_answer_own_rows current_user w :
  (forall course_id c w',
     classroom.get_course course_id current_user w = (Ok c, w') ->
     w' = w /\ c ∈ courses (db w) /\ CourseModel.id c = course_id /\
     CourseModel.user_id c = UserModel.id current_user) /\
  (forall assignment_id a w',
     classroom.get_assignment assignment_id current_user w = (Ok a, w') ->
     w' = w /\ a ∈ assignments (db w) /\
     AssignmentModel.id a = assignment_id /\
     AssignmentModel.user_id a = UserModel.id current_user) /\
  (forall draft_id d w',
     assignments.get_draft draft_id current_user w = (Ok d, w') ->
     w' = w /\ d ∈ drafts (db w) /\ DraftModel.id d = draft_id /\
     DraftModel.user_id d = UserModel.id current_user) /\
  (forall assignment_id ds w',
     assignments.get_drafts assignment_id current_user w = (Ok ds, w') ->
     w' = w /\
     forall d, d ∈ ds <->
               d ∈ drafts (db w) /\
               DraftModel.assignment_id d = assignment_id /\
               DraftModel.user_id d = UserModel.id current_user) /\
  (forall assignment_id ms w',
     classroom.get_materials assignment_id current_user w = (Ok ms, w') ->
     w' = w /\
     (exists a, a ∈ assignments (db w) /\
                AssignmentModel.id a = assignment_id /\
                AssignmentModel.user_id a = UserModel.id current_user) /\
     forall m, m ∈ ms <->
               m ∈ materials (db w) /\
               MaterialModel.assignment_id m = assignment_id).
Proof.
  assert (Hfound : forall A (pk owner : A -> Z) k rows r,
            first (fun r => (pk r =? k) && (owner r =? UserModel.id current_user))
                  rows = Some r ->
            r ∈ rows /\ pk r = k /\ owner r = UserModel.id current_user).
  { intros A pk owner k rows r Hr.
    apply first_some_elem in Hr as [Hin Hmatch].
    apply andb_true_iff in Hmatch as [Hk Hu].
    apply Z.eqb_eq in Hk, Hu. auto. }
  split; [| split; [| split; [| split]]].
  - intros course_id c w'. unfold classroom.get_course. rewrite bind_get.
    destruct (first _ (courses (db w))) as [c' |] eqn:Hc; [| discriminate].
    intros [= <- <-]. split; [reflexivity |].
    exact (Hfound _ CourseModel.id CourseModel.user_id _ _ _ Hc).
  - intros assignment_id a w'. unfold classroom.get_assignment.
    rewrite bind_get.
    destruct (first _ (assignments (db w))) as [a' |] eqn:Ha; [| discriminate].
    intros [= <- <-]. split; [reflexivity |].
    exact (Hfound _ AssignmentModel.id AssignmentModel.user_id _ _ _ Ha).
  - intros draft_id d w'. unfold assignments.get_draft. rewrite bind_get.
    destruct (first _ (drafts (db w))) as [d' |] eqn:Hd; [| discriminate].
    intros [= <- <-]. split; [reflexivity |].
    exact (Hfound _ DraftModel.id DraftModel.user_id _ _ _ Hd).
  - intros assignment_id ds w'. unfold assignments.get_drafts.
    rewrite bind_get.
    destruct (first _ (assignments (db w))) as [a' |]; [| discriminate].
    intros [= <- <-]. split; [reflexivity |]. intros d.
    rewrite list_elem_of_In, List.filter_In, <- list_elem_of_In,
      andb_true_iff, !Z.eqb_eq. tauto.
  - intros assignment_id ms w'. unfold classroom.get_materials.
    rewrite bind_get.
    destruct (first _ (assignments (db w))) as [a' |] eqn:Ha; [| discriminate].
    intros [= <- <-]. split; [reflexivity |].
    destruct (Hfound _ AssignmentModel.id AssignmentModel.user_id _ _ _ Ha)
      as (Hin & Hid & Huser).
    split; [eauto |]. intros m.
    rewrite list_elem_of_In, List.filter_In, <- list_elem_of_In, Z.eqb_eq, Hid.
    tauto.
Qed.

(** X24: [POST /drafts/{id}/export-pdf], when it answers. The response
    points at the temporary file that [tempfile] named, as
    "application/pdf" and under the assignment title with every space
    turned into an underscore and ".pdf" appended; the file is on disk
    when the route returns (the route removes nothing); the store is
    unchanged and no remote call is made. *)
Theorem exported_pdf_stays_on_disk disk rl now draft_id current_user w
  response w' :
  assignments.export_draft_to_pdf disk rl now draft_id current_user w =
    (Ok response, w') ->
  os.named_temporary_file disk = Ok (assignments.path response) /\
  assignments.path response ∈ fs w' /\
  assignments.media_type response = "application/pdf" /\
  (exists draft assignment title,
     first (fun d => (DraftModel.id d =? draft_id) &&
                     (DraftModel.user_id d =? UserModel.id current_user))
           (drafts (db w)) = Some draft /\
     first (fun a => AssignmentModel.id a =? DraftModel.assignment_id draft)
           (assignments (db w)) = Some assignment /\
     AssignmentModel.title assignment = Some title /\
     assignments.filename response =
       assignments.replace_spaces title +:+ ".pdf") /\
  db w' = db w /\ calls w' = calls w.
Proof.
  unfold assignments.export_draft_to_pdf. rewrite bind_get.
  destruct (first _ (drafts (db w))) as [draft |] eqn:Hdraft;
    [| discriminate].
  destruct (first _ (assignments (db w))) as [assignment |] eqn:Hassignment;
    [| discriminate].
  unfold bind at 1.
  match goal with
  | |- context [pdf_generator.generate_pdf disk rl ?content ?metadata w] =>
      pose proof (generate_pdf_disk_only disk rl content metadata w)
        as [Hdb Hcalls];
      destruct (pdf_generator.generate_pdf disk rl content metadata w)
        as [[pdf_path | e] w1] eqn:Hpdf; [| discriminate]
  end.
  cbn [snd] in Hdb, Hcalls.
  apply generate_pdf_returns in Hpdf as [Hname Hon_disk].
  destruct (AssignmentModel.title assignment) as [title |] eqn:Htitle;
    [| discriminate].
  rewrite bind_ret. intros [= <- <-]. cbn.
  split; [exact Hname |]. split; [exact Hon_disk |].
  split; [reflexivity |]. split; [| auto].
  exists draft, assignment, title. auto.
Qed.

Lemma exported_pdf_stays_on_disk_witness :
  exists response w',
    assignments.export_draft_to_pdf Examples.plain_disk
      Examples.reportlab_fine Examples.noon 5 Examples.student
      Examples.essay_ready = (Ok response, w') /\
    assignments.path response = Examples.temp_pdf /\
    Examples.temp_pdf ∈ fs w'.
Proof.
  destruct (assignments.export_draft_to_pdf Examples.plain_disk
              Examples.reportlab_fine Examples.noon 5 Examples.student
              Examples.essay_ready) as [[response | e] w'] eqn:Hrun;
    [| vm_compute in Hrun; discriminate].
  destruct (exported_pdf_stays_on_disk _ _ _ _ _ _ _ _ Hrun)
    as (Hname & Hon_disk & _).
  injection Hname as Hname.
  exists response, w'. split; [reflexivity |].
  split; [symmetry; exact Hname |]. rewrite Hname. exact Hon_disk.
Defined.

(** ** Materials: when a re-sync finds the stored row *)

Lemma conditional_falsy v :
  truthy v = false -> classroom.conditional v = Ok None.
Proof. unfold classroom.conditional. intros ->. reflexivity. Qed.

Lemma conditional_truthy v by_v :
  truthy v = true -> classroom.conditional v = Ok by_v ->
  exists t, by_v = Some t /\ to_text v = Ok t.
Proof.
  unfold classroom.conditional. intros ->.
  destruct (to_text v) as [t | e]; cbn; [| discriminate].
  intros [= <-]. eauto.
Qed.

(** One create-or-update of a material that completes: the criteria, the
    texts bound to the columns, and the row written on either path. *)
Lemma save_material_cases assignment_id c w row w1 :
  classroom.save_material assignment_id c w = (Ok row, w1) ->
  exists by_id by_url title_text url_text,
    classroom.conditional (classroom.google_material_id c) = Ok by_id /\
    classroom.conditional (classroom.url c) = Ok by_url /\
    to_text (classroom.title c) = Ok title_text /\
    to_text (classroom.url c) = Ok url_text /\
    match classroom.existing_material assignment_id by_id by_url
            (materials (db w)) with
    | None =>
        exists google_id,
          to_text (classroom.google_material_id c) = Ok google_id /\
          row = MaterialModel.mk (next_id MaterialModel.id (materials (db w)))
                  google_id title_text (Some (classroom.material_type c))
                  url_text (classroom.content c) None assignment_id /\
          w1 = with_material_rows (materials (db w) ++ [row]) w
    | Some old =>
        row = MaterialModel.mk (MaterialModel.id old)
                (MaterialModel.google_material_id old) title_text
                (Some (classroom.material_type c)) url_text
                (classroom.updated_content (classroom.content c)
                   (MaterialModel.content old))
                (MaterialModel.processed_content old)
                (MaterialModel.assignment_id old) /\
        w1 = with_material_rows
               (commit_row MaterialModel.id row (materials (db w))) w
    end.
Proof.
  unfold classroom.save_material.
  rewrite bind_lift.
  destruct (classroom.conditional (classroom.google_material_id c))
    as [by_id | e]; [| discriminate].
  rewrite bind_lift.
  destruct (classroom.conditional (classroom.url c)) as [by_url | e];
    [| discriminate].
  rewrite bind_get.
  destruct (classroom.existing_material _ _ _ _) as [old |] eqn:Hold.
  - rewrite bind_lift.
    destruct (to_text (classroom.title c)) as [title_text | e];
      [| discriminate].
    rewrite bind_lift.
    destruct (to_text (classroom.url c)) as [url_text | e]; [| discriminate].
    intros [= <- <-]. exists by_id, by_url, title_text, url_text.
    rewrite Hold. auto 6.
  - rewrite bind_lift.
    destruct (to_text (classroom.google_material_id c)) as [google_id | e];
      [| discriminate].
    rewrite bind_lift.
    destruct (to_text (classroom.title c)) as [title_text | e];
      [| discriminate].
    rewrite bind_lift.
    destruct (to_text (classroom.url c)) as [url_text | e]; [| discriminate].
    intros [= <- <-]. exists by_id, by_url, title_text, url_text.
    rewrite Hold. do 4 (split; [reflexivity |]).
    exists google_id. auto.
Qed.

Lemma updated_content_twice content stored :
  classroom.updated_content content
    (classroom.updated_content content stored) =
  classroom.updated_content content stored.
Proof.
  unfold classroom.updated_content.
  destruct (classroom.truthy_text content) eqn:H; rewrite ?H; reflexivity.
Qed.

(** X25: when a re-sync of a material finds its stored row. A material
    saved without a remote id, or without a url, is never matched with a
    stored row: each save that completes appends a row under a fresh
    primary key. A material saved with both is matched from then on:
    saving it again, against any store holding the same materials, finds
    the row just written, returns it as it is and leaves the number of
    rows unchanged. *)
Theorem material_is_matched_only_with_id_and_url assignment_id c w row w1 :
  classroom.save_material assignment_id c w = (Ok row, w1) ->
  (truthy (classroom.google_material_id c) = false \/
   truthy (classroom.url c) = false ->
   materials (db w1) = materials (db w) ++ [row] /\
   (MaterialModel.id row ∉ MaterialModel.id <$> materials (db w))) /\
  (truthy (classroom.google_material_id c) = true ->
   truthy (classroom.url c) = true ->
   forall w2,
     materials (db w2) = materials (db w1) ->
     classroom.save_material assignment_id c w2 =
       (Ok row,
        with_material_rows
          (commit_row MaterialModel.id row (materials (db w2))) w2) /\
     length (commit_row MaterialModel.id row (materials (db w2))) =
       length (materials (db w1))).
Proof.
  intros Hrun.
  apply save_material_cases in Hrun
    as (by_id & by_url & title_text & url_text &
        Hid & Hurl & Htitle & Hurl_text & Hcases).
  split.
  - intros Hfalsy.
    rewrite existing_material_needs_both in Hcases.
    + destruct Hcases as (google_id & _ & Hrow & ->).
      split; [reflexivity |]. rewrite Hrow. apply next_id_fresh.
    + destruct Hfalsy as [H | H]; apply conditional_falsy in H.
      * left. congruence.
      * right. congruence.
  - intros Hid_truthy Hurl_truthy w2 Hsame.
    destruct (conditional_truthy _ _ Hid_truthy Hid) as (id_text & -> & Hid_text).
    destruct (conditional_truthy _ _ Hurl_truthy Hurl) as (u & -> & Hu).
    assert (u = url_text) as -> by congruence.
    assert (Hfound :
              classroom.existing_material assignment_id (Some id_text)
                (Some url_text) (materials (db w1)) = Some row /\
              classroom.updated_content (classroom.content c)
                (MaterialModel.content row) = MaterialModel.content row).
    { unfold classroom.existing_material in *.
      destruct (first _ (materials (db w))) as [old |] eqn:Hold.
      - destruct Hcases as [Hrow ->]. cbn [with_material_rows db materials].
        pose proof (first_some_elem _ _ _ Hold) as [_ Hmatch].
        apply andb_true_iff in Hmatch as [Hmatch _].
        split.
        + apply (first_commit_row _ _ _ old);
            [exact Hold | rewrite Hrow; reflexivity |].
          rewrite Hrow.
          cbn [MaterialModel.google_material_id MaterialModel.assignment_id
               MaterialModel.url].
          rewrite Hmatch. cbn [andb classroom.criterion].
          unfold classroom.sql_eq. apply bool_decide_eq_true_2. reflexivity.
        + rewrite Hrow. cbn. apply updated_content_twice.
      - destruct Hcases as (google_id & Hgoogle & Hrow & ->).
        cbn [with_material_rows db materials].
        assert (google_id = id_text) as -> by congruence.
        split.
        + apply first_app_new; [exact Hold |].
          rewrite Hrow. cbn. unfold classroom.sql_eq.
          rewrite !bool_decide_eq_true_2 by reflexivity.
          rewrite Z.eqb_refl. reflexivity.
        + rewrite Hrow. cbn. unfold classroom.updated_content.
          destruct (classroom.truthy_text (classroom.content c)); reflexivity. }
    destruct Hfound as [Hfound Hcontent].
    assert (Hrow_shape :
              MaterialModel.title row = title_text /\
              MaterialModel.type row = Some (classroom.material_type c) /\
              MaterialModel.url row = url_text).
    { destruct (classroom.existing_material _ _ _ (materials (db w))).
      - destruct Hcases as [-> _]. auto.
      - destruct Hcases as (? & _ & -> & _). auto. }
    destruct Hrow_shape as (Htitle_row & Htype_row & Hurl_row).
    split.
    + rewrite <- Hsame in Hfound. unfold classroom.save_material.
      rewrite bind_lift, Hid, bind_lift, Hurl, bind_get, Hfound.
      rewrite bind_lift, Htitle, bind_lift, Hurl_text, Hcontent.
      rewrite <- Htitle_row, <- Htype_row, <- Hurl_row.
      destruct row. reflexivity.
    + unfold commit_row. rewrite length_map, Hsame. reflexivity.
Qed.

Lemma material_is_matched_only_with_id_and_url_witness :
  let save := classroom.save_material 7 Examples.video_again in
  exists row w1,
    save Examples.empty_world = (Ok row, w1) /\
    fst (save w1) = Ok row /\
    length (materials (db (snd (save w1)))) = 1%nat.
Proof.
  cbv zeta.
  destruct (classroom.save_material 7 Examples.video_again
              Examples.empty_world) as [[row | e] w1] eqn:Hrun;
    [| vm_compute in Hrun; discriminate].
  exists row, w1. split; [reflexivity |].
  destruct (material_is_matched_only_with_id_and_url _ _ _ _ _ Hrun)
    as [_ Hagain].
  destruct (Hagain eq_refl eq_refl w1 eq_refl) as [Hsecond Hlength].
  rewrite Hsecond. cbn [fst snd with_material_rows db materials].
  split; [reflexivity |]. rewrite Hlength.
  vm_compute in Hrun. injection Hrun as _ <-. reflexivity.
Defined.

(** ** Classification of a material *)
Section Classification.
Variable utf_8 : list Byte.byte -> result string.
Variable drive_service : google_drive.api.

Local Abbreviation classify := (classroom.classify utf_8 drive_service).

Ltac decide_key payload k H :=
  first
    [ rewrite (bind_lift (py_in k (PDict payload))), (py_in_present k payload _ H)
    | rewrite (bind_lift (py_in k (PDict payload))), (py_in_absent k payload H) ];
  cbv iota.

Ltac take_key payload k H :=
  rewrite (bind_lift (py_getitem (PDict payload) k)),
    (py_getitem_present k payload _ H).

(** X26: the variant of a material is decided by the first of the keys
    "driveFile", "youtubeVideo", "link", "form" that it carries, in this
    order of priority; the keys after it, and every other key, are
    ignored. *)
Theorem classify_takes_first_variant (payload : dict) (v : pyval) w :
  (dict_lookup "driveFile" payload = Some v ->
   classify (PDict payload) w = classify (PDict [("driveFile", v)]) w) /\
  (dict_lookup "driveFile" payload = None ->
   dict_lookup "youtubeVideo" payload = Some v ->
   classify (PDict payload) w = classify (PDict [("youtubeVideo", v)]) w) /\
  (dict_lookup "driveFile" payload = None ->
   dict_lookup "youtubeVideo" payload = None ->
   dict_lookup "link" payload = Some v ->
   classify (PDict payload) w = classify (PDict [("link", v)]) w) /\
  (dict_lookup "driveFile" payload = None ->
   dict_lookup "youtubeVideo" payload = None ->
   dict_lookup "link" payload = None ->
   dict_lookup "form" payload = Some v ->
   classify (PDict payload) w = classify (PDict [("form", v)]) w).
Proof.
  unfold classroom.classify.
  split; [| split; [| split]].
  - intros Hd.
    assert (Hd' : dict_lookup "driveFile" [("driveFile", v)] = Some v)
      by reflexivity.
    decide_key payload "driveFile" Hd.
    decide_key [("driveFile", v)] "driveFile" Hd'.
    take_key payload "driveFile" Hd.
    take_key [("driveFile", v)] "driveFile" Hd'.
    reflexivity.
  - intros Hd Hy.
    assert (Hd' : dict_lookup "driveFile" [("youtubeVideo", v)] = None)
      by reflexivity.
    assert (Hy' : dict_lookup "youtubeVideo" [("youtubeVideo", v)] = Some v)
      by reflexivity.
    decide_key payload "driveFile" Hd.
    decide_key [("youtubeVideo", v)] "driveFile" Hd'.
    decide_key payload "youtubeVideo" Hy.
    decide_key [("youtubeVideo", v)] "youtubeVideo" Hy'.
    take_key payload "youtubeVideo" Hy.
    take_key [("youtubeVideo", v)] "youtubeVideo" Hy'.
    reflexivity.
  - intros Hd Hy Hl.
    assert (Hd' : dict_lookup "driveFile" [("link", v)] = None) by reflexivity.
    assert (Hy' : dict_lookup "youtubeVideo" [("link", v)] = None)
      by reflexivity.
    assert (Hl' : dict_lookup "link" [("link", v)] = Some v) by reflexivity.
    decide_key payload "driveFile" Hd.
    decide_key [("link", v)] "driveFile" Hd'.
    decide_key payload "youtubeVideo" Hy.
    decide_key [("link", v)] "youtubeVideo" Hy'.
    decide_key payload "link" Hl.
    decide_key [("link", v)] "link" Hl'.
    take_key payload "link" Hl.
    take_key [("link", v)] "link" Hl'.
    reflexivity.
  - intros Hd Hy Hl Hf.
    assert (Hd' : dict_lookup "driveFile" [("form", v)] = None) by reflexivity.
    assert (Hy' : dict_lookup "youtubeVideo" [("form", v)] = None)
      by reflexivity.
    assert (Hl' : dict_lookup "link" [("form", v)] = None) by reflexivity.
    assert (Hf' : dict_lookup "form" [("form", v)] = Some v) by reflexivity.
    decide_key payload "driveFile" Hd.
    decide_key [("form", v)] "driveFile" Hd'.
    decide_key payload "youtubeVideo" Hy.
    decide_key [("form", v)] "youtubeVideo" Hy'.
    decide_key payload "link" Hl.
    decide_key [("form", v)] "link" Hl'.
    decide_key payload "form" Hf.
    decide_key [("form", v)] "form" Hf'.
    take_key payload "form" Hf.
    take_key [("form", v)] "form" Hf'.
    reflexivity.
Qed.

(** X27: the content of a shared Drive file. For a material whose
    "driveFile" entry wraps a file record: without a file id no download
    is attempted and the content is null; with a file id the download is
    attempted once and the content is never null: it is the decoded text,
    "[Error decoding content]" when the bytes do not decode, and
    "[Content download failed]" when the download gave nothing.
    Classifying writes neither to the store nor to the disk. *)
Theorem drive_file_content (payload wrapper file : dict) w :
  dict_lookup "driveFile" payload = Some (PDict wrapper) ->
  dict_lookup "driveFile" wrapper = Some (PDict file) ->
  let file_id := from_option id PNone (dict_lookup "id" file) in
  let download := google_drive.download_file drive_service file_id w in
  exists c w',
    classify (PDict payload) w = (Ok c, w') /\
    w' = (if truthy file_id then snd download else w) /\
    classroom.material_type c = "drive_file" /\
    classroom.google_material_id c = file_id /\
    classroom.content c =
      (if truthy file_id then
         Some match fst download with
              | Ok (Some fh) =>
                  match utf_8 (google_drive.read fh) with
                  | Ok text => text
                  | Raise _ => "[Error decoding content]"
                  end
              | _ => "[Content download failed]"
              end
       else None) /\
    db w' = db w /\ fs w' = fs w.
Proof.
  intros Hpayload Hwrapper. cbv zeta. unfold classroom.classify.
  decide_key payload "driveFile" Hpayload.
  take_key payload "driveFile" Hpayload.
  rewrite bind_lift. cbn [py_get]. rewrite Hwrapper. cbn [from_option id].
  cbn [py_get]. rewrite !bind_lift.
  destruct (truthy (from_option id PNone (dict_lookup "id" file))).
  - unfold bind.
    pose proof (download_file_eq drive_service
                  (from_option id PNone (dict_lookup "id" file)) w) as Heq.
    cbv zeta in Heq.
    assert (Hframe :
              db (snd (google_drive.download_file drive_service
                         (from_option id PNone (dict_lookup "id" file)) w)) =
                db w /\
              fs (snd (google_drive.download_file drive_service
                         (from_option id PNone (dict_lookup "id" file)) w)) =
                fs w /\
              exists r,
                fst (google_drive.download_file drive_service
                       (from_option id PNone (dict_lookup "id" file)) w) =
                  Ok r).
    { rewrite Heq.
      match goal with
      | |- context [match ?r with _ => _ end] => destruct r as [[rq |] | e]
      end; cbn; eauto. }
    destruct Hframe as (Hdb & Hfs & r & Hr).
    destruct (google_drive.download_file drive_service _ w) as [r' w1].
    cbn [fst snd] in *. subst r'.
    destruct r as [fh |].
    + destruct (utf_8 (google_drive.read fh)); cbn;
        eexists _, _; (split; [reflexivity |]); auto 7.
    + cbn. eexists _, _. split; [reflexivity |]. auto 7.
  - cbn. eexists _, _. split; [reflexivity |]. auto 7.
Qed.

End Classification.

Lemma classify_takes_first_variant_witness :
  exists c w',
    classroom.classify Examples.seven_bit Examples.binary_drive
      (PDict Examples.scan_and_link) Examples.empty_world = (Ok c, w') /\
    classroom.material_type c = "drive_file".
Proof.
  destruct (classify_takes_first_variant Examples.seven_bit
              Examples.binary_drive Examples.scan_and_link
              (PDict [("driveFile",
                       PDict [("id", PStr "f1"); ("title", PStr "Scan")])])
              Examples.empty_world) as [Hfirst _].
  rewrite (Hfirst eq_refl).
  eexists _, _. split; [vm_compute; reflexivity | reflexivity].
Defined.

Lemma drive_file_content_witness :
  exists c w',
    classroom.classify Examples.seven_bit Examples.binary_drive
      (PDict Examples.scan_and_link) Examples.empty_world = (Ok c, w') /\
    classroom.content c = Some "[Error decoding content]".
Proof.
  destruct (drive_file_content Examples.seven_bit Examples.binary_drive
              Examples.scan_and_link
              [("driveFile", PDict [("id", PStr "f1"); ("title", PStr "Scan")])]
              [("id", PStr "f1"); ("title", PStr "Scan")]
              Examples.empty_world eq_refl eq_refl)
    as (c & w' & Hrun & _ & _ & _ & Hcontent & _).
  exists c, w'. split; [exact Hrun |].
  rewrite Hcontent. vm_compute. reflexivity.
Defined.

(** ** When Classroom does not answer *)

(** X28: the materials lookup of the Classroom service never raises. It
    gives the "materials" entry of the coursework record, the empty list
    when the record has none, and the empty list whenever the lookup of
    the record fails, with an [HttpError] or with anything else; the
    lookup of the record itself, by contrast, turns an [HttpError] into
    the empty dict and lets every other exception through. *)
Theorem service_materials_never_raise classroom course_id assignment_id :
  (exists materials,
     google_classroom.get_materials classroom course_id assignment_id =
       Ok materials) /\
  (forall e,
     google_classroom.courseWork_get classroom course_id assignment_id =
       Raise e ->
     google_classroom.get_materials classroom course_id assignment_id =
       Ok (PList []) /\
     google_classroom.get_assignment classroom course_id assignment_id =
       (if is_kind HttpError e then Ok (PDict []) else Raise e)) /\
  (forall record : dict,
     google_classroom.courseWork_get classroom course_id assignment_id =
       Ok (PDict record) ->
     google_classroom.get_materials classroom course_id assignment_id =
       Ok (from_option id (PList []) (dict_lookup "materials" record))).
Proof.
  unfold google_classroom.get_materials, google_classroom.get_assignment,
    google_classroom.except_http.
  split; [| split].
  - destruct (google_classroom.courseWork_get classroom course_id assignment_id)
      as [v | e]; cbn [rbind].
    + destruct (py_get v "materials" (PList [])); eauto.
    + destruct (is_kind HttpError e); cbn; eauto.
  - intros e ->. split; [| reflexivity].
    destruct (is_kind HttpError e); reflexivity.
  - intros record ->. reflexivity.
Qed.

Lemma service_materials_never_raise_witness :
  google_classroom.get_materials Examples.timing_out (PStr "c1") (PStr "cw1") =
    Ok (PList []) /\
  google_classroom.get_assignment Examples.timing_out (PStr "c1") (PStr "cw1") =
    Raise (Exn OtherError "timed out").
Proof.
  destruct (service_materials_never_raise Examples.timing_out (PStr "c1")
              (PStr "cw1")) as (_ & Hfails & _).
  exact (Hfails (Exn OtherError "timed out") eq_refl).
Defined.

(** X29: a sync is silent when Classroom is down. If the listing call fails
    with an [HttpError], [GET /courses], and for a course of the caller
    [GET /courses/{id}/assignments], answer with the empty list as if
    nothing were there to sync: no exception reaches the caller and the
    store is left as it was; the listing is the only remote call made. *)
Theorem sync_is_silent_when_classroom_is_down utf_8 drive_service
  classroom_service current_user w :
  classroom.truthy_text (UserModel.google_access_token current_user) = true ->
  (forall e,
     google_classroom.courses_list classroom_service = Raise e ->
     is_kind HttpError e = true ->
     classroom.get_courses classroom_service current_user w =
       (Ok [], logged w [ClassroomCoursesList])) /\
  (forall course_id db_course e,
     first (fun c => (CourseModel.id c =? course_id) &&
                     (CourseModel.user_id c =? UserModel.id current_user))
           (courses (db w)) = Some db_course ->
     google_classroom.courseWork_list classroom_service
       (of_text (CourseModel.google_course_id db_course)) = Raise e ->
     is_kind HttpError e = true ->
     classroom.get_assignments utf_8 drive_service classroom_service course_id
       current_user w =
       (Ok [],
        logged w [ClassroomCourseWorkList
                    (of_text (CourseModel.google_course_id db_course))])).
Proof.
  intros Htoken. split.
  - intros e Hlist Hhttp.
    rewrite get_courses_eq, Htoken. cbn [negb].
    unfold fetched_courses. rewrite Hlist. cbn [rbind]. rewrite Hhttp.
    reflexivity.
  - intros course_id db_course e Hcourse Hlist Hhttp.
    rewrite get_assignments_eq, Htoken, Hcourse. cbn [negb]. cbv zeta.
    unfold fetched_coursework. rewrite Hlist. cbn [rbind]. rewrite Hhttp.
    reflexivity.
Qed.

Lemma sync_is_silent_when_classroom_is_down_witness :
  classroom.get_courses Examples.classroom_down Examples.student
    Examples.algebra_world =
  (Ok [], logged Examples.algebra_world [ClassroomCoursesList]).
Proof.
  destruct (sync_is_silent_when_classroom_is_down Examples.seven_bit
              Examples.notes_drive Examples.classroom_down Examples.student
              Examples.algebra_world eq_refl) as [Hcourses _].
  exact (Hcourses (Exn HttpError "unavailable") eq_refl eq_refl).
Defined.
